(** * CR95HF driver: frame codec, response transport and ISO14443-A discovery

    A shallow embedding of [src/CR95HF.h] and [src/CR95HF.cpp].

    - Bytes ([uint8_t]) are integers in [0, 256); [uint32_t] clock readings
      are integers in [0, 2^32) with the wrap-around written out.
    - [CR95HF_Frame] is the 32-cell array [data] together with its fill
      level [len], exactly as the class declares it.
    - The serial port and the millisecond clock form the environment
      ([Port]): a FIFO of time-stamped incoming bytes, the log of the
      frames written, and the replies the chip will give.
    - Time passes in the idle passes of the polling loops, one tick each;
      taking a byte that is there costs no time.
    - The blocking receive loops are fuel-bounded fixpoints; the result
      [None] of a loop means "still polling when the fuel ran out".
    - Output parameters passed by reference ([code], [buf], [len], [uid],
      [uidLen], [sakOut]) are threaded through as explicit values.
      Uninitialised locals ([code], [buf]) start as zeros; the code never
      reads them before [readResponse] has written them.
    - A store past the end of a receive buffer is recorded in [spill].
      [readResponse] and one bare exchange report it there.  The driver's
      steps receive into arrays local to them: a store past the end of
      such an array lands in the stack frame, the C++ program has no
      defined behaviour from there on, and the step has no result
      ([None]).
    - The caller's [uid] buffer is a list of the buffer's size; the
      statements about calls that store to it ask for the room these
      stores need (7 bytes; the header asks the caller for 10).
    - [log] and [logHex] print to the debug console only and are left out. *)

From Stdlib Require Import ZArith List Lia Bool.
From Stdlib Require String.
From stdpp Require Import base list.
Import ListNotations.
Import String.StringSyntax.
Open Scope Z_scope.
Delimit Scope string_scope with string.

(** ** Protocol constants (CR95HF.h) *)

Definition CR95HF_CMD_IDN : Z := 0x01.
Definition CR95HF_CMD_PROTOCOL : Z := 0x02.
Definition CR95HF_CMD_SENDRECV : Z := 0x04.

Definition CR95HF_RSP_SUCCESS : Z := 0x00.
Definition CR95HF_RSP_DATA : Z := 0x80.
Definition CR95HF_RSP_TIMEOUT : Z := 0x87.

Definition CR95HF_PROTO_ISO14443A : Z := 0x02.

Definition ISO14443A_REQA : Z := 0x26.
Definition ISO14443A_WUPA : Z := 0x52.
Definition ISO14443A_CT : Z := 0x88.
Definition ISO14443A_SEL_CL1 : Z := 0x93.
Definition ISO14443A_SEL_CL2 : Z := 0x95.
Definition ISO14443A_NVB_ANTICOLL : Z := 0x20.
Definition ISO14443A_NVB_SELECT : Z := 0x70.

Definition CR95HF_FLAG_SHORTFRAME : Z := 0x07.
Definition CR95HF_FLAG_STD : Z := 0x08.
Definition CR95HF_FLAG_STD_CRC : Z := 0x28.

(** Conversion to [uint8_t] and [uint32_t]. *)
Definition u8 (z : Z) : Z := z mod 256.
Definition u32 (z : Z) : Z := z mod 2 ^ 32.

(** Reading cell [i] of a C array held as a list. *)
Definition cell (l : list Z) (i : nat) : Z := nth i l 0.

(** ** CR95HF_Frame *)

Record CR95HF_Frame := mkFrame {
  data : list Z;   (* uint8_t data[32] *)
  len : Z          (* uint8_t len *)
}.

(** [sizeof(data)] *)
Definition sizeof_data : Z := 32.

(** A frame object as the class lays it out: 32 cells, fill level within
    the array. *)
Definition frame_wf (f : CR95HF_Frame) : Prop :=
  length (data f) = 32%nat /\ 0 <= len f <= 32.

(** The default constructor sets only [len]; the cells are whatever the
    storage held, here zeros. *)
Definition frame0 : CR95HF_Frame := mkFrame (replicate 32 0) 0.

Definition clear (f : CR95HF_Frame) : CR95HF_Frame := mkFrame (data f) 0.

(** [void add(uint8_t b) { if (len < sizeof(data)) data[len++] = b; }] *)
Definition add (b : Z) (f : CR95HF_Frame) : CR95HF_Frame :=
  if len f <? sizeof_data
  then mkFrame (<[Z.to_nat (len f) := b]> (data f)) (len f + 1)
  else f.

(** [for (uint8_t i = 0; i < n; i++) add(src[i]);] *)
Definition add_range (src : list Z) (n : Z) (f : CR95HF_Frame) : CR95HF_Frame :=
  fold_left (fun acc i => add (cell src i) acc) (seq 0 (Z.to_nat n)) f.

Definition buildIDN (f : CR95HF_Frame) : CR95HF_Frame :=
  add 0x00 (add CR95HF_CMD_IDN (clear f)).

Definition buildProtocolSelect (proto param : Z) (f : CR95HF_Frame) : CR95HF_Frame :=
  add param (add proto (add 0x02 (add CR95HF_CMD_PROTOCOL (clear f)))).

Definition buildSendRecv (rfData : list Z) (rfLen flags : Z) (f : CR95HF_Frame)
  : CR95HF_Frame :=
  add flags
    (add_range rfData rfLen
       (add (u8 (rfLen + 1)) (add CR95HF_CMD_SENDRECV (clear f)))).

Definition buildREQA (f : CR95HF_Frame) : CR95HF_Frame :=
  add CR95HF_FLAG_SHORTFRAME
    (add ISO14443A_REQA (add 0x02 (add CR95HF_CMD_SENDRECV (clear f)))).

Definition buildWUPA (f : CR95HF_Frame) : CR95HF_Frame :=
  add CR95HF_FLAG_SHORTFRAME
    (add ISO14443A_WUPA (add 0x02 (add CR95HF_CMD_SENDRECV (clear f)))).

Definition buildAnticollCL1 (f : CR95HF_Frame) : CR95HF_Frame :=
  add CR95HF_FLAG_STD
    (add ISO14443A_NVB_ANTICOLL
       (add ISO14443A_SEL_CL1 (add 0x03 (add CR95HF_CMD_SENDRECV (clear f))))).

Definition buildAnticollCL2 (f : CR95HF_Frame) : CR95HF_Frame :=
  add CR95HF_FLAG_STD
    (add ISO14443A_NVB_ANTICOLL
       (add ISO14443A_SEL_CL2 (add 0x03 (add CR95HF_CMD_SENDRECV (clear f))))).

Definition buildSelectCL1 (uid4bcc : list Z) (f : CR95HF_Frame) : CR95HF_Frame :=
  add CR95HF_FLAG_STD_CRC
    (add_range uid4bcc 5
       (add ISO14443A_NVB_SELECT
          (add ISO14443A_SEL_CL1 (add 0x08 (add CR95HF_CMD_SENDRECV (clear f)))))).

Definition buildSelectCL2 (uid4bcc : list Z) (f : CR95HF_Frame) : CR95HF_Frame :=
  add CR95HF_FLAG_STD_CRC
    (add_range uid4bcc 5
       (add ISO14443A_NVB_SELECT
          (add ISO14443A_SEL_CL2 (add 0x08 (add CR95HF_CMD_SENDRECV (clear f)))))).

(** The bytes [_port->write(frame.data, frame.len)] puts on the wire. *)
Definition wire (f : CR95HF_Frame) : list Z := take (Z.to_nat (len f)) (data f).

(** The builders of the class, as calls. *)
Inductive builder_call :=
| CallIDN
| CallProtocolSelect (proto param : Z)
| CallSendRecv (rfData : list Z) (rfLen flags : Z)
| CallREQA
| CallWUPA
| CallAnticollCL1
| CallAnticollCL2
| CallSelectCL1 (uid4bcc : list Z)
| CallSelectCL2 (uid4bcc : list Z).

Definition build (c : builder_call) (f : CR95HF_Frame) : CR95HF_Frame :=
  match c with
  | CallIDN => buildIDN f
  | CallProtocolSelect proto param => buildProtocolSelect proto param f
  | CallSendRecv rfData rfLen flags => buildSendRecv rfData rfLen flags f
  | CallREQA => buildREQA f
  | CallWUPA => buildWUPA f
  | CallAnticollCL1 => buildAnticollCL1 f
  | CallAnticollCL2 => buildAnticollCL2 f
  | CallSelectCL1 c1 => buildSelectCL1 c1 f
  | CallSelectCL2 c2 => buildSelectCL2 c2 f
  end.

(** Number of payload bytes the call asks the frame to carry (everything
    after the command code and the length byte). *)
Definition requested_payload (c : builder_call) : Z :=
  match c with
  | CallIDN => 0
  | CallProtocolSelect _ _ => 2
  | CallSendRecv _ rfLen _ => rfLen + 1
  | CallREQA | CallWUPA => 2
  | CallAnticollCL1 | CallAnticollCL2 => 3
  | CallSelectCL1 _ | CallSelectCL2 _ => 8
  end.

(** [rfLen] is a [uint8_t]; the pointers address at least the bytes the
    builder reads. *)
Definition call_wf (c : builder_call) : Prop :=
  match c with
  | CallSendRecv rfData rfLen _ =>
      0 <= rfLen <= 255 /\ rfLen <= Z.of_nat (length rfData)
  | CallSelectCL1 uid4bcc | CallSelectCL2 uid4bcc => (5 <= length uid4bcc)%nat
  | _ => True
  end.

(** The length byte (second byte on the wire) and the number of payload
    bytes really present after the two header bytes. *)
Definition length_byte (f : CR95HF_Frame) : Z := cell (wire f) 1.
Definition payload_count (f : CR95HF_Frame) : Z := Z.of_nat (length (wire f)) - 2.

(** ** The environment: serial port and millisecond clock

    [clock] counts ticks since power-up; one idle pass of a polling loop
    lasts one tick and [ticks_per_ms] ticks make a millisecond.  [rx] is
    the line towards the host, a FIFO of bytes each stamped with the tick
    at which [available()] starts to report it.  [tx] logs every buffer
    given to [write].  [script] holds the replies of the chip to the next
    writes, each byte with its delay in ticks after the write. *)

Record Port := mkPort {
  clock : Z;
  rx : list (Z * Z);
  tx : list (list Z);
  script : list (list (Z * Z))
}.

(** The caller's receive buffer: its cells, and the stores that fell
    outside it (index, byte), which a C array does not catch. *)
Record Buffer := mkBuf {
  cells : list Z;
  spill : list (Z * Z)
}.

(** [buf[n] = b] *)
Definition store (n b : Z) (buf : Buffer) : Buffer :=
  if n <? Z.of_nat (length (cells buf))
  then mkBuf (<[Z.to_nat n := b]> (cells buf)) (spill buf)
  else mkBuf (cells buf) (spill buf ++ [(n, b)]).

(** A local [uint8_t buf[cap]]. *)
Definition local_buf (cap : nat) : Buffer := mkBuf (replicate cap 0) [].

(** What [readResponse] leaves in its reference parameters, and its
    return value. *)
Record Response := mkResponse {
  rr_ok : bool;
  rr_code : Z;
  rr_buf : Buffer;
  rr_len : Z
}.

(** Whether a store of the response fell outside the buffer. *)
Definition overran (r : Response) : bool :=
  match spill (rr_buf r) with
  | [] => false
  | _ :: _ => true
  end.

(** The driver object. *)
Record CR95HF := mkDriver {
  _port : Port;
  _txFrame : CR95HF_Frame;
  lastATQA : list Z          (* uint8_t lastATQA[2] *)
}.

(** Output parameters of [iso14443aGetUID]. *)
Record UidOut := mkUidOut {
  uid : list Z;
  uidLen : Z;
  sakOut : Z
}.

(** Driver code runs in a state monad over the driver object.  [None]:
    the call has no result, because a receive loop was still polling
    when the fuel ran out, or because a step stored outside its local
    array. *)
Definition M (A : Type) : Type := CR95HF -> option (A * CR95HF).

Definition ret {A} (a : A) : M A := fun d => Some (a, d).

Definition bind {A B} (m : M A) (k : A -> M B) : M B :=
  fun d => match m d with
           | Some (a, d') => k a d'
           | None => None
           end.

Notation "x <- m ;; k" := (bind m (fun x => k))
  (at level 100, m at next level, right associativity).
Notation "m ;;; k" := (bind m (fun _ => k))
  (at level 100, right associativity).

Section Driver.

(** Polling rate of the wait loops and the number of loop passes the
    model follows. *)
Variable ticks_per_ms : Z.
Variable fuel : nat.

(** [millis()] *)
Definition millis (p : Port) : Z := u32 (clock p / ticks_per_ms).

(** [_port->available()], used as a truth value. *)
Definition available (p : Port) : bool :=
  match rx p with
  | (s, _) :: _ => s <=? clock p
  | [] => false
  end.

(** [_port->read()] converted to [uint8_t]; an empty port gives -1. *)
Definition port_read (p : Port) : Z * Port :=
  match rx p with
  | (s, b) :: q =>
      if s <=? clock p
      then (u8 b, mkPort (clock p) q (tx p) (script p))
      else (u8 (-1), p)
  | [] => (u8 (-1), p)
  end.

(** [_port->write(bytes, n)]: the chip's next reply starts its way. *)
Definition port_write (bytes : list Z) (p : Port) : Port :=
  mkPort (clock p)
         (rx p ++ map (fun sb => (clock p + fst sb, snd sb)) (hd [] (script p)))
         (tx p ++ [bytes])
         (tl (script p)).

(** One idle pass of a polling loop. *)
Definition tick (p : Port) : Port :=
  mkPort (clock p + 1) (rx p) (tx p) (script p).

(** [while (_port->available()) _port->read();]  Each pass removes one
    byte, so the number of bytes on the line bounds the passes. *)
Fixpoint flush_loop (n : nat) (p : Port) : Port :=
  match n with
  | O => p
  | S n' => if available p then flush_loop n' (snd (port_read p)) else p
  end.

Definition flushRx (p : Port) : Port := flush_loop (length (rx p)) p.

Definition sendFrame (frame : CR95HF_Frame) (p : Port) : Port :=
  port_write (wire frame) (flushRx p).

(** [millis() - start > timeoutMs] in [uint32_t] arithmetic. *)
Definition timed_out (start timeoutMs : Z) (p : Port) : bool :=
  timeoutMs <? u32 (millis p - start).

(** [while (!_port->available()) { if (millis() - start > timeoutMs) return false; }]
    [true]: a byte is there; [false]: the [return false] was taken. *)
Fixpoint wait_available (n : nat) (start timeoutMs : Z) (p : Port)
  : option (bool * Port) :=
  match n with
  | O => None
  | S n' =>
      if available p then Some (true, p)
      else if timed_out start timeoutMs p then Some (false, p)
      else wait_available n' start timeoutMs (tick p)
  end.

(** The payload loop
    [while (n < respLen) { if (available()) buf[n++] = read(); else if (millis() - start > timeoutMs) return false; }].
    [n] stays below [respLen <= 255], so [n++] never wraps. *)
Fixpoint read_payload (k : nat) (start timeoutMs respLen n : Z)
         (buf : Buffer) (p : Port) : option (bool * Z * Buffer * Port) :=
  match k with
  | O => None
  | S k' =>
      if n <? respLen then
        if available p then
          let (b, p') := port_read p in
          read_payload k' start timeoutMs respLen (n + 1) (store n b buf) p'
        else if timed_out start timeoutMs p then Some (false, n, buf, p)
        else read_payload k' start timeoutMs respLen n buf (tick p)
      else Some (true, n, buf, p)
  end.

(** [bool readResponse(uint8_t& code, uint8_t* buf, uint8_t& len, uint32_t timeoutMs)].
    The value of [len] on entry is never read. *)
Definition readResponse (code : Z) (buf : Buffer) (len timeoutMs : Z) (p : Port)
  : option (Response * Port) :=
  let start := millis p in
  match wait_available fuel start timeoutMs p with
  | None => None
  | Some (false, p1) => Some (mkResponse false code buf len, p1)
  | Some (true, p1) =>
      let (code', p2) := port_read p1 in
      match wait_available fuel start timeoutMs p2 with
      | None => None
      | Some (false, p3) => Some (mkResponse false code' buf len, p3)
      | Some (true, p3) =>
          let (respLen, p4) := port_read p3 in
          match read_payload fuel start timeoutMs respLen 0 buf p4 with
          | None => None
          | Some (false, _, buf', p5) => Some (mkResponse false code' buf' len, p5)
          | Some (true, n, buf', p5) => Some (mkResponse true code' buf' n, p5)
          end
      end
  end.

(** [_txFrame.buildX(...)] *)
Definition build_tx (c : builder_call) : M unit :=
  fun d => Some (tt, mkDriver (_port d) (build c (_txFrame d)) (lastATQA d)).

(** [sendFrame(_txFrame)] *)
Definition send_tx : M unit :=
  fun d => Some (tt, mkDriver (sendFrame (_txFrame d) (_port d)) (_txFrame d) (lastATQA d)).

(** [uint8_t code, buf[cap], len = sizeof(buf); readResponse(code, buf, len, timeoutMs)] *)
Definition receive (cap : nat) (timeoutMs : Z) : M Response :=
  fun d => match readResponse 0 (local_buf cap) (Z.of_nat cap) timeoutMs (_port d) with
           | Some (r, p') => Some (r, mkDriver p' (_txFrame d) (lastATQA d))
           | None => None
           end.

(** The same with [buf] an array local to the calling function, as in
    every step of the driver.  A response that overran the array has
    overwritten the function's stack frame; nothing is said of the
    program from there on. *)
Definition receive_local (cap : nat) (timeoutMs : Z) : M Response :=
  r <- receive cap timeoutMs ;;
  if overran r then (fun _ => None) else ret r.

(** [sendReqWup]: [Some (atqa1, atqa2)] when it returns true, [None]
    when it returns false (the two references are then untouched). *)
Definition sendReqWup (cmd : Z) : M (option (Z * Z)) :=
  build_tx (if cmd =? ISO14443A_WUPA then CallWUPA else CallREQA) ;;;
  send_tx ;;;
  r <- receive_local 16 20 ;;
  if negb (rr_ok r) then ret None
  else if negb (rr_code r =? CR95HF_RSP_DATA) || (rr_len r <? 2) then ret None
  else ret (Some (cell (cells (rr_buf r)) 0, cell (cells (rr_buf r)) 1)).

(** [anticollCL1]: [Some cl1] (the 5 bytes copied out) or [None]. *)
Definition anticollCL1 : M (option (list Z)) :=
  build_tx CallAnticollCL1 ;;;
  send_tx ;;;
  r <- receive_local 16 50 ;;
  if negb (rr_ok r) then ret None
  else if negb (rr_code r =? CR95HF_RSP_DATA) || (rr_len r <? 5) then ret None
  else ret (Some (take 5 (cells (rr_buf r)))).

Definition selectCL1 (cl1 : list Z) : M (option Z) :=
  build_tx (CallSelectCL1 cl1) ;;;
  send_tx ;;;
  r <- receive_local 8 50 ;;
  if negb (rr_ok r) then ret None
  else if negb (rr_code r =? CR95HF_RSP_DATA) || (rr_len r <? 1) then ret None
  else ret (Some (cell (cells (rr_buf r)) 0)).

Definition anticollCL2 : M (option (list Z)) :=
  build_tx CallAnticollCL2 ;;;
  send_tx ;;;
  r <- receive_local 16 50 ;;
  if negb (rr_ok r) then ret None
  else if negb (rr_code r =? CR95HF_RSP_DATA) || (rr_len r <? 5) then ret None
  else ret (Some (take 5 (cells (rr_buf r)))).

Definition selectCL2 (cl2 : list Z) : M (option Z) :=
  build_tx (CallSelectCL2 cl2) ;;;
  send_tx ;;;
  r <- receive_local 8 50 ;;
  if negb (rr_ok r) then ret None
  else if negb (rr_code r =? CR95HF_RSP_DATA) || (rr_len r <? 1) then ret None
  else ret (Some (cell (cells (rr_buf r)) 0)).

(** [lastATQA[0] = atqa1; lastATQA[1] = atqa2;] *)
Definition set_atqa (atqa1 atqa2 : Z) (d : CR95HF) : CR95HF :=
  mkDriver (_port d) (_txFrame d)
           (<[1%nat := atqa2]> (<[0%nat := atqa1]> (lastATQA d))).

Definition store_atqa (atqa1 atqa2 : Z) : M unit :=
  fun d => Some (tt, set_atqa atqa1 atqa2 d).

(** The wake step of [iso14443aGetUID]: WUPA, then REQA if that failed. *)
Definition wake : M (option (Z * Z)) :=
  r <- sendReqWup ISO14443A_WUPA ;;
  match r with
  | Some a => ret (Some a)
  | None => sendReqWup ISO14443A_REQA
  end.

(** [iso14443aGetUID] from "Store ATQA for debugging" to its end: the
    cascade levels, entered once a wake command has produced an ATQA.
    [uid0] is the caller's buffer; [uidLen] and [sakOut] are 0 here. *)
Definition resolve_uid (uid0 : list Z) (atqa1 atqa2 : Z) : M (bool * UidOut) :=
  store_atqa atqa1 atqa2 ;;;
  c1 <- anticollCL1 ;;
  match c1 with
  | None => ret (false, mkUidOut uid0 0 0)
  | Some cl1 =>
      s1 <- selectCL1 cl1 ;;
      match s1 with
      | None => ret (false, mkUidOut uid0 0 0)
      | Some sak1 =>
          if negb (cell cl1 0 =? ISO14443A_CT) then
            ret (true,
                 mkUidOut (<[3%nat := cell cl1 3]>
                           (<[2%nat := cell cl1 2]>
                            (<[1%nat := cell cl1 1]>
                             (<[0%nat := cell cl1 0]> uid0))))
                          4 sak1)
          else
            let uid1 := <[2%nat := cell cl1 3]>
                        (<[1%nat := cell cl1 2]>
                         (<[0%nat := cell cl1 1]> uid0)) in
            c2 <- anticollCL2 ;;
            match c2 with
            | None => ret (false, mkUidOut uid1 0 0)
            | Some cl2 =>
                s2 <- selectCL2 cl2 ;;
                match s2 with
                | None => ret (false, mkUidOut uid1 0 0)
                | Some sak2 =>
                    ret (true,
                         mkUidOut (<[6%nat := cell cl2 3]>
                                   (<[5%nat := cell cl2 2]>
                                    (<[4%nat := cell cl2 1]>
                                     (<[3%nat := cell cl2 0]> uid1))))
                                  7 sak2)
                end
            end
      end
  end.

(** [bool iso14443aGetUID(uint8_t* uid, uint8_t& uidLen, uint8_t& sakOut)]:
    [uidLen = 0; sakOut = 0;], the wake step, then the cascade levels. *)
Definition iso14443aGetUID (uid0 : list Z) : M (bool * UidOut) :=
  g <- wake ;;
  match g with
  | None => ret (false, mkUidOut uid0 0 0)
  | Some (atqa1, atqa2) => resolve_uid uid0 atqa1 atqa2
  end.

(** One command/response exchange as every protocol step performs it:
    build the frame in [_txFrame], send it, read the response into a
    buffer of [cap] bytes.  This is the bare exchange: what the response
    stored outside the buffer is in its [spill]. *)
Definition exchange (c : builder_call) (cap : nat) (timeoutMs : Z) : M Response :=
  build_tx c ;;; send_tx ;;; receive cap timeoutMs.

(** ** Vocabulary of the timing statements *)

(** First tick at which [millis() - start] reads more than [timeoutMs],
    for a call that started at tick [c0]. *)
Definition deadline (c0 timeoutMs : Z) : Z :=
  (c0 / ticks_per_ms + timeoutMs + 1) * ticks_per_ms.

(** Milliseconds elapsed at tick [s], as [millis()] counts them from a
    call started at tick [c0]. *)
Definition elapsed_ms (c0 s : Z) : Z := s / ticks_per_ms - c0 / ticks_per_ms.

(** Enough loop passes to sit out any of the driver's timeouts and read
    a payload of maximal length. *)
Definition fuel_ok (timeoutMs : Z) : Prop :=
  (timeoutMs + 2) * ticks_per_ms + 256 <= Z.of_nat fuel.

End Driver.

Arguments deadline : simpl never.
Arguments elapsed_ms : simpl never.

(** [buf[n] = b0; buf[n+1] = b1; ...] *)
Fixpoint store_from (n : Z) (bytes : list Z) (buf : Buffer) : Buffer :=
  match bytes with
  | [] => buf
  | b :: bs => store_from (n + 1) bs (store n b buf)
  end.

(** Number of bytes a response occupies on the line, given the bytes seen
    so far: status code, length byte, then as many as the length byte says. *)
Definition needed (bytes : list Z) : nat :=
  match bytes with
  | _ :: l :: _ => 2 + Z.to_nat (u8 l)
  | _ => 2
  end.

(** A response as the step requires it: read in full, data status, at
    least [minlen] payload bytes. *)
Definition valid_data (minlen : Z) (r : Response) : bool :=
  rr_ok r && (rr_code r =? CR95HF_RSP_DATA) && (minlen <=? rr_len r).

(** Frames of the select commands: SendRecv carrying NVB 0x70. *)
Definition is_select_frame (fr : list Z) : bool :=
  (cell fr 0 =? CR95HF_CMD_SENDRECV) && (cell fr 3 =? ISO14443A_NVB_SELECT).

(** Frames addressed to cascade level 2. *)
Definition is_cl2_frame (fr : list Z) : bool :=
  (cell fr 0 =? CR95HF_CMD_SENDRECV) && (cell fr 2 =? ISO14443A_SEL_CL2).


(** The check byte ISO14443-3 prescribes for four identifier bytes. *)
Definition bcc (c : list Z) : Z :=
  Z.lxor (Z.lxor (Z.lxor (cell c 0) (cell c 1)) (cell c 2)) (cell c 3).

(** The frames a call has written: the log beyond what was there before. *)
Definition sent_since (before after : CR95HF) : list (list Z) :=
  drop (length (tx (_port before))) (tx (_port after)).

(** The driver object as the class lays it out. *)
Definition driver_wf (d : CR95HF) : Prop :=
  length (data (_txFrame d)) = 32%nat /\ length (lastATQA d) = 2%nat.

(** The bytes a call asks for, before any capacity limit. *)
Definition call_bytes (c : builder_call) : list Z :=
  match c with
  | CallIDN => [CR95HF_CMD_IDN; 0]
  | CallProtocolSelect proto param => [CR95HF_CMD_PROTOCOL; 2; proto; param]
  | CallSendRecv rfData rfLen flags =>
      CR95HF_CMD_SENDRECV :: u8 (rfLen + 1)
        :: map (cell rfData) (seq 0 (Z.to_nat rfLen)) ++ [flags]
  | CallREQA => [CR95HF_CMD_SENDRECV; 2; ISO14443A_REQA; CR95HF_FLAG_SHORTFRAME]
  | CallWUPA => [CR95HF_CMD_SENDRECV; 2; ISO14443A_WUPA; CR95HF_FLAG_SHORTFRAME]
  | CallAnticollCL1 =>
      [CR95HF_CMD_SENDRECV; 3; ISO14443A_SEL_CL1; ISO14443A_NVB_ANTICOLL; CR95HF_FLAG_STD]
  | CallAnticollCL2 =>
      [CR95HF_CMD_SENDRECV; 3; ISO14443A_SEL_CL2; ISO14443A_NVB_ANTICOLL; CR95HF_FLAG_STD]
  | CallSelectCL1 c1 =>
      [CR95HF_CMD_SENDRECV; 8; ISO14443A_SEL_CL1; ISO14443A_NVB_SELECT]
        ++ map (cell c1) (seq 0 5) ++ [CR95HF_FLAG_STD_CRC]
  | CallSelectCL2 c2 =>
      [CR95HF_CMD_SENDRECV; 8; ISO14443A_SEL_CL2; ISO14443A_NVB_SELECT]
        ++ map (cell c2) (seq 0 5) ++ [CR95HF_FLAG_STD_CRC]
  end.

(** ** The receive loops told by arrival stamps

    A second description of [readResponse], following the words of the
    transport contract instead of the loops: every byte the response
    needs is taken, in order, if it is on the line by the deadline tick
    [d]; the first byte that is not ends the call, at the deadline, with
    failure.  [c] is the tick reached so far. *)

Definition await_by (d c : Z) (q : list (Z * Z)) : bool * Z :=
  match q with
  | (s, _) :: _ => if s <=? d then (true, Z.max c s) else (false, d)
  | [] => (false, d)
  end.

Fixpoint take_by (d : Z) (k : nat) (n : Z) (buf : Buffer) (c : Z) (q : list (Z * Z))
  : bool * Z * Buffer * Z * list (Z * Z) :=
  match k with
  | O => (true, n, buf, c, q)
  | S k' =>
      match q with
      | (s, b) :: q' =>
          if s <=? d
          then take_by d k' (n + 1) (store n (u8 b) buf) (Z.max c s) q'
          else (false, n, buf, d, q)
      | [] => (false, n, buf, d, q)
      end
  end.

Definition response_by (d : Z) (code : Z) (buf : Buffer) (len : Z) (p : Port)
  : Response * Port :=
  match rx p with
  | (s0, b0) :: q0 =>
      if s0 <=? d then
        match q0 with
        | (s1, b1) :: q1 =>
            if s1 <=? d then
              match take_by d (Z.to_nat (u8 b1)) 0 buf
                            (Z.max (Z.max (clock p) s0) s1) q1 with
              | (true, n, buf', c, q') =>
                  (mkResponse true (u8 b0) buf' n, mkPort c q' (tx p) (script p))
              | (false, _, buf', c, q') =>
                  (mkResponse false (u8 b0) buf' len, mkPort c q' (tx p) (script p))
              end
            else (mkResponse false (u8 b0) buf len, mkPort d q0 (tx p) (script p))
        | [] => (mkResponse false (u8 b0) buf len, mkPort d q0 (tx p) (script p))
        end
      else (mkResponse false code buf len, mkPort d (rx p) (tx p) (script p))
  | [] => (mkResponse false code buf len, mkPort d (rx p) (tx p) (script p))
  end.

(** The frames of the discovery, as they go on the wire. *)
Definition frame_WUPA : list Z := [0x04; 0x02; 0x52; 0x07].
Definition frame_REQA : list Z := [0x04; 0x02; 0x26; 0x07].
Definition frame_AnticollCL1 : list Z := [0x04; 0x03; 0x93; 0x20; 0x08].
Definition frame_AnticollCL2 : list Z := [0x04; 0x03; 0x95; 0x20; 0x08].
Definition frame_SelectCL1 (cl1 : list Z) : list Z :=
  [0x04; 0x08; 0x93; 0x70] ++ cl1 ++ [0x28].
Definition frame_SelectCL2 (cl2 : list Z) : list Z :=
  [0x04; 0x08; 0x95; 0x70] ++ cl2 ++ [0x28].

(** The ATQA bytes a wake response carries. *)
Definition atqa_of (r : Response) : Z * Z :=
  (cell (cells (rr_buf r)) 0, cell (cells (rr_buf r)) 1).

(** The candidate an anticollision response carries (four identifier
    bytes and the check byte), and the SAK a select response carries. *)
Definition candidate_of (r : Response) : list Z := take 5 (cells (rr_buf r)).
Definition sak_of (r : Response) : Z := cell (cells (rr_buf r)) 0.

(** ** Scripted chips for concrete runs *)

(** A driver freshly constructed on a port: [lastATQA] zeroed by the
    constructor. *)
Definition driver0 (p : Port) : CR95HF := mkDriver p frame0 [0; 0].

(** A reply of the chip whose bytes all arrive [d] ticks after the write. *)
Definition reply_after (d : Z) (bytes : list Z) : list (Z * Z) :=
  map (fun b => (d, b)) bytes.

(** A single-size tag 12 34 56 78 (SAK 08) that answers WUPA. *)
Definition tag4 : Port := mkPort 0 [] []
  [ reply_after 3 [0x80; 2; 0x04; 0x00];
    reply_after 3 [0x80; 5; 0x12; 0x34; 0x56; 0x78; 0x08];
    reply_after 3 [0x80; 3; 0x08; 0xB6; 0xDD] ].

(** The same tag staying silent on WUPA and answering REQA. *)
Definition tag4_idle : Port := mkPort 0 [] []
  [ [];
    reply_after 3 [0x80; 2; 0x04; 0x00];
    reply_after 3 [0x80; 5; 0x12; 0x34; 0x56; 0x78; 0x08];
    reply_after 3 [0x80; 3; 0x08; 0xB6; 0xDD] ].

(** A double-size tag 04 11 22 33 44 55 66 (SAK 00). *)
Definition tag7 : Port := mkPort 0 [] []
  [ reply_after 3 [0x80; 2; 0x44; 0x00];
    reply_after 3 [0x80; 5; 0x88; 0x04; 0x11; 0x22; 0xBF];
    reply_after 3 [0x80; 3; 0x04; 0xDA; 0x17];
    reply_after 3 [0x80; 5; 0x33; 0x44; 0x55; 0x66; 0x00];
    reply_after 3 [0x80; 3; 0x00; 0xFE; 0x51] ].

(** A double-size tag 04 11 22 33 44 55 66 whose level-2 SAK is 20. *)
Definition tag7_desfire : Port := mkPort 0 [] []
  [ reply_after 3 [0x80; 2; 0x44; 0x03];
    reply_after 3 [0x80; 5; 0x88; 0x04; 0x11; 0x22; 0xBF];
    reply_after 3 [0x80; 3; 0x24; 0xD8; 0x36];
    reply_after 3 [0x80; 5; 0x33; 0x44; 0x55; 0x66; 0x00];
    reply_after 3 [0x80; 3; 0x20; 0xFC; 0x70] ].

(** The single-size tag leaving the field after the anticollision. *)
Definition tag4_lost : Port := mkPort 0 [] []
  [ reply_after 3 [0x80; 2; 0x04; 0x00];
    reply_after 3 [0x80; 5; 0x12; 0x34; 0x56; 0x78; 0x08] ].

(** The double-size tag leaving the field after the level-1 select. *)
Definition tag7_lost : Port := mkPort 0 [] []
  [ reply_after 3 [0x80; 2; 0x44; 0x00];
    reply_after 3 [0x80; 5; 0x88; 0x04; 0x11; 0x22; 0xBF];
    reply_after 3 [0x80; 3; 0x04; 0xDA; 0x17] ].

(** No tag in the field: the chip never answers. *)
Definition empty_field : Port := mkPort 0 [] [] [].

(** The single-size tag with a corrupted check byte (0xFF instead of
    0x08) in its anticollision answer. *)
Definition tag4_bad_bcc : Port := mkPort 0 [] []
  [ reply_after 3 [0x80; 2; 0x04; 0x00];
    reply_after 3 [0x80; 5; 0x12; 0x34; 0x56; 0x78; 0xFF];
    reply_after 3 [0x80; 3; 0x08; 0xB6; 0xDD] ].

(** A chip whose anticollision answer is cut to three bytes. *)
Definition tag4_short : Port := mkPort 0 [] []
  [ reply_after 3 [0x80; 2; 0x04; 0x00];
    reply_after 3 [0x80; 3; 0x12; 0x34; 0x56];
    reply_after 3 [0x80; 3; 0x08; 0xB6; 0xDD] ].

(** A chip answering the next command with the given status code and an
    empty payload. *)
Definition empty_reply (code : Z) : Port := mkPort 0 [] [] [ reply_after 3 [code; 0] ].

(** A chip answering the next command with a 9-byte payload. *)
Definition long_reply : Port := mkPort 0 [] []
  [ reply_after 3 [0x80; 9; 0x08; 0xB6; 0xDD; 0x08; 0x00; 0x00; 0x11; 0x22; 0x33] ].

(** The caller's identifier buffer, ten bytes as the header asks. *)
Definition uid_buf : list Z := replicate 10 0xEE.

(** ** The rest of the driver: echo, protocol select, identification,
    field level, start-up, card names *)

Definition CR95HF_CMD_ECHO : Z := 0x55.

(** [sizeof(deviceName)] *)
Definition sizeof_deviceName : Z := 20.

(** [memcpy(dst, src, n)], cell by cell.  A read past the end of [src]
    gives 0 and a store past the end of [dst] is lost; the statements
    below keep [n] within both. *)
Definition memcpy (dst src : list Z) (n : Z) : list Z :=
  fold_left (fun acc i => <[i := cell src i]> acc) (seq 0 (Z.to_nat n)) dst.

(** [copyLen = (len < cap - 1) ? len : cap - 1; memcpy(dst, buf, copyLen);
    dst[copyLen] = '\0';], the copy-out shared by [begin] and [readIDN]. *)
Definition copy_name (dst buf : list Z) (len cap : Z) : list Z :=
  let copyLen := u8 (if len <? cap - 1 then len else cap - 1) in
  <[Z.to_nat copyLen := 0]> (memcpy dst buf copyLen).

Section Services.

Variable ticks_per_ms : Z.
Variable fuel : nat.

(** [delay(ms)] *)
Definition delay (ms : Z) (p : Port) : Port :=
  mkPort (clock p + ms * ticks_per_ms) (rx p) (tx p) (script p).

(** The loop of [echoTest]:
    [while (millis() - start < 50) { if (available()) { resp = read(); if (resp == CR95HF_CMD_ECHO) return true; } } return false;]
    A pass that finds no byte is an idle pass. *)
Fixpoint echo_loop (n : nat) (start : Z) (p : Port) : option (bool * Port) :=
  match n with
  | O => None
  | S n' =>
      if u32 (millis ticks_per_ms p - start) <? 50 then
        if available p then
          let (resp, p') := port_read p in
          if resp =? CR95HF_CMD_ECHO then Some (true, p')
          else echo_loop n' start p'
        else echo_loop n' start (tick p)
      else Some (false, p)
  end.

(** [bool echoTest()] *)
Definition echoTest : M bool :=
  fun d =>
    let p1 := port_write [CR95HF_CMD_ECHO] (flushRx (_port d)) in
    match echo_loop fuel (millis ticks_per_ms p1) p1 with
    | Some (b, p') => Some (b, mkDriver p' (_txFrame d) (lastATQA d))
    | None => None
    end.

(** [bool protocolSelectA()] *)
Definition protocolSelectA : M bool :=
  build_tx (CallProtocolSelect CR95HF_PROTO_ISO14443A 0x00) ;;;
  send_tx ;;;
  r <- receive_local ticks_per_ms fuel 8 50 ;;
  if negb (rr_ok r) then ret false
  else ret (rr_code r =? CR95HF_RSP_SUCCESS).

(** [bool readIDN(char* out, uint8_t maxLen)].  [None] is the null
    pointer; the second component is the caller's buffer afterwards. *)
Definition readIDN (out : option (list Z)) (maxLen : Z) : M (bool * option (list Z)) :=
  match out with
  | None => ret (false, out)
  | Some o =>
      if maxLen =? 0 then ret (false, out)
      else
        build_tx CallIDN ;;;
        send_tx ;;;
        r <- receive_local ticks_per_ms fuel 32 100 ;;
        if negb (rr_ok r) then ret (false, out)
        else if negb (rr_code r =? CR95HF_RSP_SUCCESS) then ret (false, out)
        else ret (true, Some (copy_name o (cells (rr_buf r)) (rr_len r) maxLen))
  end.

(** [bool measureFieldLevel(uint8_t& level)]; [level] is the caller's
    value on entry.  [sendReqWup(WUPA, ..) || sendReqWup(REQA, ..)] is the
    wake step. *)
Definition measureFieldLevel (level : Z) : M (bool * Z) :=
  ps <- protocolSelectA ;;
  if negb ps then ret (false, 0)
  else
    g <- wake ticks_per_ms fuel ;;
    match g with
    | Some _ => ret (true, 100)
    | None =>
        build_tx CallREQA ;;;
        send_tx ;;;
        r <- receive_local ticks_per_ms fuel 8 50 ;;
        if rr_ok r then
          if rr_code r =? CR95HF_RSP_TIMEOUT then ret (true, 50)
          else ret (true, 25)
        else ret (true, 0)
    end.

(** [bool antennaOK()] *)
Definition antennaOK : M bool :=
  m <- measureFieldLevel 0 ;;
  if negb (fst m) then ret false
  else ret (0 <? snd m).

(** The first lines of [begin]: [delay(20); flushRx();].  The UART is
    taken as configured by [_port->begin]. *)
Definition power_up (d : CR95HF) : CR95HF :=
  mkDriver (flushRx (delay 20 (_port d))) (_txFrame d) (lastATQA d).

(** [bool begin(bool debug)].  [deviceName] is the field on entry and the
    second component the field afterwards. *)
Definition begin (deviceName : list Z) : M (bool * list Z) :=
  (fun d => Some (tt, power_up d)) ;;;
  e <- echoTest ;;
  if negb e then ret (false, deviceName)
  else
    build_tx CallIDN ;;;
    send_tx ;;;
    r <- receive_local ticks_per_ms fuel 32 100 ;;
    if negb (rr_ok r) || negb (rr_code r =? CR95HF_RSP_SUCCESS) || (rr_len r <? 10)
    then ret (false, deviceName)
    else
      let name := copy_name deviceName (cells (rr_buf r)) (rr_len r) sizeof_deviceName in
      ps <- protocolSelectA ;;
      if negb ps then ret (false, name)
      else ret (true, name).

End Services.

Definition SAK_MIFARE_UL : Z := 0x00.
Definition SAK_MIFARE_1K : Z := 0x08.
Definition SAK_MIFARE_MINI : Z := 0x09.
Definition SAK_MIFARE_4K : Z := 0x18.
Definition SAK_MIFARE_PLUS_2K : Z := 0x10.
Definition SAK_MIFARE_PLUS_4K : Z := 0x11.
Definition SAK_MIFARE_PLUS : Z := 0x20.
Definition SAK_JCOP : Z := 0x28.
Definition SAK_MIFARE_4K_EMU : Z := 0x38.
Definition SAK_MIFARE_1K_INF : Z := 0x88.
Definition SAK_MIFARE_PRO : Z := 0x98.

(** [const char* getCardType(uint8_t sak)] *)
Definition getCardType (sak : Z) : String.string :=
  if sak =? SAK_MIFARE_UL then "MIFARE Ultralight/NTAG"%string
  else if sak =? SAK_MIFARE_1K then "MIFARE Classic 1K"%string
  else if sak =? SAK_MIFARE_MINI then "MIFARE Mini"%string
  else if sak =? SAK_MIFARE_4K then "MIFARE Classic 4K"%string
  else if sak =? SAK_MIFARE_PLUS_2K then "MIFARE Plus 2K"%string
  else if sak =? SAK_MIFARE_PLUS_4K then "MIFARE Plus 4K"%string
  else if sak =? SAK_MIFARE_PLUS then "MIFARE Plus/DESFire"%string
  else if sak =? SAK_JCOP then "JCOP/SmartMX"%string
  else if sak =? SAK_MIFARE_4K_EMU then "MIFARE Classic 4K (emu)"%string
  else if sak =? SAK_MIFARE_1K_INF then "MIFARE Classic 1K (Infineon)"%string
  else if sak =? SAK_MIFARE_PRO then "MIFARE ProX"%string
  else "Unknown"%string.

(** The SAK values [getCardType] knows. *)
Definition known_saks : list Z :=
  [SAK_MIFARE_UL; SAK_MIFARE_1K; SAK_MIFARE_MINI; SAK_MIFARE_4K;
   SAK_MIFARE_PLUS_2K; SAK_MIFARE_PLUS_4K; SAK_MIFARE_PLUS; SAK_JCOP;
   SAK_MIFARE_4K_EMU; SAK_MIFARE_1K_INF; SAK_MIFARE_PRO].

(** The frames of the services, as they go on the wire. *)
Definition frame_ECHO : list Z := [0x55].
Definition frame_IDN : list Z := [0x01; 0x00].
Definition frame_ProtocolSelectA : list Z := [0x02; 0x02; 0x02; 0x00].

(** The tick from which the loop of [echoTest] gives up, for a call that
    sent its byte at tick [c0]: the first at which [millis() - start]
    reads 50. *)
Definition echo_limit (ticks_per_ms c0 : Z) : Z :=
  (c0 / ticks_per_ms + 50) * ticks_per_ms.

(** [echoTest] told by arrival stamps: a byte is taken at the later of
    the tick reached so far, [c], and its arrival, provided that is
    before the limit; the first 0x55 taken ends the call with success,
    anything else is dropped. *)
Fixpoint echo_by (lim c : Z) (q : list (Z * Z)) : bool * Z * list (Z * Z) :=
  match q with
  | [] => (false, lim, [])
  | (s, b) :: q' =>
      if Z.max c s <? lim then
        if u8 b =? CR95HF_CMD_ECHO then (true, Z.max c s, q')
        else echo_by lim (Z.max c s) q'
      else (false, lim, q)
  end.

(** What [flushRx] leaves: the line from its first byte that has not yet
    arrived. *)
Fixpoint not_yet_arrived (now : Z) (q : list (Z * Z)) : list (Z * Z) :=
  match q with
  | (s, b) :: q' => if s <=? now then not_yet_arrived now q' else q
  | [] => []
  end.

(** Two runs of a driver function that end alike: the same value and the
    same port, or neither has a result. *)
Definition agree {A} (same : CR95HF -> CR95HF -> Prop) (x y : option (A * CR95HF)) : Prop :=
  match x, y with
  | Some (a, d), Some (a', d') => a = a' /\ same d d'
  | None, None => True
  | _, _ => False
  end.

(** From [d] to [d'] at most [frames] buffers were written. *)
Definition wrote_at_most (frames : nat) (d d' : CR95HF) : Prop :=
  exists l, tx (_port d') = tx (_port d) ++ l /\ (length l <= frames)%nat.

(** A chip answering the identification query with a 15-byte name. *)
Definition idn_chip : Port := mkPort 0 [] []
  [ reply_after 5 [0x00; 15; 0x4E; 0x46; 0x43; 0x20; 0x46; 0x53; 0x32; 0x4A;
                   0x41; 0x53; 0x54; 0x34; 0x00; 0x2A; 0xCE] ].

(** A chip going through start-up: echo, identification, protocol
    select. *)
Definition boot_chip : Port := mkPort 0 [] []
  [ reply_after 2 [0x55];
    reply_after 5 [0x00; 15; 0x4E; 0x46; 0x43; 0x20; 0x46; 0x53; 0x32; 0x4A;
                   0x41; 0x53; 0x54; 0x34; 0x00; 0x2A; 0xCE];
    reply_after 3 [0x00; 0x00] ].

(** A chip that echoes and identifies itself but refuses the protocol. *)
Definition boot_chip_no_protocol : Port := mkPort 0 [] []
  [ reply_after 2 [0x55];
    reply_after 5 [0x00; 15; 0x4E; 0x46; 0x43; 0x20; 0x46; 0x53; 0x32; 0x4A;
                   0x41; 0x53; 0x54; 0x34; 0x00; 0x2A; 0xCE];
    reply_after 3 [0x82; 0x00] ].

(** An empty field: the protocol is selected and the chip reports its
    frame-wait timeout (0x87) to every wake command. *)
Definition field_on_no_tag : Port := mkPort 0 [] []
  [ reply_after 3 [0x00; 0x00];
    reply_after 8 [0x87; 0x00];
    reply_after 8 [0x87; 0x00];
    reply_after 8 [0x87; 0x00] ].

(** Two driver objects that differ at most in what earlier calls left in
    the frame buffer and in [lastATQA]. *)
Definition same_line (d d' : CR95HF) : Prop :=
  _port d = _port d'
  /\ length (data (_txFrame d)) = 32%nat
  /\ length (data (_txFrame d')) = 32%nat.

(** A line with one stale byte (0x87) still in flight, and a chip that
    answers the next command with success and no payload. *)
Definition stale_line : Port :=
  mkPort 0 [(2, 0x87)] [] [ reply_after 3 [0x00; 0x00] ].

(** A chip that echoes after a stray byte, 4 ticks after the write. *)
Definition echo_chip : Port := mkPort 0 [] [] [ reply_after 4 [0x00; 0x55] ].

(** A chip whose echo comes exactly 50 ticks after the write. *)
Definition slow_echo_chip : Port := mkPort 0 [] [] [ reply_after 50 [0x55] ].

(** * Frame codec *)

Section FrameFacts.

Lemma add_wf b f : frame_wf f -> frame_wf (add b f).
Proof.
  unfold frame_wf, add, sizeof_data. intros [Hd Hl].
  destruct (Z.ltb_spec (len f) 32); simpl; [|done].
  rewrite length_insert. lia.
Qed.

Lemma clear_wf f : length (data f) = 32%nat -> frame_wf (clear f).
Proof. unfold frame_wf, clear. simpl. lia. Qed.

(** [add] appends to the bytes on the wire until the array is full and
    is a no-op from then on. *)
Lemma wire_add b f :
  frame_wf f -> wire (add b f) = take 32 (wire f ++ [b]).
Proof.
  unfold frame_wf, add, wire, sizeof_data. intros [Hd Hl].
  destruct (Z.ltb_spec (len f) 32) as [Hlt|Hge]; simpl.
  - replace (Z.to_nat (len f + 1)) with (S (Z.to_nat (len f))) by lia.
    assert (Hi : (Z.to_nat (len f) < length (data f))%nat) by lia.
    destruct (lookup_lt_is_Some_2 (data f) _ Hi) as [x Hx].
    rewrite (take_S_r (<[Z.to_nat (len f):=b]> (data f)) _ b).
    + rewrite take_insert_ge by lia.
      symmetry. apply take_ge.
      rewrite length_app, length_take. simpl. lia.
    + apply list_lookup_insert_eq. done.
  - assert (len f = 32) as -> by lia.
    rewrite take_app_le by (rewrite length_take; lia).
    rewrite take_take. done.
Qed.

Lemma take_take_app (l k : list Z) :
  take 32 (take 32 l ++ k) = take 32 (l ++ k).
Proof.
  destruct (Nat.le_gt_cases 32 (length l)) as [Hl|Hl].
  - rewrite !take_app_le by (rewrite ?length_take; lia).
    by rewrite take_take.
  - rewrite (take_ge l) by lia. done.
Qed.

Lemma add_range_from src f (js : list nat) :
  frame_wf f ->
  let f' := fold_left (fun acc i => add (cell src i) acc) js f in
  frame_wf f' /\ wire f' = take 32 (wire f ++ map (cell src) js).
Proof.
  revert f. induction js as [|j js IH]; intros f Hf; simpl.
  - split; [done|]. rewrite app_nil_r. unfold wire.
    rewrite take_take. destruct Hf as [Hd Hl]. f_equal. lia.
  - destruct (IH (add (cell src j) f) (add_wf _ _ Hf)) as [Hw Hb].
    split; [done|]. rewrite Hb, wire_add by done.
    rewrite take_take_app, <- app_assoc. done.
Qed.

Lemma wire_clear f : wire (clear f) = [].
Proof. done. Qed.

Ltac wire_steps :=
  repeat first
    [ rewrite wire_add by (repeat apply add_wf; auto using clear_wf)
    | rewrite take_take_app ].

(** Every builder leaves in the frame the first 32 of the bytes it was
    asked for. *)
Lemma wire_build c f :
  length (data f) = 32%nat ->
  frame_wf (build c f) /\ wire (build c f) = take 32 (call_bytes c).
Proof.
  intros Hd. pose proof (clear_wf f Hd) as Hc.
  destruct c; simpl build; simpl call_bytes;
    unfold buildIDN, buildProtocolSelect, buildSendRecv, buildREQA, buildWUPA,
           buildAnticollCL1, buildAnticollCL2, buildSelectCL1, buildSelectCL2.
  all: try (split; [repeat apply add_wf; done | wire_steps; by rewrite wire_clear]).
  - set (g := add (u8 (rfLen + 1)) (add CR95HF_CMD_SENDRECV (clear f))).
    assert (Hg : frame_wf g) by (repeat apply add_wf; done).
    destruct (add_range_from rfData g (seq 0 (Z.to_nat rfLen)) Hg) as [Hw Hb].
    unfold add_range. split; [by apply add_wf|].
    rewrite wire_add, Hb by done. subst g. wire_steps.
    rewrite wire_clear, <- (app_assoc (take 32 _)), take_take_app.
    done.
  - set (g := add ISO14443A_NVB_SELECT
                (add ISO14443A_SEL_CL1 (add 8 (add CR95HF_CMD_SENDRECV (clear f))))).
    assert (Hg : frame_wf g) by (repeat apply add_wf; done).
    destruct (add_range_from uid4bcc g (seq 0 (Z.to_nat 5)) Hg) as [Hw Hb].
    unfold add_range. split; [by apply add_wf|].
    rewrite wire_add, Hb by done. subst g. wire_steps.
    rewrite wire_clear, <- (app_assoc (take 32 _)), take_take_app.
    done.
  - set (g := add ISO14443A_NVB_SELECT
                (add ISO14443A_SEL_CL2 (add 8 (add CR95HF_CMD_SENDRECV (clear f))))).
    assert (Hg : frame_wf g) by (repeat apply add_wf; done).
    destruct (add_range_from uid4bcc g (seq 0 (Z.to_nat 5)) Hg) as [Hw Hb].
    unfold add_range. split; [by apply add_wf|].
    rewrite wire_add, Hb by done. subst g. wire_steps.
    rewrite wire_clear, <- (app_assoc (take 32 _)), take_take_app.
    done.
Qed.

End FrameFacts.

Lemma length_call_bytes_sendrecv rfData rfLen flags :
  0 <= rfLen ->
  Z.of_nat (length (call_bytes (CallSendRecv rfData rfLen flags))) = rfLen + 3.
Proof.
  intros H. simpl. rewrite length_app, length_map, length_seq. simpl. lia.
Qed.

(** C2 (as amended). Every builder yields a frame, never an error.  When
    the requested payload and the two header bytes fit the 32-byte array,
    the frame holds exactly the requested bytes and its length byte equals
    the number of payload bytes present.  When they do not fit (only
    [buildSendRecv] with [rfLen >= 30] can ask for that), the bytes past
    the capacity are dropped without any signal: the frame holds 32 bytes,
    30 of them payload, while the length byte still announces
    [rfLen + 1] reduced to a [uint8_t]. *)
Theorem builder_length_byte (c : builder_call) (f : CR95HF_Frame) :
  length (data f) = 32%nat ->
  call_wf c ->
  (requested_payload c + 2 <= sizeof_data ->
     wire (build c f) = call_bytes c /\
     payload_count (build c f) = requested_payload c /\
     length_byte (build c f) = payload_count (build c f)) /\
  (sizeof_data < requested_payload c + 2 ->
     wire (build c f) = take 32 (call_bytes c) /\
     payload_count (build c f) = 30 /\
     length_byte (build c f) = u8 (requested_payload c) /\
     length_byte (build c f) <> payload_count (build c f)).
Proof.
  intros Hd Hc. destruct (wire_build c f Hd) as [_ Hw].
  unfold length_byte, payload_count, sizeof_data. rewrite Hw.
  destruct c; simpl requested_payload;
    try (split; [intros _; by vm_compute | intros Hbig; exfalso; lia]).
  simpl in Hc.
  destruct Hc as [Hc _].
  pose proof (length_call_bytes_sendrecv rfData rfLen flags (proj1 Hc)) as Hlen.
  split; intros Hfit.
  - rewrite take_ge by lia. rewrite Hlen.
    split; [done|]. split; [lia|].
    change (cell (call_bytes (CallSendRecv rfData rfLen flags)) 1) with (u8 (rfLen + 1)).
    unfold u8. rewrite Z.mod_small by lia. lia.
  - rewrite length_take. split; [done|]. split; [lia|].
    assert (Hb : cell (take 32 (call_bytes (CallSendRecv rfData rfLen flags))) 1
                 = u8 (rfLen + 1)) by done.
    rewrite Hb. split; [done|].
    unfold u8. replace (length (call_bytes (CallSendRecv rfData rfLen flags)) `min` 32)%nat
      with 32%nat by lia.
    destruct (Z.eq_dec rfLen 255) as [->|Hne]; [by vm_compute|].
    rewrite Z.mod_small by lia. lia.
Qed.

(** Both cases of [builder_length_byte] at concrete calls: a 3-byte and a
    30-byte [buildSendRecv] on a fresh frame. *)
Lemma builder_length_byte_witness :
  (wire (build (CallSendRecv [0x30; 0x04; 0x26] 3 CR95HF_FLAG_STD_CRC) frame0)
     = [0x04; 4; 0x30; 0x04; 0x26; 0x28]) /\
  (payload_count (build (CallSendRecv (replicate 30 0xAA) 30 CR95HF_FLAG_STD_CRC) frame0) = 30 /\
   length_byte (build (CallSendRecv (replicate 30 0xAA) 30 CR95HF_FLAG_STD_CRC) frame0) = 31).
Proof.
  split.
  - refine (proj1 (proj1 (builder_length_byte
                     (CallSendRecv [0x30; 0x04; 0x26] 3 CR95HF_FLAG_STD_CRC)
                     frame0 _ _) _)).
    + reflexivity.
    + simpl; lia.
    + vm_compute; discriminate.
  - pose proof (proj2 (builder_length_byte
                     (CallSendRecv (replicate 30 0xAA) 30 CR95HF_FLAG_STD_CRC)
                     frame0 eq_refl ltac:(simpl; lia)) ltac:(vm_compute; reflexivity))
      as (_ & Hp & Hl & _).
    split; [exact Hp | exact Hl].
Defined.

(** C2 as stated fails: asked for a 31-byte payload (30 RF bytes and the
    flags byte), [buildSendRecv] returns a frame all the same; the flags
    byte is dropped, 30 payload bytes are present and the length byte
    says 31. *)
Lemma buildSendRecv_truncates_silently :
  let f := build (CallSendRecv (replicate 30 0xAA) 30 CR95HF_FLAG_STD_CRC) frame0 in
  sizeof_data < requested_payload (CallSendRecv (replicate 30 0xAA) 30 CR95HF_FLAG_STD_CRC) + 2 /\
  wire f = 0x04 :: 31 :: replicate 30 0xAA /\
  ~ (length_byte f = payload_count f).
Proof.
  split; [by vm_compute|]. split; [by vm_compute|]. by vm_compute.
Qed.

(** * Transport: the receive loops against the deadline *)

Section Transport.

Variable tpm : Z.
Variable fuel : nat.
Hypothesis Htpm : 0 < tpm.


Lemma deadline_after c0 t : 0 <= t -> c0 < deadline tpm c0 t.
Proof.
  intros Ht. unfold deadline.
  pose proof (Z.mul_succ_div_gt c0 tpm Htpm). nia.
Qed.

Lemma deadline_span c0 t : 0 <= t -> deadline tpm c0 t - c0 <= (t + 1) * tpm.
Proof.
  intros Ht. unfold deadline.
  pose proof (Z.mul_div_le c0 tpm Htpm). nia.
Qed.

(** A tick reads as more than [t] elapsed milliseconds exactly from the
    deadline tpm on. *)
Lemma elapsed_deadline c0 t s : t < elapsed_ms tpm c0 s <-> deadline tpm c0 t <= s.
Proof.
  unfold elapsed_ms, deadline. split; intros H.
  - pose proof (Z.mul_div_le s tpm Htpm). nia.
  - assert (c0 / tpm + t + 1 <= s / tpm); [|lia].
    apply Z.div_le_lower_bound; [done|lia].
Qed.

(** The loops' test [millis() - start > timeoutMs], in [uint32_t]
    arithmetic, fires exactly from the deadline tpm tick on. *)
Lemma timed_out_deadline c0 t p :
  0 <= t -> t + 1 < 2 ^ 32 ->
  c0 <= clock p <= deadline tpm c0 t ->
  timed_out tpm (u32 (c0 / tpm)) t p = (deadline tpm c0 t <=? clock p).
Proof.
  intros Ht Ht32 [Hlo Hhi].
  unfold timed_out, millis, u32.
  rewrite <- Zminus_mod.
  assert (H0 : c0 / tpm <= clock p / tpm)
    by (apply Z.div_le_mono; lia).
  assert (H1 : clock p / tpm <= c0 / tpm + t + 1).
  { unfold deadline in Hhi.
    rewrite <- (Z.div_mul (c0 / tpm + t + 1) tpm) by lia.
    apply Z.div_le_mono; lia. }
  rewrite Z.mod_small by lia.
  pose proof (elapsed_deadline c0 t (clock p)) as He.
  unfold elapsed_ms in He.
  destruct (Z.ltb_spec t (clock p / tpm - c0 / tpm));
    destruct (Z.leb_spec (deadline tpm c0 t) (clock p)); try done; lia.
Qed.

Lemma port_eta p : mkPort (clock p) (rx p) (tx p) (script p) = p.
Proof. by destruct p. Qed.

(** The wait loop refines [await_by]. *)
Lemma wait_available_by c0 t n p :
  0 <= t -> t + 1 < 2 ^ 32 ->
  c0 <= clock p <= deadline tpm c0 t ->
  (Z.to_nat (deadline tpm c0 t - clock p) < n)%nat ->
  wait_available tpm n (u32 (c0 / tpm)) t p
  = Some (fst (await_by (deadline tpm c0 t) (clock p) (rx p)),
          mkPort (snd (await_by (deadline tpm c0 t) (clock p) (rx p)))
                 (rx p) (tx p) (script p)).
Proof.
  intros Ht Ht32. revert p. induction n as [|n IH]; intros p Hc Hn; [lia|].
  simpl. unfold available.
  rewrite timed_out_deadline by done.
  destruct (rx p) as [|[s b] q] eqn:Hrx; simpl.
  - destruct (Z.leb_spec (deadline tpm c0 t) (clock p)) as [Hd|Hd].
    + replace (deadline tpm c0 t) with (clock p) by lia.
      by rewrite <- Hrx, port_eta.
    + rewrite IH by (simpl; lia). simpl. by rewrite Hrx.
  - destruct (Z.leb_spec s (clock p)) as [Hs|Hs].
    + destruct (Z.leb_spec s (deadline tpm c0 t)); [|lia]. simpl.
      replace (Z.max (clock p) s) with (clock p) by lia.
      by rewrite <- Hrx, port_eta.
    + destruct (Z.leb_spec (deadline tpm c0 t) (clock p)) as [Hd|Hd].
      * destruct (Z.leb_spec s (deadline tpm c0 t)); [lia|]. simpl.
        replace (deadline tpm c0 t) with (clock p) by lia.
        by rewrite <- Hrx, port_eta.
      * rewrite IH by (simpl; lia). simpl. rewrite Hrx. unfold await_by.
        destruct (Z.leb_spec s (deadline tpm c0 t)); simpl; [|done].
        do 3 f_equal. lia.
Qed.

Lemma take_by_later d k n buf c q :
  match q with (s, _) :: _ => c < s | [] => True end ->
  k <> O ->
  take_by d k n buf (c + 1) q = take_by d k n buf c q.
Proof.
  intros Hq Hk. destruct k as [|k]; [done|]. simpl.
  destruct q as [|[s b] q]; [done|].
  destruct (Z.leb_spec s d); [|done].
  f_equal. lia.
Qed.

(** The payload loop refines [take_by]. *)
Lemma read_payload_by c0 t respLen k n buf p :
  0 <= t -> t + 1 < 2 ^ 32 ->
  c0 <= clock p <= deadline tpm c0 t ->
  (Z.to_nat (respLen - n) + Z.to_nat (deadline tpm c0 t - clock p) < k)%nat ->
  read_payload tpm k (u32 (c0 / tpm)) t respLen n buf p
  = Some (let '(ok, n', buf', c', q') :=
            take_by (deadline tpm c0 t) (Z.to_nat (respLen - n)) n buf (clock p) (rx p) in
          (ok, n', buf', mkPort c' q' (tx p) (script p))).
Proof.
  intros Ht Ht32. revert n buf p.
  induction k as [|k IH]; intros n buf p Hc Hk; [lia|].
  simpl. destruct (Z.ltb_spec n respLen) as [Hn|Hn].
  - assert (Hm : Z.to_nat (respLen - n) = S (Z.to_nat (respLen - (n + 1)))) by lia.
    unfold available, port_read.
    rewrite timed_out_deadline by done.
    destruct (rx p) as [|[s b] q] eqn:Hrx.
    + destruct (Z.leb_spec (deadline tpm c0 t) (clock p)) as [Hd|Hd].
      * rewrite Hm. simpl. replace (deadline tpm c0 t) with (clock p) by lia.
        by rewrite <- Hrx, port_eta.
      * rewrite IH by (simpl; lia). rewrite Hm. simpl. by rewrite Hrx.
    + destruct (Z.leb_spec s (clock p)) as [Hs|Hs].
      * rewrite IH by (simpl; lia). rewrite Hm. simpl.
        destruct (Z.leb_spec s (deadline tpm c0 t)); [|lia].
        replace (Z.max (clock p) s) with (clock p) by lia. done.
      * destruct (Z.leb_spec (deadline tpm c0 t) (clock p)) as [Hd|Hd].
        -- rewrite Hm. simpl. destruct (Z.leb_spec s (deadline tpm c0 t)); [lia|].
           replace (deadline tpm c0 t) with (clock p) by lia.
           by rewrite <- Hrx, port_eta.
        -- rewrite IH by (simpl; lia).
           cbn [tick clock rx tx script]. rewrite Hrx.
           rewrite take_by_later; [done| lia |lia].
  - replace (Z.to_nat (respLen - n)) with O by lia. simpl.
    by rewrite port_eta.
Qed.

Lemma u8_range z : 0 <= u8 z <= 255.
Proof. unfold u8. pose proof (Z.mod_pos_bound z 256). lia. Qed.

(** [readResponse] refines [response_by]: with enough fuel it always
    returns, and it returns what the arrival stamps and the deadline of
    the call determine. *)
Lemma readResponse_by_deadline code buf len t p :
  0 <= t -> t + 1 < 2 ^ 32 ->
  fuel_ok tpm fuel t ->
  readResponse tpm fuel code buf len t p
  = Some (response_by (deadline tpm (clock p) t) code buf len p).
Proof.
  intros Ht Ht32 Hf. unfold fuel_ok in Hf.
  pose proof (deadline_after (clock p) t Ht) as Hda.
  pose proof (deadline_span (clock p) t Ht) as Hds.
  unfold readResponse, response_by.
  change (millis tpm p) with (u32 (clock p / tpm)).
  set (d := deadline tpm (clock p) t) in *.
  rewrite (wait_available_by (clock p) t) by (fold d; lia). fold d.
  destruct (rx p) as [|[s0 b0] q0] eqn:Hrx; simpl; [done|].
  destruct (Z.leb_spec s0 d) as [Hs0|Hs0]; simpl; [|done].
  unfold port_read. cbn [rx clock tx script].
  destruct (Z.leb_spec s0 (Z.max (clock p) s0)); [|lia].
  rewrite (wait_available_by (clock p) t) by (cbn [clock]; fold d; lia).
  fold d. cbn [rx clock tx script].
  destruct q0 as [|[s1 b1] q1]; simpl; [done|].
  destruct (Z.leb_spec s1 d) as [Hs1|Hs1]; simpl; [|done].
  destruct (Z.leb_spec s1 (Z.max (Z.max (clock p) s0) s1)); [|lia].
  pose proof (u8_range b1) as Hb1.
  rewrite (read_payload_by (clock p) t) by (cbn [clock]; fold d; lia).
  fold d. cbn [rx clock tx script]. rewrite Z.sub_0_r.
  destruct (take_by d (Z.to_nat (u8 b1)) 0 buf (Z.max (Z.max (clock p) s0) s1) q1)
    as [[[[ok n] buf'] c'] q'].
  by destruct ok.
Qed.

(** Elapsed time one tick before an arrival tells which side of the
    deadline the arrival is on. *)
Lemma before_deadline c0 t s : elapsed_ms tpm c0 (s - 1) <= t <-> s <= deadline tpm c0 t.
Proof. pose proof (elapsed_deadline c0 t (s - 1)). lia. Qed.

Lemma elapsed_ms_mono c0 s s' : s <= s' -> elapsed_ms tpm c0 s <= elapsed_ms tpm c0 s'.
Proof.
  intros H. unfold elapsed_ms.
  pose proof (Z.div_le_mono s s' tpm Htpm H). lia.
Qed.

Lemma take_by_all d msg rest n buf c :
  Forall (fun sb => fst sb <= d) msg ->
  exists c',
    take_by d (length msg) n buf c (msg ++ rest)
    = (true, n + Z.of_nat (length msg), store_from n (map (fun sb => u8 (snd sb)) msg) buf,
       c', rest)
    /\ (c <= d -> c <= c' <= d).
Proof.
  intros Hm. revert n buf c.
  induction Hm as [|[s b] msg Hs Hm IH]; intros n buf c; simpl.
  - exists c. rewrite Z.add_0_r. split; [done|lia].
  - simpl in Hs. destruct (Z.leb_spec s d); [|lia].
    destruct (IH (n + 1) (store n (u8 b) buf) (Z.max c s)) as (c' & -> & Hc').
    exists c'. split; [|lia]. do 4 f_equal. lia.
Qed.

Lemma take_by_stop d k pre rest n buf c :
  Forall (fun sb => fst sb <= d) pre ->
  (length pre < k)%nat ->
  match rest with (s, _) :: _ => d < s | [] => True end ->
  exists n' buf' q',
    take_by d k n buf c (pre ++ rest) = (false, n', buf', d, q').
Proof.
  intros Hp. revert k n buf c.
  induction Hp as [|[s b] pre Hs Hp IH]; intros k n buf c Hk Hr;
    (destruct k as [|k]; [simpl in Hk; lia|]); simpl.
  - destruct rest as [|[s b] rest]; [by eauto|].
    destruct (Z.leb_spec s d); [lia|]. by eauto.
  - simpl in Hs, Hk. destruct (Z.leb_spec s d); [|lia].
    apply IH; [lia|done].
Qed.

(** Accept side: a response whose every byte is on the line by the
    deadline is read in full. *)
Lemma readResponse_accepts code buf len t p msg rest :
  0 <= t -> t + 1 < 2 ^ 32 ->
  fuel_ok tpm fuel t ->
  rx p = msg ++ rest ->
  length msg = needed (map snd msg) ->
  Forall (fun sb => fst sb <= deadline tpm (clock p) t) msg ->
  exists p',
    readResponse tpm fuel code buf len t p
    = Some (mkResponse true (u8 (cell (map snd msg) 0))
                       (store_from 0 (map u8 (drop 2 (map snd msg))) buf)
                       (u8 (cell (map snd msg) 1)),
            p')
    /\ rx p' = rest /\ tx p' = tx p /\ script p' = script p
    /\ clock p <= clock p' <= deadline tpm (clock p) t.
Proof.
  intros Ht Ht32 Hf Hrx Hlen Hm.
  rewrite readResponse_by_deadline by done.
  pose proof (deadline_after (clock p) t Ht) as Hda.
  set (d := deadline tpm (clock p) t) in *.
  unfold response_by. rewrite Hrx.
  destruct msg as [|[s0 b0] [|[s1 b1] pay]]; simpl in Hlen; try lia.
  apply Forall_cons in Hm as [Hs0 Hm]. apply Forall_cons in Hm as [Hs1 Hm].
  simpl in Hs0, Hs1. simpl.
  destruct (Z.leb_spec s0 d); [|lia]. destruct (Z.leb_spec s1 d); [|lia].
  assert (Hk : Z.to_nat (u8 b1) = length pay) by lia. rewrite Hk.
  destruct (take_by_all d pay rest 0 buf (Z.max (Z.max (clock p) s0) s1) Hm)
    as (c' & -> & Hc').
  eexists. split.
  - unfold cell. simpl. rewrite drop_0, map_map. do 3 f_equal.
    pose proof (u8_range b1). lia.
  - simpl. repeat split; lia.
Qed.

(** Reject side: as soon as a byte the response still needs is not on
    the line at the deadline, the call returns false and leaves [len]
    as it was. *)
Lemma readResponse_rejects code buf len t p pre rest :
  0 <= t -> t + 1 < 2 ^ 32 ->
  fuel_ok tpm fuel t ->
  rx p = pre ++ rest ->
  (length pre < needed (map snd pre))%nat ->
  Forall (fun sb => fst sb <= deadline tpm (clock p) t) pre ->
  match rest with (s, _) :: _ => deadline tpm (clock p) t < s | [] => True end ->
  exists r p',
    readResponse tpm fuel code buf len t p = Some (r, p')
    /\ rr_ok r = false /\ rr_len r = len
    /\ clock p' = deadline tpm (clock p) t /\ tx p' = tx p /\ script p' = script p.
Proof.
  intros Ht Ht32 Hf Hrx Hlen Hp Hr.
  rewrite readResponse_by_deadline by done.
  set (d := deadline tpm (clock p) t) in *.
  unfold response_by. rewrite Hrx.
  destruct pre as [|[s0 b0] pre]; simpl.
  { destruct rest as [|[s b] rest]; [by eauto 10|].
    destruct (Z.leb_spec s d); [lia|]. by eauto 10. }
  apply Forall_cons in Hp as [Hs0 Hp]. simpl in Hs0.
  destruct (Z.leb_spec s0 d); [|lia].
  destruct pre as [|[s1 b1] pre]; simpl.
  { destruct rest as [|[s b] rest]; [by eauto 10|].
    destruct (Z.leb_spec s d); [lia|]. by eauto 10. }
  apply Forall_cons in Hp as [Hs1 Hp]. simpl in Hs1, Hlen.
  destruct (Z.leb_spec s1 d); [|lia].
  destruct (take_by_stop d (Z.to_nat (u8 b1)) pre rest 0 buf
              (Z.max (Z.max (clock p) s0) s1) Hp ltac:(lia) Hr)
    as (n' & buf' & q' & ->).
  by eauto 10.
Qed.

(** C3 (as amended). One budget, counted from the start of the call,
    covers the status-code, length-byte and payload stages.  The call
    succeeds, with the decoded response, when every byte the response
    needs was on the line while the elapsed time read one tick before
    its arrival did not exceed the timeout; this holds in particular
    when the byte's own arrival time does not exceed the timeout (third
    part).  The call returns false, with [len] untouched, as soon as
    the next byte needed, at whichever stage, is absent or arrives
    later than that. *)
Theorem readResponse_shared_budget code buf len t p :
  0 <= t -> t + 1 < 2 ^ 32 ->
  fuel_ok tpm fuel t ->
  (forall msg rest,
      rx p = msg ++ rest ->
      length msg = needed (map snd msg) ->
      Forall (fun sb => elapsed_ms tpm (clock p) (fst sb - 1) <= t) msg ->
      exists p',
        readResponse tpm fuel code buf len t p
        = Some (mkResponse true (u8 (cell (map snd msg) 0))
                           (store_from 0 (map u8 (drop 2 (map snd msg))) buf)
                           (u8 (cell (map snd msg) 1)),
                p')
        /\ rx p' = rest) /\
  (forall pre rest,
      rx p = pre ++ rest ->
      (length pre < needed (map snd pre))%nat ->
      Forall (fun sb => elapsed_ms tpm (clock p) (fst sb - 1) <= t) pre ->
      match rest with
      | (s, _) :: _ => t < elapsed_ms tpm (clock p) (s - 1)
      | [] => True
      end ->
      exists r p',
        readResponse tpm fuel code buf len t p = Some (r, p')
        /\ rr_ok r = false /\ rr_len r = len) /\
  (forall s, elapsed_ms tpm (clock p) s <= t ->
             elapsed_ms tpm (clock p) (s - 1) <= t).
Proof.
  intros Ht Ht32 Hf. split; [|split].
  - intros msg rest Hrx Hlen Hm.
    destruct (readResponse_accepts code buf len t p msg rest) as (p' & -> & Hr & _);
      try done.
    + eapply Forall_impl; [exact Hm|]. intros sb. by rewrite before_deadline.
    + by exists p'.
  - intros pre rest Hrx Hlen Hp Hr.
    destruct (readResponse_rejects code buf len t p pre rest)
      as (r & p' & -> & Hok & Hl & _); try done.
    + eapply Forall_impl; [exact Hp|]. intros sb. by rewrite before_deadline.
    + destruct rest as [|[s b] rest]; [done|].
      pose proof (before_deadline (clock p) t s). lia.
    + by exists r, p'.
  - intros s Hs. pose proof (elapsed_ms_mono (clock p) (s - 1) s). lia.
Qed.

End Transport.

(** [readResponse_shared_budget] at work with a 20 ms budget and one tick
    per millisecond: a response trickling in at ticks 5, 12, 16 and 20 is
    read in full; the same response with its last byte at tick 22 is
    refused. *)
Lemma readResponse_shared_budget_witness :
  (exists p',
      readResponse 1 300 0 (local_buf 16) 16 20
        (mkPort 0 [(5, 0x80); (12, 2); (16, 0x44); (20, 0x00)] [] [])
      = Some (mkResponse true 0x80 (store_from 0 [0x44; 0x00] (local_buf 16)) 2, p')
      /\ rx p' = []) /\
  (exists r p',
      readResponse 1 300 0 (local_buf 16) 16 20
        (mkPort 0 [(5, 0x80); (12, 2); (16, 0x44); (22, 0x00)] [] [])
      = Some (r, p')
      /\ rr_ok r = false /\ rr_len r = 16).
Proof.
  split.
  - refine (proj1 (readResponse_shared_budget 1 300 _ 0 (local_buf 16) 16 20
                     (mkPort 0 [(5, 0x80); (12, 2); (16, 0x44); (20, 0x00)] [] [])
                     _ _ _)
                  [(5, 0x80); (12, 2); (16, 0x44); (20, 0x00)] [] _ _ _).
    + lia.
    + lia.
    + lia.
    + unfold fuel_ok; lia.
    + reflexivity.
    + reflexivity.
    + repeat constructor; vm_compute; discriminate.
  - refine (proj1 (proj2 (readResponse_shared_budget 1 300 _ 0 (local_buf 16) 16 20
                     (mkPort 0 [(5, 0x80); (12, 2); (16, 0x44); (22, 0x00)] [] [])
                     _ _ _))
                  [(5, 0x80); (12, 2); (16, 0x44)] [(22, 0x00)] _ _ _ _).
    + lia.
    + lia.
    + lia.
    + unfold fuel_ok; lia.
    + reflexivity.
    + vm_compute; lia.
    + repeat constructor; vm_compute; discriminate.
    + vm_compute; reflexivity.
Defined.

(** C3 as stated fails at the edge of the budget.  Budget 20 ms, call
    started at tick 0.  With one tick per millisecond the last byte of
    the response arrives at tick 21; with four ticks per millisecond it
    arrives at tick 84.  Either way it arrives after more than 20 ms
    have elapsed, yet the call returns true with the full response: the
    idle pass before the arrival still read 20 elapsed milliseconds, and
    the pass that finds the byte never compares the clock. *)
Lemma readResponse_accepts_past_timeout :
  (20 < elapsed_ms 1 0 21 /\
   exists p',
     readResponse 1 300 0 (local_buf 16) 16 20
       (mkPort 0 [(5, 0x80); (12, 2); (16, 0x44); (21, 0x00)] [] [])
     = Some (mkResponse true 0x80 (store_from 0 [0x44; 0x00] (local_buf 16)) 2, p')) /\
  (20 < elapsed_ms 4 0 84 /\
   exists p',
     readResponse 4 400 0 (local_buf 16) 16 20
       (mkPort 0 [(20, 0x80); (48, 2); (64, 0x44); (84, 0x00)] [] [])
     = Some (mkResponse true 0x80 (store_from 0 [0x44; 0x00] (local_buf 16)) 2, p')).
Proof.
  split; (split; [vm_compute; reflexivity | eexists; vm_compute; reflexivity]).
Qed.

(** * Discovery: the steps and what they leave behind *)

Section Steps.

Variable tpm : Z.
Variable fuel : nat.

Lemma wait_available_log n start t p b p' :
  wait_available tpm n start t p = Some (b, p') ->
  tx p' = tx p /\ script p' = script p.
Proof.
  revert p. induction n as [|n IH]; intros p; simpl; [done|].
  destruct (available p); [by intros [= _ <-]|].
  destruct (timed_out tpm start t p); [by intros [= _ <-]|].
  intros H. by apply IH in H.
Qed.

Lemma port_read_log p : tx (snd (port_read p)) = tx p /\ script (snd (port_read p)) = script p.
Proof.
  unfold port_read. destruct (rx p) as [|[s b] q]; [done|].
  by destruct (s <=? clock p).
Qed.

Lemma store_cells n b buf : length (cells (store n b buf)) = length (cells buf).
Proof.
  unfold store. destruct (n <? _); simpl; [|done]. by rewrite length_insert.
Qed.

Lemma store_spill n b buf :
  n < Z.of_nat (length (cells buf)) -> spill (store n b buf) = spill buf.
Proof. unfold store. intros H. apply Z.ltb_lt in H. by rewrite H. Qed.

(** The payload loop stores at the indices from [n] up to the count it
    ends with; when that count is within the buffer nothing fell
    outside. *)
Lemma read_payload_spill k start t respLen n buf p ok n' buf' p' :
  read_payload tpm k start t respLen n buf p = Some (ok, n', buf', p') ->
  n <= n'
  /\ (n' <= Z.of_nat (length (cells buf)) -> spill buf' = spill buf).
Proof.
  revert n buf p. induction k as [|k IH]; intros n buf p; simpl; [done|].
  destruct (n <? respLen); [|intros [= _ <- <- _]; split; [lia|done]].
  destruct (available p).
  - destruct (port_read p) as [b p1].
    intros H. apply IH in H as [Hn Hs]. split; [lia|].
    rewrite store_cells in Hs. intros Hc. rewrite Hs by done.
    apply store_spill. lia.
  - destruct (timed_out tpm start t p); [intros [= _ <- <- _]; split; [lia|done]|].
    intros H. by apply IH in H.
Qed.

Lemma read_payload_log k start t respLen n buf p ok n' buf' p' :
  read_payload tpm k start t respLen n buf p = Some (ok, n', buf', p') ->
  tx p' = tx p /\ script p' = script p
  /\ length (cells buf') = length (cells buf).
Proof.
  revert n buf p. induction k as [|k IH]; intros n buf p; simpl; [done|].
  destruct (n <? respLen); [|by intros [= _ _ <- <-]].
  destruct (available p).
  - pose proof (port_read_log p) as [Ht Hs].
    destruct (port_read p) as [b p1]. simpl in Ht, Hs.
    intros H. apply IH in H as (-> & -> & ->).
    by rewrite store_cells.
  - destruct (timed_out tpm start t p); [by intros [= _ _ <- <-]|].
    intros H. by apply IH in H.
Qed.

(** Receiving writes nothing and consumes no reply of the script; the
    buffer keeps its size. *)
Lemma readResponse_log code buf len t p r p' :
  readResponse tpm fuel code buf len t p = Some (r, p') ->
  tx p' = tx p /\ script p' = script p
  /\ length (cells (rr_buf r)) = length (cells buf).
Proof.
  unfold readResponse.
  destruct (wait_available tpm fuel (millis tpm p) t p) as [[[] p1]|] eqn:H1;
    [| intros [= <- <-]; apply wait_available_log in H1 as [? ?]; simpl;
       split_and!; congruence
     | done].
  apply wait_available_log in H1 as [Ht1 Hs1].
  pose proof (port_read_log p1) as [Ht2 Hs2].
  destruct (port_read p1) as [c p2]. simpl in Ht2, Hs2.
  destruct (wait_available tpm fuel (millis tpm p) t p2) as [[[] p3]|] eqn:H3;
    [| intros [= <- <-]; apply wait_available_log in H3 as [? ?]; simpl;
       split_and!; congruence
     | done].
  apply wait_available_log in H3 as [Ht3 Hs3].
  pose proof (port_read_log p3) as [Ht4 Hs4].
  destruct (port_read p3) as [l p4]. simpl in Ht4, Hs4.
  destruct (read_payload tpm fuel (millis tpm p) t l 0 buf p4)
    as [[[[ok n] buf'] p5]|] eqn:H5; [|done].
  apply read_payload_log in H5 as (Ht5 & Hs5 & Hc5).
  destruct ok; intros [= <- <-]; simpl; split_and!; congruence.
Qed.

(** A response read in full whose length is within the buffer stored
    nothing outside it; a failed call leaves [len] as it was. *)
Lemma readResponse_spill code buf len t p r p' :
  readResponse tpm fuel code buf len t p = Some (r, p') ->
  (rr_ok r = false -> rr_len r = len)
  /\ (rr_ok r = true -> rr_len r <= Z.of_nat (length (cells buf)) ->
      spill (rr_buf r) = spill buf).
Proof.
  unfold readResponse.
  destruct (wait_available tpm fuel (millis tpm p) t p) as [[[] p1]|];
    [| by intros [= <- _] | done].
  destruct (port_read p1) as [c p2].
  destruct (wait_available tpm fuel (millis tpm p) t p2) as [[[] p3]|];
    [| by intros [= <- _] | done].
  destruct (port_read p3) as [l p4].
  destruct (read_payload tpm fuel (millis tpm p) t l 0 buf p4)
    as [[[[ok n] buf'] p5]|] eqn:H5; [|done].
  apply read_payload_spill in H5 as [_ Hs].
  destruct ok; intros [= <- _]; simpl; [|done].
  split; [done|]. intros _. exact Hs.
Qed.

Lemma flush_loop_log n p : tx (flush_loop n p) = tx p /\ script (flush_loop n p) = script p.
Proof.
  revert p. induction n as [|n IH]; intros p; simpl; [done|].
  destruct (available p); [|done].
  destruct (IH (snd (port_read p))) as [-> ->]. apply port_read_log.
Qed.

(** Sending appends exactly the frame's bytes to the log. *)
Lemma sendFrame_log f p : tx (sendFrame f p) = tx p ++ [wire f].
Proof.
  unfold sendFrame, port_write, flushRx. simpl.
  by destruct (flush_loop_log (length (rx p)) p) as [-> _].
Qed.

Lemma exchange_unfold c cap t d :
  exchange tpm fuel c cap t d
  = match readResponse tpm fuel 0 (local_buf cap) (Z.of_nat cap) t
            (sendFrame (build c (_txFrame d)) (_port d)) with
    | Some (r, p') => Some (r, mkDriver p' (build c (_txFrame d)) (lastATQA d))
    | None => None
    end.
Proof. reflexivity. Qed.

(** What one exchange leaves behind: the requested frame (cut at 32
    bytes) is the one new entry of the log; [lastATQA] is untouched. *)
Lemma exchange_effect c cap t d r d' :
  driver_wf d ->
  exchange tpm fuel c cap t d = Some (r, d') ->
  driver_wf d'
  /\ tx (_port d') = tx (_port d) ++ [take 32 (call_bytes c)]
  /\ lastATQA d' = lastATQA d
  /\ length (cells (rr_buf r)) = cap.
Proof.
  intros [Hf Ha]. rewrite exchange_unfold.
  destruct (readResponse _ _ _ _ _ _ _) as [[r1 p1]|] eqn:Hr; [|done].
  intros [= <- <-]. apply readResponse_log in Hr as (Ht & _ & Hc).
  destruct (wire_build c _ Hf) as [[Hw _] Hb].
  unfold driver_wf. simpl. rewrite Ht, sendFrame_log, Hb.
  split_and!; try done. rewrite Hc. simpl. by rewrite length_replicate.
Qed.

(** An exchange whose response was read in full and is no longer than the
    buffer stayed within it. *)
Lemma exchange_fits c cap t d r d' :
  exchange tpm fuel c cap t d = Some (r, d') ->
  rr_ok r = true -> rr_len r <= Z.of_nat cap ->
  overran r = false.
Proof.
  rewrite exchange_unfold.
  destruct (readResponse _ _ _ _ _ _ _) as [[r1 p1]|] eqn:Hr; [|done].
  intros [= <- _] Hok Hlen. apply readResponse_spill in Hr as [_ Hs].
  unfold overran. rewrite Hs; [done|done|].
  simpl. by rewrite length_replicate.
Qed.

(** A failed exchange leaves [len] at the size of the buffer. *)
Lemma exchange_failed_len c cap t d r d' :
  exchange tpm fuel c cap t d = Some (r, d') ->
  rr_ok r = false -> rr_len r = Z.of_nat cap.
Proof.
  rewrite exchange_unfold.
  destruct (readResponse _ _ _ _ _ _ _) as [[r1 p1]|] eqn:Hr; [|done].
  intros [= <- _] Hok. apply readResponse_spill in Hr as [Hl _]. by apply Hl.
Qed.

Lemma valid_data_tests m r :
  (if negb (rr_ok r) then true
   else negb (rr_code r =? CR95HF_RSP_DATA) || (rr_len r <? m))
  = negb (valid_data m r).
Proof.
  unfold valid_data. destruct (rr_ok r); [|done].
  destruct (rr_code r =? CR95HF_RSP_DATA); [|done]. simpl.
  by rewrite Z.leb_antisym, negb_involutive.
Qed.

(** Each protocol step is its exchange followed by the validity test. *)
Lemma sendReqWup_exchange cmd d :
  sendReqWup tpm fuel cmd d
  = match exchange tpm fuel (if cmd =? ISO14443A_WUPA then CallWUPA else CallREQA) 16 20 d with
    | Some (r, d') =>
        if overran r then None
        else Some (if valid_data 2 r then Some (cell (cells (rr_buf r)) 0, cell (cells (rr_buf r)) 1) else None, d')
    | None => None
    end.
Proof.
  rewrite exchange_unfold.
  unfold sendReqWup, bind, build_tx, send_tx, receive_local, receive, bind. simpl.
  destruct (readResponse _ _ _ _ _ _ _) as [[r p']|]; [|done].
  destruct (overran r); [done|].
  pose proof (valid_data_tests 2 r) as Hv. unfold ret.
  destruct (rr_ok r); simpl in *; [|by destruct (valid_data 2 r)].
  rewrite Hv. by destruct (valid_data 2 r).
Qed.

Lemma anticollCL1_exchange d :
  anticollCL1 tpm fuel d
  = match exchange tpm fuel CallAnticollCL1 16 50 d with
    | Some (r, d') =>
        if overran r then None
        else Some (if valid_data 5 r then Some (take 5 (cells (rr_buf r))) else None, d')
    | None => None
    end.
Proof.
  rewrite exchange_unfold.
  unfold anticollCL1, bind, build_tx, send_tx, receive_local, receive, bind. simpl.
  destruct (readResponse _ _ _ _ _ _ _) as [[r p']|]; [|done].
  destruct (overran r); [done|].
  pose proof (valid_data_tests 5 r) as Hv. unfold ret.
  destruct (rr_ok r); simpl in *; [|by destruct (valid_data 5 r)].
  rewrite Hv. by destruct (valid_data 5 r).
Qed.

Lemma anticollCL2_exchange d :
  anticollCL2 tpm fuel d
  = match exchange tpm fuel CallAnticollCL2 16 50 d with
    | Some (r, d') =>
        if overran r then None
        else Some (if valid_data 5 r then Some (take 5 (cells (rr_buf r))) else None, d')
    | None => None
    end.
Proof.
  rewrite exchange_unfold.
  unfold anticollCL2, bind, build_tx, send_tx, receive_local, receive, bind. simpl.
  destruct (readResponse _ _ _ _ _ _ _) as [[r p']|]; [|done].
  destruct (overran r); [done|].
  pose proof (valid_data_tests 5 r) as Hv. unfold ret.
  destruct (rr_ok r); simpl in *; [|by destruct (valid_data 5 r)].
  rewrite Hv. by destruct (valid_data 5 r).
Qed.

Lemma selectCL1_exchange cl1 d :
  selectCL1 tpm fuel cl1 d
  = match exchange tpm fuel (CallSelectCL1 cl1) 8 50 d with
    | Some (r, d') =>
        if overran r then None
        else Some (if valid_data 1 r then Some (cell (cells (rr_buf r)) 0) else None, d')
    | None => None
    end.
Proof.
  rewrite exchange_unfold.
  unfold selectCL1, bind, build_tx, send_tx, receive_local, receive, bind. simpl.
  destruct (readResponse _ _ _ _ _ _ _) as [[r p']|]; [|done].
  destruct (overran r); [done|].
  pose proof (valid_data_tests 1 r) as Hv. unfold ret.
  destruct (rr_ok r); simpl in *; [|by destruct (valid_data 1 r)].
  rewrite Hv. by destruct (valid_data 1 r).
Qed.

Lemma selectCL2_exchange cl2 d :
  selectCL2 tpm fuel cl2 d
  = match exchange tpm fuel (CallSelectCL2 cl2) 8 50 d with
    | Some (r, d') =>
        if overran r then None
        else Some (if valid_data 1 r then Some (cell (cells (rr_buf r)) 0) else None, d')
    | None => None
    end.
Proof.
  rewrite exchange_unfold.
  unfold selectCL2, bind, build_tx, send_tx, receive_local, receive, bind. simpl.
  destruct (readResponse _ _ _ _ _ _ _) as [[r p']|]; [|done].
  destruct (overran r); [done|].
  pose proof (valid_data_tests 1 r) as Hv. unfold ret.
  destruct (rr_ok r); simpl in *; [|by destruct (valid_data 1 r)].
  rewrite Hv. by destruct (valid_data 1 r).
Qed.

(** The value of [len] on entry has no influence on what is received
    or stored. *)
Lemma readResponse_len_unread code buf len len' t p :
  match readResponse tpm fuel code buf len t p,
        readResponse tpm fuel code buf len' t p with
  | Some (r, q), Some (r', q') =>
      rr_ok r = rr_ok r' /\ rr_code r = rr_code r' /\ rr_buf r = rr_buf r' /\ q = q'
  | None, None => True
  | _, _ => False
  end.
Proof.
  unfold readResponse.
  destruct (wait_available tpm fuel (millis tpm p) t p) as [[[] p1]|]; try done.
  destruct (port_read p1) as [c p2].
  destruct (wait_available tpm fuel (millis tpm p) t p2) as [[[] p3]|]; try done.
  destruct (port_read p3) as [l p4].
  destruct (read_payload tpm fuel (millis tpm p) t l 0 buf p4)
    as [[[[[] n] buf'] p5]|]; done.
Qed.

End Steps.

Section Discovery.

Variable tpm : Z.
Variable fuel : nat.

Lemma sent_since_app (d d' : CR95HF) (l : list (list Z)) :
  tx (_port d') = tx (_port d) ++ l -> sent_since d d' = l.
Proof. unfold sent_since. intros ->. apply drop_app_length. Qed.

Lemma cell_insert_eq (l : list Z) i x :
  (i < length l)%nat -> cell (<[i:=x]> l) i = x.
Proof.
  intros H. unfold cell. rewrite nth_lookup, list_lookup_insert_eq; done.
Qed.

Lemma cell_insert_ne (l : list Z) i j x :
  i <> j -> cell (<[i:=x]> l) j = cell l j.
Proof.
  intros H. unfold cell. rewrite !nth_lookup, list_lookup_insert_ne; done.
Qed.

Lemma cells5 (l : list Z) :
  length l = 5%nat ->
  l = [cell l 0; cell l 1; cell l 2; cell l 3; cell l 4].
Proof.
  do 5 (destruct l as [|? l]; simpl; try lia). by destruct l.
Qed.

Lemma set_atqa_wf a1 a2 d : driver_wf d -> driver_wf (set_atqa a1 a2 d).
Proof. intros [? ?]. split; simpl; [done|]. by rewrite !length_insert. Qed.


(** The wake step, by the outcome of the WUPA exchange. *)
Lemma wake_unfold d :
  wake tpm fuel d
  = match exchange tpm fuel CallWUPA 16 20 d with
    | Some (r1, d1) =>
        if overran r1 then None
        else if valid_data 2 r1 then Some (Some (atqa_of r1), d1)
        else match exchange tpm fuel CallREQA 16 20 d1 with
             | Some (r2, d2) =>
                 if overran r2 then None
                 else Some (if valid_data 2 r2 then Some (atqa_of r2) else None, d2)
             | None => None
             end
    | None => None
    end.
Proof.
  unfold wake, bind. rewrite sendReqWup_exchange.
  change (ISO14443A_WUPA =? ISO14443A_WUPA) with true. cbv iota.
  destruct (exchange tpm fuel CallWUPA 16 20 d) as [[r1 d1]|]; [|done].
  destruct (overran r1); [done|].
  destruct (valid_data 2 r1); [done|].
  by rewrite sendReqWup_exchange.
Qed.

(** What the wake step leaves behind. *)
Lemma wake_effect d g d1 :
  driver_wf d ->
  wake tpm fuel d = Some (g, d1) ->
  driver_wf d1 /\ lastATQA d1 = lastATQA d
  /\ (tx (_port d1) = tx (_port d) ++ [frame_WUPA]
      \/ tx (_port d1) = tx (_port d) ++ [frame_WUPA; frame_REQA]).
Proof.
  intros Hwf. rewrite wake_unfold.
  destruct (exchange tpm fuel CallWUPA 16 20 d) as [[r1 dm]|] eqn:H1; [|done].
  apply exchange_effect in H1 as (Hwf1 & Ht1 & Ha1 & _); [|done].
  destruct (overran r1); [done|].
  destruct (valid_data 2 r1).
  - intros [= <- <-]. split_and!; try done. by left.
  - destruct (exchange tpm fuel CallREQA 16 20 dm) as [[r2 d2]|] eqn:H2; [|done].
    apply exchange_effect in H2 as (Hwf2 & Ht2 & Ha2 & _); [|done].
    destruct (overran r2); [done|].
    intros [= <- <-]. split_and!; [done|congruence|].
    right. rewrite Ht2, Ht1, <- app_assoc. done.
Qed.

Lemma iso14443aGetUID_unfold uid0 d :
  iso14443aGetUID tpm fuel uid0 d
  = match wake tpm fuel d with
    | Some (Some (a1, a2), d1) => resolve_uid tpm fuel uid0 a1 a2 d1
    | Some (None, d1) => Some ((false, mkUidOut uid0 0 0), d1)
    | None => None
    end.
Proof.
  unfold iso14443aGetUID, bind.
  destruct (wake tpm fuel d) as [[[[a1 a2]|] d1]|]; done.
Qed.

(** The cascade levels, by the outcome of their steps. *)
Lemma resolve_uid_unfold uid0 a1 a2 d :
  resolve_uid tpm fuel uid0 a1 a2 d
  = match anticollCL1 tpm fuel (set_atqa a1 a2 d) with
    | None => None
    | Some (None, d2) => Some ((false, mkUidOut uid0 0 0), d2)
    | Some (Some cl1, d2) =>
        match selectCL1 tpm fuel cl1 d2 with
        | None => None
        | Some (None, d3) => Some ((false, mkUidOut uid0 0 0), d3)
        | Some (Some sak1, d3) =>
            if negb (cell cl1 0 =? ISO14443A_CT) then
              Some ((true,
                     mkUidOut (<[3%nat := cell cl1 3]>
                               (<[2%nat := cell cl1 2]>
                                (<[1%nat := cell cl1 1]>
                                 (<[0%nat := cell cl1 0]> uid0))))
                              4 sak1), d3)
            else
              let uid1 := <[2%nat := cell cl1 3]>
                          (<[1%nat := cell cl1 2]>
                           (<[0%nat := cell cl1 1]> uid0)) in
              match anticollCL2 tpm fuel d3 with
              | None => None
              | Some (None, d4) => Some ((false, mkUidOut uid1 0 0), d4)
              | Some (Some cl2, d4) =>
                  match selectCL2 tpm fuel cl2 d4 with
                  | None => None
                  | Some (None, d5) => Some ((false, mkUidOut uid1 0 0), d5)
                  | Some (Some sak2, d5) =>
                      Some ((true,
                             mkUidOut (<[6%nat := cell cl2 3]>
                                       (<[5%nat := cell cl2 2]>
                                        (<[4%nat := cell cl2 1]>
                                         (<[3%nat := cell cl2 0]> uid1))))
                                      7 sak2), d5)
                  end
              end
        end
    end.
Proof.
  unfold resolve_uid, bind, store_atqa, ret.
  destruct (anticollCL1 tpm fuel (set_atqa a1 a2 d)) as [[[cl1|] d2]|]; try done.
  destruct (selectCL1 tpm fuel cl1 d2) as [[[sak1|] d3]|]; try done.
  destruct (negb (cell cl1 0 =? ISO14443A_CT)); [done|]. cbv zeta.
  destruct (anticollCL2 tpm fuel d3) as [[[cl2|] d4]|]; try done.
  destruct (selectCL2 tpm fuel cl2 d4) as [[[sak2|] d5]|]; done.
Qed.

(** Outcome and log of the two kinds of step, read off their exchange. *)
Lemma anticollCL1_effect d c d' :
  driver_wf d ->
  anticollCL1 tpm fuel d = Some (c, d') ->
  driver_wf d' /\ lastATQA d' = lastATQA d
  /\ tx (_port d') = tx (_port d) ++ [frame_AnticollCL1]
  /\ (forall cl1, c = Some cl1 -> length cl1 = 5%nat).
Proof.
  intros Hwf. rewrite anticollCL1_exchange.
  destruct (exchange _ _ _ _ _ _) as [[r d1]|] eqn:He; [|done].
  apply exchange_effect in He as (Hwf1 & Ht1 & Ha1 & Hc1); [|done].
  destruct (overran r); [done|].
  intros [= <- <-]. split_and!; try done.
  intros cl1. destruct (valid_data 5 r); [|done]. intros [= <-].
  rewrite length_take. lia.
Qed.

Lemma anticollCL2_effect d c d' :
  driver_wf d ->
  anticollCL2 tpm fuel d = Some (c, d') ->
  driver_wf d' /\ lastATQA d' = lastATQA d
  /\ tx (_port d') = tx (_port d) ++ [frame_AnticollCL2]
  /\ (forall cl2, c = Some cl2 -> length cl2 = 5%nat).
Proof.
  intros Hwf. rewrite anticollCL2_exchange.
  destruct (exchange _ _ _ _ _ _) as [[r d1]|] eqn:He; [|done].
  apply exchange_effect in He as (Hwf1 & Ht1 & Ha1 & Hc1); [|done].
  destruct (overran r); [done|].
  intros [= <- <-]. split_and!; try done.
  intros cl2. destruct (valid_data 5 r); [|done]. intros [= <-].
  rewrite length_take. lia.
Qed.

Lemma selectCL1_effect cl1 d s d' :
  driver_wf d -> length cl1 = 5%nat ->
  selectCL1 tpm fuel cl1 d = Some (s, d') ->
  driver_wf d' /\ lastATQA d' = lastATQA d
  /\ tx (_port d') = tx (_port d) ++ [frame_SelectCL1 cl1].
Proof.
  intros Hwf H5. rewrite selectCL1_exchange.
  destruct (exchange _ _ _ _ _ _) as [[r d1]|] eqn:He; [|done].
  apply exchange_effect in He as (Hwf1 & Ht1 & Ha1 & Hc1); [|done].
  destruct (overran r); [done|].
  intros [= <- <-]. split_and!; try done.
  rewrite Ht1. do 2 f_equal. unfold frame_SelectCL1.
  rewrite (cells5 cl1) at 2 by done. done.
Qed.

Lemma selectCL2_effect cl2 d s d' :
  driver_wf d -> length cl2 = 5%nat ->
  selectCL2 tpm fuel cl2 d = Some (s, d') ->
  driver_wf d' /\ lastATQA d' = lastATQA d
  /\ tx (_port d') = tx (_port d) ++ [frame_SelectCL2 cl2].
Proof.
  intros Hwf H5. rewrite selectCL2_exchange.
  destruct (exchange _ _ _ _ _ _) as [[r d1]|] eqn:He; [|done].
  apply exchange_effect in He as (Hwf1 & Ht1 & Ha1 & Hc1); [|done].
  destruct (overran r); [done|].
  intros [= <- <-]. split_and!; try done.
  rewrite Ht1. do 2 f_equal. unfold frame_SelectCL2.
  rewrite (cells5 cl2) at 2 by done. done.
Qed.

(** A valid response no longer than the step's array stayed within it. *)
Lemma valid_fits c cap t d r d' m :
  exchange tpm fuel c cap t d = Some (r, d') ->
  valid_data m r = true -> rr_len r <= Z.of_nat cap ->
  overran r = false.
Proof.
  intros He Hv Hl. eapply exchange_fits; [exact He| |exact Hl].
  unfold valid_data in Hv. by destruct (rr_ok r).
Qed.

(** The result of a step whose response stayed within the step's array,
    from its exchange. *)
Lemma anticollCL1_by_exchange d r d' :
  exchange tpm fuel CallAnticollCL1 16 50 d = Some (r, d') ->
  overran r = false ->
  anticollCL1 tpm fuel d
  = Some (if valid_data 5 r then Some (candidate_of r) else None, d').
Proof. intros He Ho. by rewrite anticollCL1_exchange, He, Ho. Qed.

Lemma anticollCL2_by_exchange d r d' :
  exchange tpm fuel CallAnticollCL2 16 50 d = Some (r, d') ->
  overran r = false ->
  anticollCL2 tpm fuel d
  = Some (if valid_data 5 r then Some (candidate_of r) else None, d').
Proof. intros He Ho. by rewrite anticollCL2_exchange, He, Ho. Qed.

Lemma selectCL1_by_exchange cl d r d' :
  exchange tpm fuel (CallSelectCL1 cl) 8 50 d = Some (r, d') ->
  overran r = false ->
  selectCL1 tpm fuel cl d = Some (if valid_data 1 r then Some (sak_of r) else None, d').
Proof. intros He Ho. by rewrite selectCL1_exchange, He, Ho. Qed.

Lemma selectCL2_by_exchange cl d r d' :
  exchange tpm fuel (CallSelectCL2 cl) 8 50 d = Some (r, d') ->
  overran r = false ->
  selectCL2 tpm fuel cl d = Some (if valid_data 1 r then Some (sak_of r) else None, d').
Proof. intros He Ho. by rewrite selectCL2_exchange, He, Ho. Qed.

(** C1 (as amended). The wake step has obtained an ATQA (it has a
    result, so its responses stayed within [buf[16]]).  The level-1
    anticollision response [r1] is a valid data response, so its first
    five bytes are the candidate; the level-1 select response [r2] is
    valid, so its first byte is the level-1 SAK; both fit the arrays of
    their steps ([buf[16]], [buf[8]]).  If the candidate's
    first byte is not 0x88 the call returns true with [uidLen = 4],
    [uid[0..3]] the candidate's bytes 0..3, [sakOut] the level-1 SAK, and
    no frame addressed to cascade level 2 was sent.  If it is 0x88 and
    the level-2 anticollision and select responses [r3], [r4] are valid
    and fit as well, the call returns true with [uidLen = 7],
    [uid[0..2]] the bytes 1..3 of the level-1 candidate, [uid[3..6]] the
    bytes 0..3 of the level-2 candidate, and [sakOut] the first byte of
    the level-2 select response. *)
Theorem cascade_branching uid0 d0 a1 a2 d1 r1 d2 r2 d3 :
  driver_wf d0 ->
  (7 <= length uid0)%nat ->
  wake tpm fuel d0 = Some (Some (a1, a2), d1) ->
  exchange tpm fuel CallAnticollCL1 16 50 (set_atqa a1 a2 d1) = Some (r1, d2) ->
  valid_data 5 r1 = true -> rr_len r1 <= 16 ->
  exchange tpm fuel (CallSelectCL1 (candidate_of r1)) 8 50 d2 = Some (r2, d3) ->
  valid_data 1 r2 = true -> rr_len r2 <= 8 ->
  (cell (candidate_of r1) 0 <> ISO14443A_CT ->
     exists u,
       iso14443aGetUID tpm fuel uid0 d0 = Some ((true, mkUidOut u 4 (sak_of r2)), d3)
       /\ cell u 0 = cell (candidate_of r1) 0 /\ cell u 1 = cell (candidate_of r1) 1
       /\ cell u 2 = cell (candidate_of r1) 2 /\ cell u 3 = cell (candidate_of r1) 3
       /\ existsb is_cl2_frame (sent_since d0 d3) = false) /\
  (cell (candidate_of r1) 0 = ISO14443A_CT ->
     forall r3 d4 r4 d5,
       exchange tpm fuel CallAnticollCL2 16 50 d3 = Some (r3, d4) ->
       valid_data 5 r3 = true -> rr_len r3 <= 16 ->
       exchange tpm fuel (CallSelectCL2 (candidate_of r3)) 8 50 d4 = Some (r4, d5) ->
       valid_data 1 r4 = true -> rr_len r4 <= 8 ->
       exists u,
         iso14443aGetUID tpm fuel uid0 d0 = Some ((true, mkUidOut u 7 (sak_of r4)), d5)
         /\ cell u 0 = cell (candidate_of r1) 1 /\ cell u 1 = cell (candidate_of r1) 2
         /\ cell u 2 = cell (candidate_of r1) 3
         /\ cell u 3 = cell (candidate_of r3) 0 /\ cell u 4 = cell (candidate_of r3) 1
         /\ cell u 5 = cell (candidate_of r3) 2 /\ cell u 6 = cell (candidate_of r3) 3).
Proof.
  intros Hwf Hu Hw He1 Hv1 Hl1 He2 Hv2 Hl2.
  pose proof (valid_fits _ _ _ _ _ _ _ He1 Hv1 Hl1) as Ho1.
  pose proof (valid_fits _ _ _ _ _ _ _ He2 Hv2 Hl2) as Ho2.
  pose proof (anticollCL1_by_exchange _ _ _ He1 Ho1) as Ha. rewrite Hv1 in Ha.
  pose proof (selectCL1_by_exchange _ _ _ _ He2 Ho2) as Hs. rewrite Hv2 in Hs.
  rewrite iso14443aGetUID_unfold, Hw, resolve_uid_unfold, Ha, Hs.
  split.
  - intros Hct. apply Z.eqb_neq in Hct. rewrite Hct. simpl negb. cbv iota.
    eexists. split; [reflexivity|].
    split_and!;
      try (rewrite ?cell_insert_ne by done;
           apply cell_insert_eq; rewrite ?length_insert; lia).
    apply wake_effect in Hw as (Hwf1 & _ & Ht1); [|done].
    apply anticollCL1_effect in Ha as (Hwf2 & _ & Ht2 & H5);
      [|by apply set_atqa_wf].
    apply selectCL1_effect in Hs as (_ & _ & Ht3); [|done|by apply H5].
    simpl in Ht2.
    destruct Ht1 as [Ht1|Ht1];
      rewrite Ht1 in Ht2; rewrite Ht2, <- !app_assoc in Ht3;
      rewrite (sent_since_app _ _ _ Ht3); done.
  - intros Hct r3 d4 r4 d5 He3 Hv3 Hl3 He4 Hv4 Hl4.
    pose proof (valid_fits _ _ _ _ _ _ _ He3 Hv3 Hl3) as Ho3.
    pose proof (valid_fits _ _ _ _ _ _ _ He4 Hv4 Hl4) as Ho4.
    pose proof (anticollCL2_by_exchange _ _ _ He3 Ho3) as Ha2. rewrite Hv3 in Ha2.
    pose proof (selectCL2_by_exchange _ _ _ _ He4 Ho4) as Hs2. rewrite Hv4 in Hs2.
    apply Z.eqb_eq in Hct. rewrite Hct. simpl negb. cbv iota zeta.
    rewrite Ha2, Hs2.
    eexists. split; [reflexivity|].
    split_and!;
      (rewrite ?cell_insert_ne by done;
       apply cell_insert_eq; rewrite ?length_insert; lia).
Qed.

(** C10. Level 2 is entered: the level-1 anticollision and select
    responses [r1], [r2] are valid and fit their arrays, and the
    candidate's first byte is 0x88.  When then the level-2 anticollision
    response [r3] is not a valid one, or it is but the level-2 select
    response [r4] is not (neither overran its array), the call returns
    false with [uidLen = 0] and [sakOut = 0], while [uid[0..2]] already
    hold the candidate's bytes 1..3; the rest of the caller's buffer is
    as it was. *)
Theorem cascade2_failure_not_atomic uid0 d0 a1 a2 d1 r1 d2 r2 d3 r3 d4 d' :
  driver_wf d0 ->
  (3 <= length uid0)%nat ->
  wake tpm fuel d0 = Some (Some (a1, a2), d1) ->
  exchange tpm fuel CallAnticollCL1 16 50 (set_atqa a1 a2 d1) = Some (r1, d2) ->
  valid_data 5 r1 = true -> rr_len r1 <= 16 ->
  exchange tpm fuel (CallSelectCL1 (candidate_of r1)) 8 50 d2 = Some (r2, d3) ->
  valid_data 1 r2 = true -> rr_len r2 <= 8 ->
  cell (candidate_of r1) 0 = ISO14443A_CT ->
  exchange tpm fuel CallAnticollCL2 16 50 d3 = Some (r3, d4) ->
  overran r3 = false ->
  ((valid_data 5 r3 = false /\ d' = d4)
   \/ (valid_data 5 r3 = true
       /\ exists r4,
            exchange tpm fuel (CallSelectCL2 (candidate_of r3)) 8 50 d4 = Some (r4, d')
            /\ overran r4 = false /\ valid_data 1 r4 = false)) ->
  exists u,
    iso14443aGetUID tpm fuel uid0 d0 = Some ((false, mkUidOut u 0 0), d')
    /\ cell u 0 = cell (candidate_of r1) 1 /\ cell u 1 = cell (candidate_of r1) 2
    /\ cell u 2 = cell (candidate_of r1) 3
    /\ drop 3 u = drop 3 uid0.
Proof.
  intros Hwf Hu Hw He1 Hv1 Hl1 He2 Hv2 Hl2 Hct He3 Ho3 Hfail.
  pose proof (valid_fits _ _ _ _ _ _ _ He1 Hv1 Hl1) as Ho1.
  pose proof (valid_fits _ _ _ _ _ _ _ He2 Hv2 Hl2) as Ho2.
  pose proof (anticollCL1_by_exchange _ _ _ He1 Ho1) as Ha. rewrite Hv1 in Ha.
  pose proof (selectCL1_by_exchange _ _ _ _ He2 Ho2) as Hs. rewrite Hv2 in Hs.
  pose proof (anticollCL2_by_exchange _ _ _ He3 Ho3) as Ha2.
  rewrite iso14443aGetUID_unfold, Hw, resolve_uid_unfold, Ha, Hs.
  apply Z.eqb_eq in Hct. rewrite Hct. simpl negb. cbv iota zeta.
  rewrite Ha2.
  destruct Hfail as [[Hv3 ->]|(Hv3 & r4 & He4 & Ho4 & Hv4)]; rewrite Hv3;
    [| rewrite (selectCL2_by_exchange _ _ _ _ He4 Ho4), Hv4 ];
    (eexists; split; [reflexivity|];
     split_and!;
       [ rewrite ?cell_insert_ne by done;
         apply cell_insert_eq; rewrite ?length_insert; lia ..
       | by rewrite !drop_insert_lt by lia ]).
Qed.

(** C5. A level-1 anticollision response with data status and fewer
    than 5 payload bytes ends the call at once: it returns false, and
    the anticollision frame is the last frame written; no select frame
    goes out in the call. *)
Theorem short_anticollision_aborts uid0 d0 a1 a2 d1 r d2 :
  driver_wf d0 ->
  wake tpm fuel d0 = Some (Some (a1, a2), d1) ->
  exchange tpm fuel CallAnticollCL1 16 50 (set_atqa a1 a2 d1) = Some (r, d2) ->
  rr_ok r = true -> rr_code r = CR95HF_RSP_DATA -> rr_len r < 5 ->
  iso14443aGetUID tpm fuel uid0 d0 = Some ((false, mkUidOut uid0 0 0), d2)
  /\ sent_since d1 d2 = [frame_AnticollCL1]
  /\ existsb is_select_frame (sent_since d0 d2) = false.
Proof.
  intros Hwf Hw He Hok Hcode Hlen.
  assert (Hv : valid_data 5 r = false).
  { unfold valid_data. rewrite Hok, Hcode. simpl. apply Z.leb_gt. lia. }
  assert (Ho : overran r = false).
  { eapply exchange_fits; [exact He|exact Hok|]. simpl. lia. }
  rewrite iso14443aGetUID_unfold, Hw, resolve_uid_unfold,
    (anticollCL1_by_exchange _ _ _ He Ho), Hv.
  split; [done|].
  apply wake_effect in Hw as (Hwf1 & _ & Ht1); [|done].
  apply exchange_effect in He as (_ & Ht2 & _); [|by apply set_atqa_wf].
  simpl in Ht2. split; [by apply sent_since_app|].
  destruct Ht1 as [Ht1|Ht1]; rewrite Ht1, <- app_assoc in Ht2;
    rewrite (sent_since_app _ _ _ Ht2); done.
Qed.

(** C6. A select response without payload bytes makes the select step
    fail, at either cascade level and whatever its status code. *)
Theorem empty_select_response_rejected cl d r d' :
  rr_len r = 0 ->
  (exchange tpm fuel (CallSelectCL1 cl) 8 50 d = Some (r, d') ->
   selectCL1 tpm fuel cl d = Some (None, d')) /\
  (exchange tpm fuel (CallSelectCL2 cl) 8 50 d = Some (r, d') ->
   selectCL2 tpm fuel cl d = Some (None, d')).
Proof.
  intros Hlen.
  assert (Hv : valid_data 1 r = false).
  { unfold valid_data. rewrite Hlen. by rewrite !andb_false_r. }
  assert (Ho : forall c, exchange tpm fuel c 8 50 d = Some (r, d') -> overran r = false).
  { intros c He. destruct (rr_ok r) eqn:Hok.
    - eapply exchange_fits; [exact He|exact Hok|]. rewrite Hlen. simpl. lia.
    - apply exchange_failed_len in He; [|exact Hok]. simpl in He. lia. }
  split; intros He.
  - by rewrite (selectCL1_by_exchange _ _ _ _ He (Ho _ He)), Hv.
  - by rewrite (selectCL2_by_exchange _ _ _ _ He (Ho _ He)), Hv.
Qed.

End Discovery.

(** * Discovery under a live clock *)

Section Returns.

Variable tpm : Z.
Variable fuel : nat.
Hypothesis Htpm : 0 < tpm.
Hypothesis Hfuel : fuel_ok tpm fuel 50.

Lemma fuel_ok_le t : 0 <= t <= 50 -> fuel_ok tpm fuel t.
Proof. unfold fuel_ok in *. nia. Qed.

(** Whatever the chip does, the bare exchange returns. *)
Lemma exchange_returns c cap t d :
  0 <= t <= 50 -> exists r d', exchange tpm fuel c cap t d = Some (r, d').
Proof.
  intros Ht. rewrite exchange_unfold.
  rewrite readResponse_by_deadline by (try apply fuel_ok_le; lia).
  destruct (response_by _ _ _ _ _) as [r p']. by eauto.
Qed.




(** C8. A 5-byte level-1 anticollision data response is taken as the
    candidate as it is: the step succeeds with these 5 bytes, and the
    select exchange follows, its frame carrying the 5 bytes verbatim.
    Where the select response stayed within [buf[8]], the outcome of the
    discovery is the outcome of that select (the caller's buffer having
    room for the four identifier bytes).  This holds whatever the fifth
    byte is: its relation to the XOR of the first four ([bcc]) is
    neither assumed here nor tested by the driver. *)
Theorem anticollision_check_byte_unverified uid0 a1 a2 d0 r d1 :
  driver_wf d0 ->
  (4 <= length uid0)%nat ->
  exchange tpm fuel CallAnticollCL1 16 50 (set_atqa a1 a2 d0) = Some (r, d1) ->
  rr_ok r = true -> rr_code r = CR95HF_RSP_DATA -> rr_len r = 5 ->
  anticollCL1 tpm fuel (set_atqa a1 a2 d0) = Some (Some (candidate_of r), d1)
  /\ exists r2 d2,
       exchange tpm fuel (CallSelectCL1 (candidate_of r)) 8 50 d1 = Some (r2, d2)
       /\ sent_since d0 d2 = [frame_AnticollCL1; frame_SelectCL1 (candidate_of r)]
       /\ (overran r2 = false ->
           if valid_data 1 r2 then
             cell (candidate_of r) 0 <> ISO14443A_CT ->
             exists u,
               resolve_uid tpm fuel uid0 a1 a2 d0
               = Some ((true, mkUidOut u 4 (sak_of r2)), d2)
           else
             resolve_uid tpm fuel uid0 a1 a2 d0
             = Some ((false, mkUidOut uid0 0 0), d2)).
Proof.
  intros Hwf _ He Hok Hcode Hlen.
  assert (Hv : valid_data 5 r = true).
  { unfold valid_data. by rewrite Hok, Hcode, Hlen. }
  assert (Ho : overran r = false).
  { eapply exchange_fits; [exact He|exact Hok|]. rewrite Hlen. simpl. lia. }
  pose proof (anticollCL1_by_exchange _ _ _ _ _ He Ho) as Ha. rewrite Hv in Ha.
  split; [exact Ha|].
  destruct (exchange_returns (CallSelectCL1 (candidate_of r)) 8 50 d1)
    as (r2 & d2 & He2); [lia|].
  exists r2, d2. split; [exact He2|].
  pose proof Ha as Ha'.
  apply anticollCL1_effect in Ha' as (Hwf1 & _ & Ht1 & H5); [|by apply set_atqa_wf].
  pose proof He2 as He2'.
  apply exchange_effect in He2' as (_ & Ht2 & _); [|done].
  simpl in Ht1. split.
  - apply sent_since_app. rewrite Ht2, Ht1, <- app_assoc. do 3 f_equal.
    unfold frame_SelectCL1. simpl.
    rewrite (cells5 (candidate_of r)) at 6 by (by apply H5). done.
  - intros Ho2.
    rewrite resolve_uid_unfold, Ha, (selectCL1_by_exchange _ _ _ _ _ _ He2 Ho2).
    destruct (valid_data 1 r2); [|done].
    intros Hct. apply Z.eqb_neq in Hct. rewrite Hct. simpl. by eauto.
Qed.

End Returns.

(** [cascade_branching] on the scripted single-size tag (SAK 08) and on
    the double-size tag whose level-2 SAK is 20. *)
Lemma cascade_branching_witness :
  (exists u d',
      iso14443aGetUID 1 300 uid_buf (driver0 tag4) = Some ((true, mkUidOut u 4 0x08), d')
      /\ cell u 0 = 0x12 /\ cell u 1 = 0x34 /\ cell u 2 = 0x56 /\ cell u 3 = 0x78) /\
  (exists u d',
      iso14443aGetUID 1 300 uid_buf (driver0 tag7_desfire)
      = Some ((true, mkUidOut u 7 0x20), d')
      /\ cell u 0 = 0x04 /\ cell u 1 = 0x11 /\ cell u 2 = 0x22
      /\ cell u 3 = 0x33 /\ cell u 4 = 0x44 /\ cell u 5 = 0x55 /\ cell u 6 = 0x66).
Proof.
  split.
  - edestruct (cascade_branching 1 300 uid_buf (driver0 tag4)) as [H4 _].
    + split; reflexivity.
    + simpl; lia.
    + vm_compute; reflexivity.
    + vm_compute; reflexivity.
    + reflexivity.
    + simpl; lia.
    + vm_compute; reflexivity.
    + reflexivity.
    + simpl; lia.
    + destruct H4 as (u & He & H0 & H1 & H2 & H3 & _); [vm_compute; discriminate|].
      exists u. eexists. split; [exact He|].
      split; [exact H0|]. split; [exact H1|]. split; [exact H2 | exact H3].
  - edestruct (cascade_branching 1 300 uid_buf (driver0 tag7_desfire)) as [_ H7].
    + split; reflexivity.
    + simpl; lia.
    + vm_compute; reflexivity.
    + vm_compute; reflexivity.
    + reflexivity.
    + simpl; lia.
    + vm_compute; reflexivity.
    + reflexivity.
    + simpl; lia.
    + edestruct H7 as (u & He & H0 & H1 & H2 & H3 & H4 & H5 & H6).
      * vm_compute; reflexivity.
      * vm_compute; reflexivity.
      * reflexivity.
      * simpl; lia.
      * vm_compute; reflexivity.
      * reflexivity.
      * simpl; lia.
      * exists u. eexists. split; [exact He|].
        split; [exact H0|]. split; [exact H1|]. split; [exact H2|].
        split; [exact H3|]. split; [exact H4|]. split; [exact H5 | exact H6].
Defined.

(** C1 as stated fails when the level-1 select fails.  The single-size
    tag answers the wake command and the anticollision, its candidate
    12 34 56 78 08 does not begin with 0x88, and then it is gone: the
    select gets no answer, and the call returns false with [uidLen = 0]
    and the caller's buffer untouched. *)
Lemma single_size_without_select_gives_no_uid :
  exists d1 d2 d',
    wake 1 300 (driver0 tag4_lost) = Some (Some (0x04, 0x00), d1)
    /\ anticollCL1 1 300 (set_atqa 0x04 0x00 d1)
       = Some (Some [0x12; 0x34; 0x56; 0x78; 0x08], d2)
    /\ cell [0x12; 0x34; 0x56; 0x78; 0x08] 0 <> ISO14443A_CT
    /\ selectCL1 1 300 [0x12; 0x34; 0x56; 0x78; 0x08] d2 = Some (None, d')
    /\ iso14443aGetUID 1 300 uid_buf (driver0 tag4_lost)
       = Some ((false, mkUidOut uid_buf 0 0), d').
Proof.
  eexists _, _, _. split; [vm_compute; reflexivity|].
  split; [vm_compute; reflexivity|]. split; [vm_compute; discriminate|].
  split; vm_compute; reflexivity.
Qed.

(** [cascade2_failure_not_atomic] on the double-size tag that leaves the
    field after the level-1 select: the level-2 anticollision times out. *)
Lemma cascade2_failure_not_atomic_witness :
  exists u d',
    iso14443aGetUID 1 300 uid_buf (driver0 tag7_lost) = Some ((false, mkUidOut u 0 0), d')
    /\ cell u 0 = 0x04 /\ cell u 1 = 0x11 /\ cell u 2 = 0x22
    /\ drop 3 u = replicate 7 0xEE.
Proof.
  edestruct (cascade2_failure_not_atomic 1 300 uid_buf (driver0 tag7_lost))
    as (u & He & H0 & H1 & H2 & H3).
  - split; reflexivity.
  - simpl; lia.
  - vm_compute; reflexivity.
  - vm_compute; reflexivity.
  - reflexivity.
  - simpl; lia.
  - vm_compute; reflexivity.
  - reflexivity.
  - simpl; lia.
  - reflexivity.
  - vm_compute; reflexivity.
  - reflexivity.
  - left. split; reflexivity.
  - exists u. eexists. split; [exact He|].
    split; [exact H0|]. split; [exact H1|]. split; [exact H2 | exact H3].
Defined.


(** [short_anticollision_aborts] on the chip whose anticollision answer has
    three bytes. *)
Lemma short_anticollision_aborts_witness :
  exists d2,
    iso14443aGetUID 1 300 uid_buf (driver0 tag4_short)
    = Some ((false, mkUidOut uid_buf 0 0), d2)
    /\ existsb is_select_frame (sent_since (driver0 tag4_short) d2) = false.
Proof.
  edestruct (short_anticollision_aborts 1 300 uid_buf (driver0 tag4_short))
    as (He & _ & Hs).
  - split; reflexivity.
  - vm_compute; reflexivity.
  - vm_compute; reflexivity.
  - reflexivity.
  - reflexivity.
  - vm_compute; reflexivity.
  - eexists. split; [exact He | exact Hs].
Defined.

(** [empty_select_response_rejected] for an empty response with data
    status at level 1 and one with success status at level 2. *)
Lemma empty_select_response_rejected_witness :
  (exists d',
      selectCL1 1 300 [0x12; 0x34; 0x56; 0x78; 0x08] (driver0 (empty_reply 0x80))
      = Some (None, d')) /\
  (exists d',
      selectCL2 1 300 [0x33; 0x44; 0x55; 0x66; 0x00] (driver0 (empty_reply 0x00))
      = Some (None, d')).
Proof.
  split.
  - eexists.
    refine (proj1 (empty_select_response_rejected 1 300
                     [0x12; 0x34; 0x56; 0x78; 0x08] (driver0 (empty_reply 0x80))
                     (mkResponse true 0x80 (local_buf 8) 0) _ _) _).
    + reflexivity.
    + vm_compute; reflexivity.
  - eexists.
    refine (proj2 (empty_select_response_rejected 1 300
                     [0x33; 0x44; 0x55; 0x66; 0x00] (driver0 (empty_reply 0x00))
                     (mkResponse true 0x00 (local_buf 8) 0) _ _) _).
    + reflexivity.
    + vm_compute; reflexivity.
Defined.



(** [anticollision_check_byte_unverified] on the tag whose answer carries
    the check byte 0xFF where 0x08 is due: the select frame goes out with
    the five bytes as received and the discovery returns the tag. *)
Lemma anticollision_check_byte_unverified_witness :
  bcc [0x12; 0x34; 0x56; 0x78; 0xFF] <> 0xFF /\
  exists d0 d2 u,
    wake 1 400 (driver0 tag4_bad_bcc) = Some (Some (0x04, 0x00), d0)
    /\ sent_since d0 d2
       = [frame_AnticollCL1; frame_SelectCL1 [0x12; 0x34; 0x56; 0x78; 0xFF]]
    /\ resolve_uid 1 400 uid_buf 0x04 0x00 d0 = Some ((true, mkUidOut u 4 0x08), d2).
Proof.
  split; [vm_compute; discriminate|].
  pose (d0 := match wake 1 400 (driver0 tag4_bad_bcc) with
              | Some (_, d) => d
              | None => driver0 tag4_bad_bcc
              end).
  exists d0.
  edestruct (anticollision_check_byte_unverified 1 400 ltac:(lia)
               ltac:(unfold fuel_ok; lia) uid_buf 0x04 0x00 d0)
    as (_ & r2 & d2 & He2 & Hsent & Hres).
  - vm_compute. split; reflexivity.
  - simpl; lia.
  - vm_compute; reflexivity.
  - reflexivity.
  - reflexivity.
  - reflexivity.
  - pose proof He2 as He2'. vm_compute in He2'. injection He2' as Hr2 Hd2.
    assert (Ho2 : overran r2 = false) by (rewrite <- Hr2; reflexivity).
    assert (Hv2 : valid_data 1 r2 = true) by (rewrite <- Hr2; reflexivity).
    specialize (Hres Ho2). rewrite Hv2 in Hres.
    destruct Hres as (u & Hu); [vm_compute; discriminate|].
    exists d2, u. split; [vm_compute; reflexivity|].
    split; [exact Hsent|]. rewrite Hu, <- Hr2. reflexivity.
Defined.

(** C7, the code at a failing input.  [selectCL1] passes an 8-byte buffer
    and [len = 8]; the chip's response announces 9 payload bytes.
    [readResponse] returns true with [len = 9]: it has stored nine bytes,
    the ninth at index 8, one past the end of the buffer. *)
Theorem readResponse_overruns_buffer :
  exists r d',
    exchange 1 400 (CallSelectCL1 [0x12; 0x34; 0x56; 0x78; 0x08]) 8 50 (driver0 long_reply)
    = Some (r, d')
    /\ rr_ok r = true /\ rr_len r = 9
    /\ length (cells (rr_buf r)) = 8%nat
    /\ spill (rr_buf r) = [(8, 0x33)].
Proof.
  eexists _, _. split; [vm_compute; reflexivity|]. by split_and!.
Qed.

(** * More of the frame codec *)

Lemma map_cell_seq (l : list Z) (n : nat) :
  (n <= length l)%nat -> map (cell l) (seq 0 n) = take n l.
Proof.
  revert l. induction n as [|n IH]; intros l Hn; [done|].
  destruct l as [|x l]; simpl in Hn; [lia|].
  simpl. f_equal. rewrite <- seq_shift, map_map. apply IH. lia.
Qed.

(** X1. What a builder puts on the wire depends on the call alone, not on
    what the reusable frame object held before; the frame it leaves is a
    well-formed one of at most 32 bytes. *)
Theorem build_ignores_old_frame (c : builder_call) (f f' : CR95HF_Frame) :
  length (data f) = 32%nat ->
  length (data f') = 32%nat ->
  wire (build c f) = wire (build c f')
  /\ frame_wf (build c f)
  /\ (length (wire (build c f)) <= 32)%nat.
Proof.
  intros Hf Hf'.
  destruct (wire_build c f Hf) as [Hw Hb].
  destruct (wire_build c f' Hf') as [_ Hb'].
  split; [congruence|]. split; [done|].
  rewrite Hb, length_take. lia.
Qed.

Lemma build_ignores_old_frame_witness :
  wire (build CallWUPA frame0)
  = wire (build CallWUPA (build (CallSelectCL1 [0x12; 0x34; 0x56; 0x78; 0x08]) frame0)).
Proof.
  refine (proj1 (build_ignores_old_frame CallWUPA frame0
                   (build (CallSelectCL1 [0x12; 0x34; 0x56; 0x78; 0x08]) frame0) _ _)).
  - reflexivity.
  - reflexivity.
Defined.

(** X2. The fixed-shape builders are instances of [buildSendRecv]: the wake,
    anticollision and select frames equal the general frame built from
    their RF bytes and transmit flag. *)
Theorem fixed_builders_are_sendrecv (f : CR95HF_Frame) (c : list Z) :
  length (data f) = 32%nat ->
  wire (buildREQA f) = wire (buildSendRecv [ISO14443A_REQA] 1 CR95HF_FLAG_SHORTFRAME f)
  /\ wire (buildWUPA f) = wire (buildSendRecv [ISO14443A_WUPA] 1 CR95HF_FLAG_SHORTFRAME f)
  /\ wire (buildAnticollCL1 f)
     = wire (buildSendRecv [ISO14443A_SEL_CL1; ISO14443A_NVB_ANTICOLL] 2 CR95HF_FLAG_STD f)
  /\ wire (buildAnticollCL2 f)
     = wire (buildSendRecv [ISO14443A_SEL_CL2; ISO14443A_NVB_ANTICOLL] 2 CR95HF_FLAG_STD f)
  /\ wire (buildSelectCL1 c f)
     = wire (buildSendRecv (ISO14443A_SEL_CL1 :: ISO14443A_NVB_SELECT :: c) 7
                           CR95HF_FLAG_STD_CRC f)
  /\ wire (buildSelectCL2 c f)
     = wire (buildSendRecv (ISO14443A_SEL_CL2 :: ISO14443A_NVB_SELECT :: c) 7
                           CR95HF_FLAG_STD_CRC f).
Proof.
  intros Hf.
  pose proof (fun k => proj2 (wire_build k f Hf)) as Hb.
  split_and!.
  - change (wire (build CallREQA f)
            = wire (build (CallSendRecv [ISO14443A_REQA] 1 CR95HF_FLAG_SHORTFRAME) f)).
    by rewrite !Hb.
  - change (wire (build CallWUPA f)
            = wire (build (CallSendRecv [ISO14443A_WUPA] 1 CR95HF_FLAG_SHORTFRAME) f)).
    by rewrite !Hb.
  - change (wire (build CallAnticollCL1 f)
            = wire (build (CallSendRecv [ISO14443A_SEL_CL1; ISO14443A_NVB_ANTICOLL] 2
                                        CR95HF_FLAG_STD) f)).
    by rewrite !Hb.
  - change (wire (build CallAnticollCL2 f)
            = wire (build (CallSendRecv [ISO14443A_SEL_CL2; ISO14443A_NVB_ANTICOLL] 2
                                        CR95HF_FLAG_STD) f)).
    by rewrite !Hb.
  - change (wire (build (CallSelectCL1 c) f)
            = wire (build (CallSendRecv (ISO14443A_SEL_CL1 :: ISO14443A_NVB_SELECT :: c) 7
                                        CR95HF_FLAG_STD_CRC) f)).
    by rewrite !Hb.
  - change (wire (build (CallSelectCL2 c) f)
            = wire (build (CallSendRecv (ISO14443A_SEL_CL2 :: ISO14443A_NVB_SELECT :: c) 7
                                        CR95HF_FLAG_STD_CRC) f)).
    by rewrite !Hb.
Qed.

Lemma fixed_builders_are_sendrecv_witness :
  wire (buildSelectCL1 [0x12; 0x34; 0x56; 0x78; 0x08] frame0)
  = wire (buildSendRecv [0x93; 0x70; 0x12; 0x34; 0x56; 0x78; 0x08] 7 0x28 frame0).
Proof.
  exact (proj1 (proj2 (proj2 (proj2 (proj2
           (fixed_builders_are_sendrecv frame0 [0x12; 0x34; 0x56; 0x78; 0x08] eq_refl)))))).
Defined.

(** X3. Round trip of [buildSendRecv] for a payload that fits: the wire
    holds the command code, [rfLen + 1], the first [rfLen] bytes of
    [rfData] and the flags byte, so the RF bytes and the flags are read
    back from it. *)
Theorem buildSendRecv_roundtrip (rfData : list Z) (rfLen flags : Z) (f : CR95HF_Frame) :
  length (data f) = 32%nat ->
  0 <= rfLen <= 29 ->
  rfLen <= Z.of_nat (length rfData) ->
  wire (buildSendRecv rfData rfLen flags f)
  = CR95HF_CMD_SENDRECV :: (rfLen + 1) :: take (Z.to_nat rfLen) rfData ++ [flags]
  /\ take (Z.to_nat rfLen) (drop 2 (wire (buildSendRecv rfData rfLen flags f)))
     = take (Z.to_nat rfLen) rfData
  /\ cell (wire (buildSendRecv rfData rfLen flags f)) (Z.to_nat (rfLen + 2)) = flags.
Proof.
  intros Hf Hn Hd.
  destruct (wire_build (CallSendRecv rfData rfLen flags) f Hf) as [_ Hb].
  simpl build in Hb. rewrite Hb. simpl call_bytes.
  rewrite map_cell_seq by lia.
  assert (Hl : length (take (Z.to_nat rfLen) rfData) = Z.to_nat rfLen)
    by (rewrite length_take; lia).
  rewrite take_ge by (simpl; rewrite length_app, Hl; simpl; lia).
  unfold u8. rewrite Z.mod_small by lia.
  split; [done|]. split.
  - simpl. rewrite drop_0. rewrite take_app_le by lia.
    apply take_ge. lia.
  - unfold cell. replace (Z.to_nat (rfLen + 2)) with (S (S (Z.to_nat rfLen))) by lia.
    simpl. rewrite app_nth2 by lia. rewrite Hl, Nat.sub_diag. done.
Qed.

Lemma buildSendRecv_roundtrip_witness :
  wire (buildSendRecv [0x30; 0x04; 0x26; 0xEE] 3 0x28 frame0)
  = [0x04; 4; 0x30; 0x04; 0x26; 0x28].
Proof.
  refine (proj1 (buildSendRecv_roundtrip [0x30; 0x04; 0x26; 0xEE] 3 0x28 frame0 _ _ _)).
  - reflexivity.
  - lia.
  - simpl; lia.
Defined.

(** * More of the transport *)

Lemma not_yet_arrived_head now q :
  match not_yet_arrived now q with
  | (s, _) :: _ => now < s
  | [] => True
  end.
Proof.
  induction q as [|[s b] q IH]; simpl; [done|].
  destruct (Z.leb_spec s now); [done|]. simpl. lia.
Qed.

Lemma not_yet_arrived_all now q :
  Forall (fun sb => fst sb <= now) q -> not_yet_arrived now q = [].
Proof.
  induction 1 as [|[s b] q Hs _ IH]; simpl; [done|].
  simpl in Hs. by destruct (Z.leb_spec s now); [|lia].
Qed.

Lemma not_yet_arrived_none now s b q :
  now < s -> not_yet_arrived now ((s, b) :: q) = (s, b) :: q.
Proof. intros H. simpl. by destruct (Z.leb_spec s now); [lia|]. Qed.

Lemma flush_loop_by n p :
  (length (rx p) <= n)%nat ->
  flush_loop n p = mkPort (clock p) (not_yet_arrived (clock p) (rx p)) (tx p) (script p).
Proof.
  revert p. induction n as [|n IH]; intros p Hn; simpl.
  - destruct p as [c [|x q] t sc]; simpl in *; [done|lia].
  - unfold available, port_read.
    destruct p as [c [|[s b] q] t sc]; simpl in *; [done|].
    destruct (Z.leb_spec s c); [|done].
    simpl. rewrite IH by (simpl; lia). done.
Qed.

(** X4. [flushRx] removes the bytes that have arrived, and only those: the
    line is left from its first byte still in flight, [available()] is
    false afterwards, and clock, log and chip are untouched. *)
Theorem flushRx_clears_arrived (p : Port) :
  rx (flushRx p) = not_yet_arrived (clock p) (rx p)
  /\ available (flushRx p) = false
  /\ clock (flushRx p) = clock p
  /\ tx (flushRx p) = tx p
  /\ script (flushRx p) = script p.
Proof.
  unfold flushRx. rewrite flush_loop_by by done.
  split_and!; try done.
  unfold available. simpl.
  pose proof (not_yet_arrived_head (clock p) (rx p)) as H.
  destruct (not_yet_arrived (clock p) (rx p)) as [|[s b] q]; [done|].
  apply Z.leb_gt. lia.
Qed.

Lemma wait_available_line tpm n start t p b p' :
  wait_available tpm n start t p = Some (b, p') ->
  rx p' = rx p /\ (b = true -> available p' = true).
Proof.
  revert p. induction n as [|n IH]; intros p; simpl; [done|].
  destruct (available p) eqn:Ha; [by intros [= <- <-]|].
  destruct (timed_out tpm start t p); [by intros [= <- <-]|].
  intros H. by apply IH in H.
Qed.

(** A response that [readResponse] accepts carries as its status code
    the byte that was first on the line when the call began. *)
Lemma readResponse_code_is_head tpm fuel code buf len t p r p' :
  readResponse tpm fuel code buf len t p = Some (r, p') ->
  rr_ok r = true ->
  exists s0 b0 q0, rx p = (s0, b0) :: q0 /\ rr_code r = u8 b0.
Proof.
  unfold readResponse.
  destruct (wait_available tpm fuel (millis tpm p) t p) as [[[] p1]|] eqn:H1;
    [| by intros [= <- _] | done].
  apply wait_available_line in H1 as [Hrx Hav]. specialize (Hav eq_refl).
  unfold available in Hav. unfold port_read at 1. rewrite Hrx in Hav. rewrite Hrx.
  destruct (rx p) as [|[s0 b0] q0]; [done|]. rewrite Hav.
  destruct (wait_available tpm fuel (millis tpm p) t _) as [[[] p3]|];
    [| by intros [= <- _] | done].
  destruct (port_read p3) as [l p4].
  destruct (read_payload tpm fuel (millis tpm p) t l 0 buf p4)
    as [[[[[] n] buf'] p5]|]; [| by intros [= <- _] | done].
  intros [= <- _] _. by eauto.
Qed.

(** Stores that stay within the buffer fill it in place. *)
Lemma store_from_fits bytes n cs sp :
  (n + length bytes <= length cs)%nat ->
  store_from (Z.of_nat n) bytes (mkBuf cs sp)
  = mkBuf (take n cs ++ bytes ++ drop (n + length bytes) cs) sp.
Proof.
  revert n cs. induction bytes as [|b bs IH]; intros n cs Hn; simpl in *.
  - by rewrite Nat.add_0_r, take_drop.
  - unfold store. simpl.
    destruct (Z.ltb_spec (Z.of_nat n) (Z.of_nat (length cs))); [|exfalso; lia].
    replace (Z.of_nat n + 1) with (Z.of_nat (S n)) by lia.
    rewrite Nat2Z.id, IH by (rewrite length_insert; lia).
    f_equal.
    rewrite (take_S_r (<[n:=b]> cs) n b) by (apply list_lookup_insert_eq; lia).
    rewrite take_insert_ge by lia. rewrite drop_insert_lt by lia.
    rewrite <- app_assoc. simpl. by rewrite Nat.add_succ_r.
Qed.

Lemma store_from_local bytes cap :
  (length bytes <= cap)%nat ->
  store_from 0 bytes (local_buf cap)
  = mkBuf (bytes ++ replicate (cap - length bytes) 0) [].
Proof.
  intros H. unfold local_buf.
  rewrite (store_from_fits bytes 0) by (rewrite length_replicate; simpl; lia).
  simpl. by rewrite drop_replicate.
Qed.

Section TransportMore.

Variable tpm : Z.
Variable fuel : nat.
Hypothesis Htpm : 0 < tpm.

Lemma take_by_bounds d k n buf c q ok n' buf' c' q' :
  take_by d k n buf c q = (ok, n', buf', c', q') ->
  c <= d ->
  c <= c' <= d
  /\ (exists used, q = used ++ q')
  /\ (ok = false -> c' = d).
Proof.
  revert n buf c q. induction k as [|k IH]; intros n buf c q; simpl.
  - intros [= <- _ _ <- <-] Hc. split; [lia|]. split; [by exists []|done].
  - destruct q as [|[s b] q].
    + intros [= <- _ _ <- <-] Hc. split; [lia|]. split; [by exists []|done].
    + destruct (Z.leb_spec s d).
      * intros Hk Hc. apply IH in Hk as (Hb & [used ->] & Hf); [|lia].
        split; [lia|]. split; [by exists ((s, b) :: used)|done].
      * intros [= <- _ _ <- <-] Hc. split; [lia|]. split; [by exists []|done].
Qed.

(** X7. [readResponse] never blocks beyond the deadline of the call, the
    first tick at which the elapsed time reads more than the timeout:
    whatever is or is not on the line it returns, no later than that
    tick and exactly at it when it fails; it takes bytes from the front
    of the line only, writes nothing, and on failure leaves [len] as it
    was. *)
Theorem readResponse_bounded code buf len t p :
  0 <= t -> t + 1 < 2 ^ 32 ->
  fuel_ok tpm fuel t ->
  exists r p',
    readResponse tpm fuel code buf len t p = Some (r, p')
    /\ clock p <= clock p' <= deadline tpm (clock p) t
    /\ (exists used, rx p = used ++ rx p')
    /\ tx p' = tx p /\ script p' = script p
    /\ (rr_ok r = false -> rr_len r = len /\ clock p' = deadline tpm (clock p) t).
Proof.
  intros Ht Ht32 Hf.
  rewrite (readResponse_by_deadline tpm fuel Htpm) by done.
  pose proof (deadline_after tpm Htpm (clock p) t Ht) as Hda.
  set (d := deadline tpm (clock p) t) in *.
  unfold response_by.
  destruct (rx p) as [|[s0 b0] q0] eqn:Hrx.
  { eexists _, _. split; [done|]. simpl. split; [lia|]. split; [by exists []|done]. }
  destruct (Z.leb_spec s0 d) as [Hs0|Hs0];
    [| eexists _, _; split; [done|]; simpl; split; [lia|]; split; [by exists []|done]].
  destruct q0 as [|[s1 b1] q1].
  { eexists _, _. split; [done|]. simpl. split; [lia|].
    split; [by exists [(s0, b0)]|done]. }
  destruct (Z.leb_spec s1 d) as [Hs1|Hs1];
    [| eexists _, _; split; [done|]; simpl; split; [lia|];
       split; [by exists [(s0, b0)]|done]].
  destruct (take_by d (Z.to_nat (u8 b1)) 0 buf (Z.max (Z.max (clock p) s0) s1) q1)
    as [[[[ok n] buf'] c'] q'] eqn:Htk.
  apply take_by_bounds in Htk as (Hb & [used ->] & Hfail); [|lia].
  destruct ok; eexists _, _; (split; [done|]); simpl;
    (split; [lia|]); (split; [by exists ((s0, b0) :: (s1, b1) :: used)|]);
    split_and!; try done. intros _. by split; [|apply Hfail].
Qed.

Lemma deadline_covers c0 t dl : 0 <= t -> dl <= t * tpm -> c0 + dl <= deadline tpm c0 t.
Proof.
  intros Ht Hd. unfold deadline.
  pose proof (Z.mul_succ_div_gt c0 tpm Htpm). nia.
Qed.

(** X5. Send and receive compose: on a line whose stale bytes have all
    arrived, an exchange discards them, writes its frame, and returns
    the chip's reply to that frame, decoded, provided the reply is
    complete, its payload is no longer than the buffer, and each of its
    bytes comes within the timeout.  The payload is then at the start of
    the buffer and nothing was stored outside it. *)
Theorem exchange_reads_own_reply c cap t d reply more :
  0 <= t -> t + 1 < 2 ^ 32 ->
  fuel_ok tpm fuel t ->
  driver_wf d ->
  Forall (fun sb => fst sb <= clock (_port d)) (rx (_port d)) ->
  script (_port d) = reply :: more ->
  length reply = needed (map snd reply) ->
  (length reply <= 2 + cap)%nat ->
  Forall (fun sb => fst sb <= t * tpm) reply ->
  exists d',
    exchange tpm fuel c cap t d
    = Some (mkResponse true (u8 (cell (map snd reply) 0))
                       (mkBuf (map u8 (drop 2 (map snd reply))
                               ++ replicate (2 + cap - length reply) 0) [])
                       (u8 (cell (map snd reply) 1)),
            d')
    /\ rx (_port d') = []
    /\ script (_port d') = more
    /\ sent_since d d' = [take 32 (call_bytes c)].
Proof.
  intros Ht Ht32 Hf Hwf Hold Hsc Hlen Hcap Hdl.
  rewrite exchange_unfold.
  set (p1 := sendFrame (build c (_txFrame d)) (_port d)).
  destruct (flushRx_clears_arrived (_port d)) as (Hfr & _ & Hfc & Hft & Hfs).
  set (msg := map (fun sb => (clock (_port d) + fst sb, snd sb)) reply).
  assert (Hp1 : rx p1 = msg ++ [] /\ clock p1 = clock (_port d)
                /\ script p1 = more
                /\ tx p1 = tx (_port d) ++ [wire (build c (_txFrame d))]).
  { subst p1. unfold sendFrame, port_write. simpl.
    rewrite Hfr, Hfc, Hft, Hfs, Hsc, not_yet_arrived_all by done.
    simpl. by rewrite app_nil_r. }
  destruct Hp1 as (Hrx1 & Hc1 & Hs1 & Ht1).
  assert (Hsnd : map snd msg = map snd reply).
  { subst msg. rewrite map_map. done. }
  destruct (readResponse_accepts tpm fuel Htpm 0 (local_buf cap) (Z.of_nat cap) t p1 msg [])
    as (p' & Hr & Hrx' & Htx' & Hsc' & _); try done.
  - subst msg. by rewrite Hsnd, length_map.
  - subst msg. rewrite Forall_map. eapply Forall_impl; [exact Hdl|].
    intros [dl b] Hb. simpl in *. rewrite Hc1. by apply deadline_covers.
  - assert (H2 : (2 <= length reply)%nat).
    { rewrite Hlen. unfold needed. destruct (map snd reply) as [|? [|? ?]]; lia. }
    rewrite Hr, Hsnd. eexists. split.
    + rewrite store_from_local by (rewrite length_map, length_drop, length_map; lia).
      rewrite length_map, length_drop, length_map.
      by replace (cap - (length reply - 2))%nat with (2 + cap - length reply)%nat by lia.
    + simpl. split; [done|]. split; [congruence|].
      apply sent_since_app. simpl. rewrite Htx', Ht1.
      destruct Hwf as [Hw _]. by destruct (wire_build c _ Hw) as [_ ->].
Qed.

(** X6. A stale byte still in flight when a frame is sent survives the flush,
    and a response then accepted carries that byte as its status code
    instead of the chip's. *)
Theorem stale_byte_in_flight_taken_as_status c cap t d s b q r d' :
  rx (_port d) = (s, b) :: q ->
  clock (_port d) < s ->
  exchange tpm fuel c cap t d = Some (r, d') ->
  rr_ok r = true ->
  rr_code r = u8 b.
Proof.
  intros Hrx Hs. rewrite exchange_unfold.
  destruct (readResponse _ _ _ _ _ _ _) as [[r1 p1]|] eqn:Hr; [|done].
  intros [= <- _] Hok.
  apply readResponse_code_is_head in Hr as (s0 & b0 & q0 & Hh & ->); [|done].
  unfold sendFrame, port_write in Hh. simpl in Hh.
  destruct (flushRx_clears_arrived (_port d)) as (Hfr & _).
  rewrite Hfr, Hrx, not_yet_arrived_none in Hh by done.
  simpl in Hh. by injection Hh as _ <- _.
Qed.

End TransportMore.

Lemma readResponse_bounded_witness :
  exists r p',
    readResponse 1 300 0 (local_buf 16) 16 20 (mkPort 7 [] [] []) = Some (r, p')
    /\ rr_ok r = false /\ clock p' = 28.
Proof.
  destruct (readResponse_bounded 1 300 ltac:(lia) 0 (local_buf 16) 16 20 (mkPort 7 [] [] [])
              ltac:(lia) ltac:(lia) ltac:(unfold fuel_ok; lia))
    as (r & p' & He & _ & _ & _ & _ & Hfail).
  exists r, p'. split; [exact He|].
  assert (Hok : rr_ok r = false).
  { vm_compute in He. by injection He as <- _. }
  split; [exact Hok|]. by destruct (Hfail Hok) as [_ ->].
Defined.

Lemma exchange_reads_own_reply_witness :
  exists d',
    exchange 1 300 CallWUPA 16 20 (driver0 tag4)
    = Some (mkResponse true 0x80 (store_from 0 [0x04; 0x00] (local_buf 16)) 2, d')
    /\ rx (_port d') = [].
Proof.
  edestruct (exchange_reads_own_reply 1 300 ltac:(lia) CallWUPA 16 20 (driver0 tag4))
    as (d' & He & Hrx & _).
  - lia.
  - lia.
  - unfold fuel_ok; lia.
  - split; reflexivity.
  - constructor.
  - reflexivity.
  - reflexivity.
  - simpl; lia.
  - repeat constructor; simpl; lia.
  - exists d'. split; [exact He | exact Hrx].
Defined.

Lemma stale_byte_in_flight_taken_as_status_witness :
  exists r d',
    exchange 1 400 (CallProtocolSelect CR95HF_PROTO_ISO14443A 0) 8 50 (driver0 stale_line)
    = Some (r, d')
    /\ rr_ok r = true /\ rr_code r = 0x87.
Proof.
  eexists _, _. split; [vm_compute; reflexivity|]. split; [reflexivity|].
  eapply (stale_byte_in_flight_taken_as_status 1 400
            (CallProtocolSelect CR95HF_PROTO_ISO14443A 0) 8 50 (driver0 stale_line)
            2 0x87 []).
  - reflexivity.
  - simpl; lia.
  - vm_compute; reflexivity.
  - reflexivity.
Defined.

(** * Echo test *)

Section EchoFacts.

Variable tpm : Z.
Variable fuel : nat.
Hypothesis Htpm : 0 < tpm.

Lemma echo_limit_after c0 : c0 < echo_limit tpm c0.
Proof.
  unfold echo_limit. pose proof (Z.mul_succ_div_gt c0 tpm Htpm). nia.
Qed.

Lemma echo_limit_span c0 : echo_limit tpm c0 - c0 <= 50 * tpm.
Proof.
  unfold echo_limit. pose proof (Z.mul_div_le c0 tpm Htpm). nia.
Qed.

(** A tick reads as less than 50 elapsed milliseconds exactly before the
    limit. *)
Lemma elapsed_echo_limit c0 s : elapsed_ms tpm c0 s < 50 <-> s < echo_limit tpm c0.
Proof.
  unfold elapsed_ms, echo_limit. split; intros H.
  - pose proof (Z.mul_succ_div_gt s tpm Htpm). nia.
  - assert (s / tpm < c0 / tpm + 50); [|lia].
    apply Z.div_lt_upper_bound; [done|lia].
Qed.

Lemma echo_time c0 p :
  c0 <= clock p <= echo_limit tpm c0 ->
  (u32 (millis tpm p - u32 (c0 / tpm)) <? 50) = (clock p <? echo_limit tpm c0).
Proof.
  intros [Hlo Hhi]. unfold millis, u32. rewrite <- Zminus_mod.
  assert (H0 : c0 / tpm <= clock p / tpm) by (apply Z.div_le_mono; lia).
  assert (H1 : clock p / tpm <= c0 / tpm + 50).
  { unfold echo_limit in Hhi.
    rewrite <- (Z.div_mul (c0 / tpm + 50) tpm) by lia.
    apply Z.div_le_mono; lia. }
  rewrite Z.mod_small by lia.
  pose proof (elapsed_echo_limit c0 (clock p)) as He. unfold elapsed_ms in He.
  destruct (Z.ltb_spec (clock p / tpm - c0 / tpm) 50);
    destruct (Z.ltb_spec (clock p) (echo_limit tpm c0)); try done; lia.
Qed.

(** The loop of [echoTest] refines [echo_by]. *)
Lemma echo_loop_by c0 n p :
  c0 <= clock p <= echo_limit tpm c0 ->
  (length (rx p) + Z.to_nat (echo_limit tpm c0 - clock p) < n)%nat ->
  echo_loop tpm n (u32 (c0 / tpm)) p
  = Some (let '(ok, c, q) := echo_by (echo_limit tpm c0) (clock p) (rx p) in
          (ok, mkPort c q (tx p) (script p))).
Proof.
  revert p. induction n as [|n IH]; intros p Hc Hn; [lia|].
  simpl. rewrite echo_time by done.
  set (lim := echo_limit tpm c0) in *.
  unfold available, port_read.
  destruct p as [c q t sc]. simpl in *.
  destruct (Z.ltb_spec c lim) as [Hlt|Hge].
  - destruct q as [|[s b] q]; simpl in *.
    + rewrite IH by (simpl; lia). done.
    + destruct (Z.leb_spec s c) as [Hs|Hs].
      * replace (Z.max c s) with c by lia.
        destruct (Z.ltb_spec c lim); [|lia].
        destruct (u8 b =? CR95HF_CMD_ECHO); [done|].
        rewrite IH by (simpl; lia). done.
      * rewrite IH by (simpl; lia). simpl.
        replace (Z.max (c + 1) s) with (Z.max c s) by lia. done.
  - assert (c = lim) as -> by lia.
    destruct q as [|[s b] q]; simpl; [done|].
    destruct (Z.ltb_spec (Z.max lim s) lim); [lia|done].
Qed.

Lemma echo_by_found lim c junk s b rest :
  c < lim ->
  Forall (fun sb => fst sb < lim /\ u8 (snd sb) <> CR95HF_CMD_ECHO) junk ->
  s < lim -> u8 b = CR95HF_CMD_ECHO ->
  exists c', echo_by lim c (junk ++ (s, b) :: rest) = (true, c', rest) /\ c <= c' < lim.
Proof.
  intros Hc Hj Hs Hb. revert c Hc.
  induction Hj as [|[s' b'] junk [Hs' Hb'] _ IH]; intros c Hc; simpl.
  - destruct (Z.ltb_spec (Z.max c s) lim); [|lia].
    rewrite Hb. simpl. exists (Z.max c s). split; [done|lia].
  - simpl in Hs', Hb'.
    destruct (Z.ltb_spec (Z.max c s') lim); [|lia].
    apply Z.eqb_neq in Hb'. rewrite Hb'.
    destruct (IH (Z.max c s')) as (c' & -> & Hc'); [lia|].
    exists c'. split; [done|lia].
Qed.

Lemma echo_by_none lim c junk rest :
  c < lim ->
  Forall (fun sb => fst sb < lim /\ u8 (snd sb) <> CR95HF_CMD_ECHO) junk ->
  match rest with (s, _) :: _ => lim <= s | [] => True end ->
  echo_by lim c (junk ++ rest) = (false, lim, rest).
Proof.
  intros Hc Hj Hr. revert c Hc.
  induction Hj as [|[s' b'] junk [Hs' Hb'] _ IH]; intros c Hc; simpl.
  - destruct rest as [|[s b] rest]; [done|]. simpl in *.
    destruct (Z.ltb_spec (Z.max c s) lim); [lia|done].
  - simpl in Hs', Hb'.
    destruct (Z.ltb_spec (Z.max c s') lim); [|lia].
    apply Z.eqb_neq in Hb'. rewrite Hb'. apply IH. lia.
Qed.

(** X8. [echoTest] succeeds at the first 0x55 that is on the line while less
    than 50 ms have elapsed since the echo command was written; bytes of
    other value before it are dropped, bytes after it stay on the line,
    and the one byte 0x55 is all the call writes. *)
Theorem echoTest_finds_echo d junk s b rest :
  let p1 := port_write [CR95HF_CMD_ECHO] (flushRx (_port d)) in
  rx p1 = junk ++ (s, b) :: rest ->
  Forall (fun sb => elapsed_ms tpm (clock p1) (fst sb) < 50
                    /\ u8 (snd sb) <> CR95HF_CMD_ECHO) junk ->
  elapsed_ms tpm (clock p1) s < 50 ->
  u8 b = CR95HF_CMD_ECHO ->
  (length (rx p1) + Z.to_nat (50 * tpm) < fuel)%nat ->
  exists d',
    echoTest tpm fuel d = Some (true, d')
    /\ rx (_port d') = rest
    /\ sent_since d d' = [frame_ECHO]
    /\ _txFrame d' = _txFrame d /\ lastATQA d' = lastATQA d.
Proof.
  intros p1 Hrx Hj Hs Hb Hn. unfold echoTest. fold p1.
  change (millis tpm p1) with (u32 (clock p1 / tpm)).
  pose proof (echo_limit_after (clock p1)) as Hla.
  pose proof (echo_limit_span (clock p1)) as Hsp.
  rewrite echo_loop_by by lia. rewrite Hrx.
  destruct (echo_by_found (echo_limit tpm (clock p1)) (clock p1) junk s b rest)
    as (c' & -> & _); try done.
  - eapply Forall_impl; [exact Hj|]. intros [s' b'] [H1 H2].
    split; [by apply elapsed_echo_limit|done].
  - by apply elapsed_echo_limit.
  - eexists. split; [done|]. simpl. split_and!; try done.
    apply sent_since_app. simpl.
    by destruct (flushRx_clears_arrived (_port d)) as (_ & _ & _ & -> & _).
Qed.

(** X9. [echoTest] gives up, returning false, at the first tick at which 50 ms
    have elapsed, when no 0x55 has come by then.  A 0x55 that arrives
    when exactly 50 ms have elapsed is too late. *)
Theorem echoTest_gives_up d junk rest :
  let p1 := port_write [CR95HF_CMD_ECHO] (flushRx (_port d)) in
  rx p1 = junk ++ rest ->
  Forall (fun sb => elapsed_ms tpm (clock p1) (fst sb) < 50
                    /\ u8 (snd sb) <> CR95HF_CMD_ECHO) junk ->
  match rest with
  | (s, _) :: _ => 50 <= elapsed_ms tpm (clock p1) s
  | [] => True
  end ->
  (length (rx p1) + Z.to_nat (50 * tpm) < fuel)%nat ->
  exists d',
    echoTest tpm fuel d = Some (false, d')
    /\ clock (_port d') = echo_limit tpm (clock (_port d))
    /\ rx (_port d') = rest
    /\ sent_since d d' = [frame_ECHO].
Proof.
  intros p1 Hrx Hj Hr Hn. unfold echoTest. fold p1.
  change (millis tpm p1) with (u32 (clock p1 / tpm)).
  pose proof (echo_limit_after (clock p1)) as Hla.
  pose proof (echo_limit_span (clock p1)) as Hsp.
  rewrite echo_loop_by by lia. rewrite Hrx.
  rewrite (echo_by_none (echo_limit tpm (clock p1)) (clock p1) junk rest); try done.
  - destruct (flushRx_clears_arrived (_port d)) as (_ & _ & Hc & Ht & _).
    eexists. split; [done|]. simpl. split_and!; try done.
    + subst p1. simpl. by rewrite Hc.
    + apply sent_since_app. simpl. by rewrite Ht.
  - eapply Forall_impl; [exact Hj|]. intros [s' b'] [H1 H2].
    split; [by apply elapsed_echo_limit|done].
  - destruct rest as [|[s b] rest]; [done|].
    pose proof (elapsed_echo_limit (clock p1) s). lia.
Qed.

End EchoFacts.

Lemma echoTest_finds_echo_witness :
  exists d', echoTest 1 100 (driver0 echo_chip) = Some (true, d') /\ rx (_port d') = [].
Proof.
  edestruct (echoTest_finds_echo 1 100 ltac:(lia) (driver0 echo_chip) [(4, 0x00)] 4 0x55 [])
    as (d' & He & Hrx & _).
  - reflexivity.
  - repeat constructor; vm_compute; congruence.
  - vm_compute; reflexivity.
  - reflexivity.
  - vm_compute; lia.
  - exists d'. split; [exact He | exact Hrx].
Defined.

Lemma echoTest_gives_up_witness :
  exists d',
    echoTest 1 100 (driver0 slow_echo_chip) = Some (false, d')
    /\ clock (_port d') = 50 /\ rx (_port d') = [(50, 0x55)].
Proof.
  edestruct (echoTest_gives_up 1 100 ltac:(lia) (driver0 slow_echo_chip) [] [(50, 0x55)])
    as (d' & He & Hc & Hrx & _).
  - reflexivity.
  - constructor.
  - vm_compute; discriminate.
  - vm_compute; lia.
  - exists d'. split; [exact He|]. split; [exact Hc | exact Hrx].
Defined.

(** * Protocol select, identification, start-up *)

Lemma memcpy_take (dst src : list Z) (n : nat) :
  (n <= length src)%nat -> (n <= length dst)%nat ->
  memcpy dst src (Z.of_nat n) = take n src ++ drop n dst.
Proof.
  unfold memcpy. rewrite Nat2Z.id.
  induction n as [|n IH]; intros Hs Hd; [done|].
  rewrite seq_S, fold_left_app, IH by lia. simpl.
  destruct (lookup_lt_is_Some_2 src n ltac:(lia)) as [x Hx].
  destruct (lookup_lt_is_Some_2 dst n ltac:(lia)) as [y Hy].
  rewrite (take_S_r src n x Hx), (drop_S dst y n Hy).
  rewrite insert_app_r_alt by (rewrite length_take; lia).
  rewrite length_take. replace (n - n `min` length src)%nat with O by lia.
  simpl. unfold cell. rewrite nth_lookup, Hx. simpl. by rewrite <- app_assoc.
Qed.

(** The copy-out of a name: the first [min len (cap - 1)] bytes of the
    response, a terminating zero, and the rest of the destination as it
    was. *)
Lemma copy_name_spec (dst buf : list Z) (len cap : Z) :
  0 <= len -> 1 <= cap <= 256 ->
  cap <= Z.of_nat (length dst) ->
  Z.min len (cap - 1) <= Z.of_nat (length buf) ->
  copy_name dst buf len cap
  = take (Z.to_nat (Z.min len (cap - 1))) buf
    ++ 0 :: drop (S (Z.to_nat (Z.min len (cap - 1)))) dst.
Proof.
  intros Hl Hc Hd Hb. unfold copy_name.
  replace (if len <? cap - 1 then len else cap - 1) with (Z.min len (cap - 1))
    by (destruct (Z.ltb_spec len (cap - 1)); lia).
  set (k := Z.min len (cap - 1)) in *.
  unfold u8. rewrite Z.mod_small by lia.
  replace (memcpy dst buf k) with (memcpy dst buf (Z.of_nat (Z.to_nat k)))
    by (by rewrite Z2Nat.id by lia).
  rewrite memcpy_take by lia.
  destruct (lookup_lt_is_Some_2 dst (Z.to_nat k) ltac:(lia)) as [y Hy].
  rewrite insert_app_r_alt by (rewrite length_take; lia).
  rewrite length_take. replace (Z.to_nat k - Z.to_nat k `min` length buf)%nat with O by lia.
  by rewrite (drop_S dst y _ Hy).
Qed.

Section ServiceFacts.

Variable tpm : Z.
Variable fuel : nat.

(** A step of the services: its exchange, then what it makes of a
    response that stayed within the step's array. *)
Lemma receive_local_exchange {A} c cap t (k : Response -> M A) d :
  (build_tx c ;;; send_tx ;;; bind (receive_local tpm fuel cap t) k) d
  = match exchange tpm fuel c cap t d with
    | Some (r, d') => if overran r then None else k r d'
    | None => None
    end.
Proof.
  rewrite exchange_unfold.
  unfold bind, build_tx, send_tx, receive_local, receive, bind, ret. simpl.
  destruct (readResponse _ _ _ _ _ _ _) as [[r p']|]; [|done]. simpl.
  by destruct (overran r).
Qed.

Lemma protocolSelectA_exchange d :
  protocolSelectA tpm fuel d
  = match exchange tpm fuel (CallProtocolSelect CR95HF_PROTO_ISO14443A 0) 8 50 d with
    | Some (r, d') =>
        if overran r then None
        else Some (rr_ok r && (rr_code r =? CR95HF_RSP_SUCCESS), d')
    | None => None
    end.
Proof.
  unfold protocolSelectA. rewrite receive_local_exchange.
  destruct (exchange _ _ _ _ _ _) as [[r d']|]; [|done].
  destruct (overran r); [done|]. by destruct (rr_ok r).
Qed.

Lemma protocolSelectA_effect d b d' :
  driver_wf d ->
  protocolSelectA tpm fuel d = Some (b, d') ->
  driver_wf d' /\ lastATQA d' = lastATQA d
  /\ tx (_port d') = tx (_port d) ++ [frame_ProtocolSelectA].
Proof.
  intros Hwf. rewrite protocolSelectA_exchange.
  destruct (exchange _ _ _ _ _ _) as [[r d1]|] eqn:He; [|done].
  apply exchange_effect in He as (Hwf1 & Ht1 & Ha1 & _); [|done].
  destruct (overran r); [done|].
  by intros [= _ <-].
Qed.

Lemma readIDN_exchange o maxLen d :
  maxLen <> 0 ->
  readIDN tpm fuel (Some o) maxLen d
  = match exchange tpm fuel CallIDN 32 100 d with
    | Some (r, d') =>
        if overran r then None
        else if rr_ok r && (rr_code r =? CR95HF_RSP_SUCCESS)
             then Some ((true, Some (copy_name o (cells (rr_buf r)) (rr_len r) maxLen)), d')
             else Some ((false, Some o), d')
    | None => None
    end.
Proof.
  intros Hm. unfold readIDN. apply Z.eqb_neq in Hm. rewrite Hm.
  rewrite receive_local_exchange.
  destruct (exchange _ _ _ _ _ _) as [[r d']|]; [|done].
  destruct (overran r); [done|].
  by destruct (rr_ok r), (rr_code r =? CR95HF_RSP_SUCCESS).
Qed.

(** X12. On a complete response with status 0x00, [readIDN] returns true and
    leaves in the caller's buffer the first [min len (maxLen - 1)] bytes
    of the response followed by a zero; the bytes beyond are untouched,
    so nothing is written at or past index [maxLen]. *)
Theorem readIDN_copies_name o maxLen d r d' :
  driver_wf d ->
  1 <= maxLen <= 255 ->
  maxLen <= Z.of_nat (length o) ->
  exchange tpm fuel CallIDN 32 100 d = Some (r, d') ->
  rr_ok r = true -> rr_code r = CR95HF_RSP_SUCCESS ->
  0 <= rr_len r <= 32 ->
  readIDN tpm fuel (Some o) maxLen d
  = Some ((true,
           Some (take (Z.to_nat (Z.min (rr_len r) (maxLen - 1))) (cells (rr_buf r))
                 ++ 0 :: drop (S (Z.to_nat (Z.min (rr_len r) (maxLen - 1)))) o)),
          d').
Proof.
  intros Hwf Hm Ho He Hok Hcode Hlen.
  assert (Hcells : length (cells (rr_buf r)) = 32%nat)
    by (by apply exchange_effect in He as (_ & _ & _ & ?)).
  assert (Hfit : overran r = false).
  { eapply exchange_fits; [exact He|exact Hok|]. simpl. lia. }
  rewrite readIDN_exchange, He, Hfit, Hok, Hcode by lia. simpl.
  rewrite copy_name_spec by lia. done.
Qed.

Lemma echo_loop_log n st p b p' :
  echo_loop tpm n st p = Some (b, p') -> tx p' = tx p.
Proof.
  revert p. induction n as [|n IH]; intros p; simpl; [done|].
  destruct (u32 (millis tpm p - st) <? 50); [|by intros [= _ <-]].
  destruct (available p).
  - pose proof (port_read_log p) as [Ht _].
    destruct (port_read p) as [resp p1]. simpl in Ht.
    destruct (resp =? CR95HF_CMD_ECHO); [by intros [= _ <-]|].
    intros H. apply IH in H. congruence.
  - intros H. by apply IH in H.
Qed.

(** What [echoTest] leaves behind: the echo byte is the one new entry of
    the log; frame buffer and [lastATQA] are untouched. *)
Lemma echoTest_effect d e d1 :
  driver_wf d ->
  echoTest tpm fuel d = Some (e, d1) ->
  driver_wf d1 /\ tx (_port d1) = tx (_port d) ++ [frame_ECHO].
Proof.
  intros [Hf Ha]. unfold echoTest.
  destruct (echo_loop _ _ _ _) as [[b p']|] eqn:Hl; [|done].
  intros [= _ <-]. apply echo_loop_log in Hl. simpl. rewrite Hl.
  unfold port_write. cbn [tx].
  by destruct (flushRx_clears_arrived (_port d)) as (_ & _ & _ & -> & _).
Qed.

Lemma power_up_wf d : driver_wf d -> driver_wf (power_up tpm d).
Proof. by intros [? ?]. Qed.

Lemma power_up_log d : tx (_port (power_up tpm d)) = tx (_port d).
Proof.
  unfold power_up. cbn [_port].
  by destruct (flushRx_clears_arrived (delay tpm 20 (_port d))) as (_ & _ & _ & -> & _).
Qed.

Lemma begin_unfold name d :
  begin tpm fuel name d
  = match echoTest tpm fuel (power_up tpm d) with
    | None => None
    | Some (false, d1) => Some ((false, name), d1)
    | Some (true, d1) =>
        match exchange tpm fuel CallIDN 32 100 d1 with
        | None => None
        | Some (r, d2) =>
            if overran r then None
            else if rr_ok r && (rr_code r =? CR95HF_RSP_SUCCESS) && (10 <=? rr_len r) then
              match protocolSelectA tpm fuel d2 with
              | None => None
              | Some (ps, d3) =>
                  Some ((ps, copy_name name (cells (rr_buf r)) (rr_len r)
                                       sizeof_deviceName), d3)
              end
            else Some ((false, name), d2)
        end
    end.
Proof.
  unfold begin. unfold bind at 1 2.
  destruct (echoTest tpm fuel (power_up tpm d)) as [[[] d1]|]; [|done|done].
  cbv beta iota delta [negb].
  rewrite receive_local_exchange.
  destruct (exchange tpm fuel CallIDN 32 100 d1) as [[r d2]|]; [|done].
  destruct (overran r); [done|].
  rewrite Z.ltb_antisym.
  destruct (rr_ok r); [|done].
  destruct (rr_code r =? CR95HF_RSP_SUCCESS); [|done].
  destruct (10 <=? rr_len r); [|done]. simpl.
  unfold bind.
  destruct (protocolSelectA tpm fuel _) as [[[] d3]|]; done.
Qed.

(** X13. [begin] stops at the first step that fails: without an echo it
    returns false having written the echo byte only; with an echo but an
    identification response that is incomplete, not of status 0x00 or
    shorter than 10 bytes (and of which no byte was stored outside
    [buf[32]]) it returns false without selecting a protocol.  In both
    cases [deviceName] is as it was. *)
Theorem begin_stops_at_first_failure name d e d1 :
  driver_wf d ->
  echoTest tpm fuel (power_up tpm d) = Some (e, d1) ->
  (e = false ->
   begin tpm fuel name d = Some ((false, name), d1)
   /\ tx (_port d1) = tx (_port d) ++ [frame_ECHO]) /\
  (e = true ->
   forall r d2,
     exchange tpm fuel CallIDN 32 100 d1 = Some (r, d2) ->
     overran r = false ->
     rr_ok r && (rr_code r =? CR95HF_RSP_SUCCESS) && (10 <=? rr_len r) = false ->
     begin tpm fuel name d = Some ((false, name), d2)
     /\ tx (_port d2) = tx (_port d) ++ [frame_ECHO; frame_IDN]).
Proof.
  intros Hwf He. rewrite begin_unfold, He.
  apply echoTest_effect in He as (Hwf1 & Ht1); [|by apply power_up_wf].
  rewrite power_up_log in Ht1. split.
  - by intros ->.
  - intros -> r d2 Hx Ho Hbad. rewrite Hx, Ho, Hbad. split; [done|].
    apply exchange_effect in Hx as (_ & Ht2 & _); [|done].
    by rewrite Ht2, Ht1, <- app_assoc.
Qed.

(** X14. After echo and a valid identification response, [begin] stores the
    first [min len 19] bytes of the response and a terminating zero in
    [deviceName], and returns what the protocol select returns: the name
    is stored also when the protocol select then fails. *)
Theorem begin_stores_device_name name d d1 r d2 ps d3 :
  driver_wf d ->
  length name = 20%nat ->
  echoTest tpm fuel (power_up tpm d) = Some (true, d1) ->
  exchange tpm fuel CallIDN 32 100 d1 = Some (r, d2) ->
  rr_ok r = true -> rr_code r = CR95HF_RSP_SUCCESS ->
  10 <= rr_len r <= 32 ->
  protocolSelectA tpm fuel d2 = Some (ps, d3) ->
  begin tpm fuel name d
  = Some ((ps,
           take (Z.to_nat (Z.min (rr_len r) 19)) (cells (rr_buf r))
           ++ 0 :: drop (S (Z.to_nat (Z.min (rr_len r) 19))) name),
          d3).
Proof.
  intros Hwf Hn He Hx Hok Hcode Hlen Hps.
  assert (Hcells : length (cells (rr_buf r)) = 32%nat).
  { apply echoTest_effect in He as (Hwf1 & _); [|by apply power_up_wf].
    by apply exchange_effect in Hx as (_ & _ & _ & ?). }
  assert (Hfit : overran r = false).
  { eapply exchange_fits; [exact Hx|exact Hok|]. simpl. lia. }
  rewrite begin_unfold, He, Hx, Hfit, Hok, Hcode, Hps.
  destruct (Z.leb_spec 10 (rr_len r)); [|lia]. simpl.
  rewrite copy_name_spec by (unfold sizeof_deviceName; lia).
  done.
Qed.

End ServiceFacts.

Lemma readIDN_copies_name_witness :
  exists d',
    readIDN 1 400 (Some (replicate 8 0xEE)) 6 (driver0 idn_chip)
    = Some ((true, Some [0x4E; 0x46; 0x43; 0x20; 0x46; 0x00; 0xEE; 0xEE]), d').
Proof.
  eexists.
  refine (readIDN_copies_name 1 400 (replicate 8 0xEE) 6 (driver0 idn_chip)
            (mkResponse true 0
               (store_from 0 [0x4E; 0x46; 0x43; 0x20; 0x46; 0x53; 0x32; 0x4A;
                              0x41; 0x53; 0x54; 0x34; 0x00; 0x2A; 0xCE] (local_buf 32))
               15) _ _ _ _ _ _ _ _).
  - split; reflexivity.
  - lia.
  - simpl; lia.
  - vm_compute; reflexivity.
  - reflexivity.
  - reflexivity.
  - simpl; lia.
Defined.

(** [begin_stops_at_first_failure] on a chip that never answers, and on
    one that echoes and then stays silent. *)
Lemma begin_stops_at_first_failure_witness :
  (exists d1,
      begin 1 400 (replicate 20 0) (driver0 empty_field)
      = Some ((false, replicate 20 0), d1)
      /\ tx (_port d1) = [frame_ECHO]) /\
  (exists d2,
      begin 1 400 (replicate 20 0) (driver0 echo_chip)
      = Some ((false, replicate 20 0), d2)
      /\ tx (_port d2) = [frame_ECHO; frame_IDN]).
Proof.
  split.
  - edestruct (begin_stops_at_first_failure 1 400 (replicate 20 0) (driver0 empty_field))
      as [Hno _].
    + split; reflexivity.
    + vm_compute; reflexivity.
    + eexists. exact (Hno eq_refl).
  - edestruct (begin_stops_at_first_failure 1 400 (replicate 20 0) (driver0 echo_chip))
      as [_ Hyes].
    + split; reflexivity.
    + vm_compute; reflexivity.
    + edestruct (Hyes eq_refl) as [Hb Ht].
      * vm_compute; reflexivity.
      * reflexivity.
      * reflexivity.
      * eexists. split; [exact Hb | exact Ht].
Defined.

Lemma begin_stores_device_name_witness :
  (exists d3,
      begin 1 400 (replicate 20 0) (driver0 boot_chip)
      = Some ((true,
               [0x4E; 0x46; 0x43; 0x20; 0x46; 0x53; 0x32; 0x4A; 0x41; 0x53;
                0x54; 0x34; 0x00; 0x2A; 0xCE; 0; 0; 0; 0; 0]), d3)) /\
  (exists d3,
      begin 1 400 (replicate 20 0) (driver0 boot_chip_no_protocol)
      = Some ((false,
               [0x4E; 0x46; 0x43; 0x20; 0x46; 0x53; 0x32; 0x4A; 0x41; 0x53;
                0x54; 0x34; 0x00; 0x2A; 0xCE; 0; 0; 0; 0; 0]), d3)).
Proof.
  split.
  - eexists. etransitivity.
    + eapply (begin_stores_device_name 1 400 (replicate 20 0) (driver0 boot_chip)).
      * split; reflexivity.
      * reflexivity.
      * vm_compute; reflexivity.
      * vm_compute; reflexivity.
      * reflexivity.
      * reflexivity.
      * simpl; lia.
      * vm_compute; reflexivity.
    + vm_compute. reflexivity.
  - eexists. etransitivity.
    + eapply (begin_stores_device_name 1 400 (replicate 20 0)
                (driver0 boot_chip_no_protocol)).
      * split; reflexivity.
      * reflexivity.
      * vm_compute; reflexivity.
      * vm_compute; reflexivity.
      * reflexivity.
      * reflexivity.
      * simpl; lia.
      * vm_compute; reflexivity.
    + vm_compute. reflexivity.
Defined.

(** * Services and discovery: what a call that returns has done *)

Section ServiceReturns.

Variable tpm : Z.
Variable fuel : nat.
Hypothesis Htpm : 0 < tpm.
Hypothesis Hfuel : fuel_ok tpm fuel 50.

(** X10. [protocolSelectA] goes by the status code alone.  On a line whose
    stale bytes have arrived: if the chip stays silent the call returns
    false; if the chip's reply is complete, in time, and carries at most
    the 8 payload bytes that [buf[8]] holds, the call returns true
    exactly when the status code is 0x00, whatever that payload is.
    Either way the protocol-select frame is the one frame written. *)
Theorem protocolSelectA_by_status d reply more :
  driver_wf d ->
  Forall (fun sb => fst sb <= clock (_port d)) (rx (_port d)) ->
  script (_port d) = reply :: more ->
  (reply = [] ->
   exists d',
     protocolSelectA tpm fuel d = Some (false, d')
     /\ sent_since d d' = [frame_ProtocolSelectA]) /\
  (length reply = needed (map snd reply) ->
   (length reply <= 2 + 8)%nat ->
   Forall (fun sb => fst sb <= 50 * tpm) reply ->
   exists d',
     protocolSelectA tpm fuel d
     = Some (u8 (cell (map snd reply) 0) =? CR95HF_RSP_SUCCESS, d')
     /\ sent_since d d' = [frame_ProtocolSelectA]).
Proof.
  intros Hwf Hold Hsc. rewrite protocolSelectA_exchange. split.
  - intros ->. rewrite exchange_unfold.
    set (p1 := sendFrame _ (_port d)).
    destruct (flushRx_clears_arrived (_port d)) as (Hfr & _ & Hfc & _ & Hfs).
    assert (Hp1 : rx p1 = [] /\ tx p1 = tx (_port d) ++ [frame_ProtocolSelectA]).
    { subst p1. split; [|destruct Hwf as [Hw _]; rewrite sendFrame_log;
                          by destruct (wire_build
                               (CallProtocolSelect CR95HF_PROTO_ISO14443A 0) _ Hw)
                               as [_ ->]].
      unfold sendFrame, port_write. simpl.
      rewrite Hfr, Hfc, Hfs, Hsc, not_yet_arrived_all by done. done. }
    destruct Hp1 as [Hrx1 Ht1].
    rewrite (readResponse_by_deadline tpm fuel Htpm) by (done || lia).
    unfold response_by. rewrite Hrx1. simpl.
    eexists. split; [done|]. by apply sent_since_app.
  - intros Hlen Hcap Hdl.
    destruct (exchange_reads_own_reply tpm fuel Htpm
                (CallProtocolSelect CR95HF_PROTO_ISO14443A 0) 8 50 d reply more)
      as (d' & -> & _ & _ & Hs); try done; try lia.
    simpl. by exists d'.
Qed.

(** A wake step that found nothing has written both wake frames. *)
Lemma wake_none_effect d d1 :
  driver_wf d ->
  wake tpm fuel d = Some (None, d1) ->
  driver_wf d1 /\ tx (_port d1) = tx (_port d) ++ [frame_WUPA; frame_REQA].
Proof.
  intros Hwf. rewrite wake_unfold.
  destruct (exchange tpm fuel CallWUPA 16 20 d) as [[r1 dm]|] eqn:H1; [|done].
  apply exchange_effect in H1 as (Hwf1 & Ht1 & _); [|done].
  destruct (overran r1); [done|].
  destruct (valid_data 2 r1); [done|].
  destruct (exchange tpm fuel CallREQA 16 20 dm) as [[r2 d2]|] eqn:H2; [|done].
  apply exchange_effect in H2 as (Hwf2 & Ht2 & _); [|done].
  destruct (overran r2); [done|].
  intros [= _ <-]. split; [done|]. by rewrite Ht2, Ht1, <- app_assoc.
Qed.

Lemma measureFieldLevel_unfold level d :
  measureFieldLevel tpm fuel level d
  = match protocolSelectA tpm fuel d with
    | None => None
    | Some (false, d1) => Some ((false, 0), d1)
    | Some (true, d1) =>
        match wake tpm fuel d1 with
        | None => None
        | Some (Some _, d2) => Some ((true, 100), d2)
        | Some (None, d2) =>
            match exchange tpm fuel CallREQA 8 50 d2 with
            | None => None
            | Some (r, d3) =>
                if overran r then None
                else Some ((true,
                            if rr_ok r
                            then if rr_code r =? CR95HF_RSP_TIMEOUT then 50 else 25
                            else 0), d3)
            end
        end
    end.
Proof.
  unfold measureFieldLevel. unfold bind at 1.
  destruct (protocolSelectA tpm fuel d) as [[[] d1]|]; [|done|done].
  cbv beta iota delta [negb]. unfold bind at 1.
  destruct (wake tpm fuel d1) as [[[a|] d2]|]; [done| |done].
  rewrite receive_local_exchange.
  destruct (exchange tpm fuel CallREQA 8 50 d2) as [[r d3]|]; [|done].
  destruct (overran r); [done|].
  by destruct (rr_ok r), (rr_code r =? CR95HF_RSP_TIMEOUT).
Qed.

Lemma antennaOK_unfold d :
  antennaOK tpm fuel d
  = match measureFieldLevel tpm fuel 0 d with
    | Some ((ok, lvl), d') => Some (ok && (0 <? lvl), d')
    | None => None
    end.
Proof.
  unfold antennaOK, bind.
  destruct (measureFieldLevel tpm fuel 0 d) as [[[[] lvl] d']|]; done.
Qed.

(** X15. A call of [measureFieldLevel] that returns has done so in one of
    three ways: false with level 0 when the protocol select failed,
    nothing else being sent; true with level 100 when a wake command
    found a tag; true with level 0, 25 or 50 after a second REQA, sent to
    probe the field when both wake commands found nothing.  [antennaOK]
    is then true exactly when the measurement returned true with a level
    above 0. *)
Theorem measureFieldLevel_levels level d ok lvl d' :
  driver_wf d ->
  measureFieldLevel tpm fuel level d = Some ((ok, lvl), d') ->
  antennaOK tpm fuel d = Some (ok && (0 <? lvl), d')
  /\ ((ok = false /\ lvl = 0 /\ sent_since d d' = [frame_ProtocolSelectA])
      \/ (ok = true /\ lvl = 100
          /\ (sent_since d d' = [frame_ProtocolSelectA; frame_WUPA]
              \/ sent_since d d' = [frame_ProtocolSelectA; frame_WUPA; frame_REQA]))
      \/ (ok = true /\ (lvl = 0 \/ lvl = 25 \/ lvl = 50)
          /\ sent_since d d'
             = [frame_ProtocolSelectA; frame_WUPA; frame_REQA; frame_REQA])).
Proof.
  intros Hwf Hm. split.
  { rewrite antennaOK_unfold, (measureFieldLevel_unfold 0),
      <- (measureFieldLevel_unfold level), Hm. done. }
  rewrite measureFieldLevel_unfold in Hm.
  destruct (protocolSelectA tpm fuel d) as [[ps d1]|] eqn:Hps; [|done].
  apply protocolSelectA_effect in Hps as (Hwf1 & _ & Ht1); [|done].
  destruct ps.
  2: { injection Hm as <- <- <-. left. split_and!; try done. by apply sent_since_app. }
  destruct (wake tpm fuel d1) as [[g d2]|] eqn:Hw; [|done].
  pose proof (wake_none_effect d1 d2 Hwf1) as Hnone.
  destruct g as [a|].
  { apply wake_effect in Hw as (Hwf2 & _ & Ht2); [|done].
    injection Hm as <- <- <-. right. left. split_and!; try done.
    destruct Ht2 as [Ht2|Ht2]; [left|right]; apply sent_since_app;
      by rewrite Ht2, Ht1, <- app_assoc. }
  destruct (Hnone Hw) as [Hwf2 Ht2].
  destruct (exchange tpm fuel CallREQA 8 50 d2) as [[r d3]|] eqn:Hx; [|done].
  apply exchange_effect in Hx as (_ & Ht3 & _); [|done].
  destruct (overran r); [done|].
  injection Hm as <- <- <-. right. right.
  split; [done|]. split.
  - destruct (rr_ok r), (rr_code r =? CR95HF_RSP_TIMEOUT); lia.
  - apply sent_since_app. by rewrite Ht3, Ht2, Ht1, <- !app_assoc.
Qed.

(** X16. The outputs of a discovery call that returns, the caller's buffer
    having room for an identifier, are of one of three shapes: true with
    [uidLen = 4] and only [uid[0..3]] written; true with [uidLen = 7];
    false with [uidLen = 0], [sakOut = 0] and at most [uid[0..2]]
    written.  Nothing is written from [uid[7]] on. *)
Theorem iso14443aGetUID_outputs uid0 d ok out d' :
  (7 <= length uid0)%nat ->
  iso14443aGetUID tpm fuel uid0 d = Some ((ok, out), d') ->
  length (uid out) = length uid0
  /\ drop 7 (uid out) = drop 7 uid0
  /\ if ok
     then (uidLen out = 4 /\ drop 4 (uid out) = drop 4 uid0) \/ uidLen out = 7
     else uidLen out = 0 /\ sakOut out = 0 /\ drop 3 (uid out) = drop 3 uid0.
Proof.
  intros Hu. rewrite iso14443aGetUID_unfold.
  destruct (wake tpm fuel d) as [[g d1]|]; [|done].
  destruct g as [[a1 a2]|]; [|by intros [= <- <- _]].
  rewrite resolve_uid_unfold.
  destruct (anticollCL1 tpm fuel (set_atqa a1 a2 d1)) as [[c1 d2]|]; [|done].
  destruct c1 as [cl1|]; [|by intros [= <- <- _]].
  destruct (selectCL1 tpm fuel cl1 d2) as [[s1 d3]|]; [|done].
  destruct s1 as [sak1|]; [|by intros [= <- <- _]].
  destruct (negb (cell cl1 0 =? ISO14443A_CT)).
  { intros [= <- <- _]. simpl.
    rewrite !length_insert, !drop_insert_lt by lia. split_and!; try done. by left. }
  cbv zeta.
  destruct (anticollCL2 tpm fuel d3) as [[c2 d4]|]; [|done].
  destruct c2 as [cl2|].
  2: { intros [= <- <- _]. simpl.
       by rewrite !length_insert, !drop_insert_lt by lia. }
  destruct (selectCL2 tpm fuel cl2 d4) as [[s2 d5]|]; [|done].
  destruct s2 as [sak2|].
  2: { intros [= <- <- _]. simpl.
       by rewrite !length_insert, !drop_insert_lt by lia. }
  intros [= <- <- _]. simpl.
  rewrite !length_insert, !drop_insert_lt by lia. split_and!; try done. by right.
Qed.

Lemma wrote_at_most_trans n1 n2 d d1 d2 :
  wrote_at_most n1 d d1 -> wrote_at_most n2 d1 d2 -> wrote_at_most (n1 + n2) d d2.
Proof.
  intros (l1 & H1 & L1) (l2 & H2 & L2). exists (l1 ++ l2).
  rewrite H2, H1, <- app_assoc, length_app. split; [done|lia].
Qed.

Lemma wrote_at_most_weaken n n' d d' :
  wrote_at_most n d d' -> (n <= n')%nat -> wrote_at_most n' d d'.
Proof. intros (l & H & L) Hn. exists l. split; [done|lia]. Qed.

Lemma wrote_one d d' fr :
  tx (_port d') = tx (_port d) ++ [fr] -> wrote_at_most 1 d d'.
Proof. intros H. exists [fr]. split; [done|simpl; lia]. Qed.

(** The cascade levels write at most four frames. *)
Lemma resolve_uid_frames uid0 a1 a2 d res d' :
  driver_wf d ->
  resolve_uid tpm fuel uid0 a1 a2 d = Some (res, d') ->
  wrote_at_most 4 d d'.
Proof.
  intros Hwf. rewrite resolve_uid_unfold.
  pose proof (set_atqa_wf a1 a2 d Hwf) as Hwf0.
  destruct (anticollCL1 tpm fuel (set_atqa a1 a2 d)) as [[c1 d2]|] eqn:Ha; [|done].
  apply anticollCL1_effect in Ha as (Hwf2 & _ & Ht2 & H5); [|done].
  simpl in Ht2. apply wrote_one in Ht2 as W1.
  destruct c1 as [cl1|];
    [|intros [= _ <-]; eapply wrote_at_most_weaken; [exact W1|lia]].
  destruct (selectCL1 tpm fuel cl1 d2) as [[s1 d3]|] eqn:Hs; [|done].
  apply selectCL1_effect in Hs as (Hwf3 & _ & Ht3); [|done|by apply H5].
  apply wrote_one in Ht3 as W2.
  pose proof (wrote_at_most_trans _ _ _ _ _ W1 W2) as W12.
  destruct s1 as [sak1|];
    [|intros [= _ <-]; eapply wrote_at_most_weaken; [exact W12|lia]].
  destruct (negb (cell cl1 0 =? ISO14443A_CT));
    [intros [= _ <-]; eapply wrote_at_most_weaken; [exact W12|lia]|].
  cbv zeta.
  destruct (anticollCL2 tpm fuel d3) as [[c2 d4]|] eqn:Ha2; [|done].
  apply anticollCL2_effect in Ha2 as (Hwf4 & _ & Ht4 & H5'); [|done].
  apply wrote_one in Ht4 as W3.
  pose proof (wrote_at_most_trans _ _ _ _ _ W12 W3) as W123.
  destruct c2 as [cl2|];
    [|intros [= _ <-]; eapply wrote_at_most_weaken; [exact W123|lia]].
  destruct (selectCL2 tpm fuel cl2 d4) as [[s2 d5]|] eqn:Hs2; [|done].
  apply selectCL2_effect in Hs2 as (Hwf5 & _ & Ht5); [|done|by apply H5'].
  apply wrote_one in Ht5 as W4.
  pose proof (wrote_at_most_trans _ _ _ _ _ W123 W4) as W1234.
  destruct s2 as [sak2|]; intros [= _ <-]; exact W1234.
Qed.

(** X17. A discovery call that returns, the caller's buffer having room
    for an identifier, has written at most six frames, the first of them
    the WUPA frame. *)
Theorem iso14443aGetUID_bounded uid0 d res d' :
  driver_wf d ->
  (7 <= length uid0)%nat ->
  iso14443aGetUID tpm fuel uid0 d = Some (res, d') ->
  exists more,
    sent_since d d' = frame_WUPA :: more /\ (length more <= 5)%nat.
Proof.
  intros Hwf _. rewrite iso14443aGetUID_unfold.
  destruct (wake tpm fuel d) as [[g d1]|] eqn:Hw; [|done].
  apply wake_effect in Hw as (Hwf1 & _ & Ht1); [|done].
  destruct g as [[a1 a2]|].
  - intros He. apply resolve_uid_frames in He as (l & Hl & Hn); [|done].
    destruct Ht1 as [Ht1|Ht1]; rewrite Ht1, <- app_assoc in Hl;
      rewrite (sent_since_app _ _ _ Hl); eexists; (split; [reflexivity|]);
      simpl; lia.
  - intros [= _ <-].
    destruct Ht1 as [Ht1|Ht1]; rewrite (sent_since_app _ _ _ Ht1);
      eexists; (split; [reflexivity|]); simpl; lia.
Qed.

(** X20. With enough fuel a protocol step is without a result only when
    its reply overran the array of the step: the exchange itself always
    returns, and the step returns exactly when no byte of the response
    was stored outside the array. *)
Theorem steps_return_unless_overrun d cmd cl :
  (exists r d',
      exchange tpm fuel (if cmd =? ISO14443A_WUPA then CallWUPA else CallREQA) 16 20 d
      = Some (r, d')
      /\ (sendReqWup tpm fuel cmd d = None <-> overran r = true)) /\
  (exists r d',
      exchange tpm fuel CallAnticollCL1 16 50 d = Some (r, d')
      /\ (anticollCL1 tpm fuel d = None <-> overran r = true)) /\
  (exists r d',
      exchange tpm fuel (CallSelectCL1 cl) 8 50 d = Some (r, d')
      /\ (selectCL1 tpm fuel cl d = None <-> overran r = true)) /\
  (exists r d',
      exchange tpm fuel CallAnticollCL2 16 50 d = Some (r, d')
      /\ (anticollCL2 tpm fuel d = None <-> overran r = true)) /\
  (exists r d',
      exchange tpm fuel (CallSelectCL2 cl) 8 50 d = Some (r, d')
      /\ (selectCL2 tpm fuel cl d = None <-> overran r = true)) /\
  (exists r d',
      exchange tpm fuel (CallProtocolSelect CR95HF_PROTO_ISO14443A 0) 8 50 d
      = Some (r, d')
      /\ (protocolSelectA tpm fuel d = None <-> overran r = true)).
Proof.
  split_and!.
  - destruct (exchange_returns tpm fuel Htpm Hfuel
                (if cmd =? ISO14443A_WUPA then CallWUPA else CallREQA) 16 20 d)
      as (r & d' & He); [lia|].
    exists r, d'. split; [exact He|]. rewrite sendReqWup_exchange, He.
    by destruct (overran r).
  - destruct (exchange_returns tpm fuel Htpm Hfuel CallAnticollCL1 16 50 d)
      as (r & d' & He); [lia|].
    exists r, d'. split; [exact He|]. rewrite anticollCL1_exchange, He.
    by destruct (overran r).
  - destruct (exchange_returns tpm fuel Htpm Hfuel (CallSelectCL1 cl) 8 50 d)
      as (r & d' & He); [lia|].
    exists r, d'. split; [exact He|]. rewrite selectCL1_exchange, He.
    by destruct (overran r).
  - destruct (exchange_returns tpm fuel Htpm Hfuel CallAnticollCL2 16 50 d)
      as (r & d' & He); [lia|].
    exists r, d'. split; [exact He|]. rewrite anticollCL2_exchange, He.
    by destruct (overran r).
  - destruct (exchange_returns tpm fuel Htpm Hfuel (CallSelectCL2 cl) 8 50 d)
      as (r & d' & He); [lia|].
    exists r, d'. split; [exact He|]. rewrite selectCL2_exchange, He.
    by destruct (overran r).
  - destruct (exchange_returns tpm fuel Htpm Hfuel
                (CallProtocolSelect CR95HF_PROTO_ISO14443A 0) 8 50 d)
      as (r & d' & He); [lia|].
    exists r, d'. split; [exact He|]. rewrite protocolSelectA_exchange, He.
    by destruct (overran r).
Qed.

End ServiceReturns.

Lemma protocolSelectA_by_status_witness :
  (exists d',
      protocolSelectA 1 400 (driver0 tag4_idle) = Some (false, d')
      /\ tx (_port d') = [frame_ProtocolSelectA]) /\
  (exists d', protocolSelectA 1 400 (driver0 (empty_reply 0x00)) = Some (true, d')).
Proof.
  split.
  - edestruct (protocolSelectA_by_status 1 400 ltac:(lia) ltac:(unfold fuel_ok; lia)
                 (driver0 tag4_idle)) as [Hsilent _].
    + split; reflexivity.
    + constructor.
    + reflexivity.
    + destruct (Hsilent eq_refl) as (d' & He & Hc). exists d'. split; [exact He|].
      exact Hc.
  - edestruct (protocolSelectA_by_status 1 400 ltac:(lia) ltac:(unfold fuel_ok; lia)
                 (driver0 (empty_reply 0x00))) as [_ Hreply].
    + split; reflexivity.
    + constructor.
    + reflexivity.
    + destruct Hreply as (d' & He & _).
      * reflexivity.
      * simpl; lia.
      * repeat constructor; simpl; lia.
      * exists d'. exact He.
Defined.

Lemma measureFieldLevel_levels_witness :
  exists d',
    measureFieldLevel 1 400 0 (driver0 field_on_no_tag) = Some ((true, 50), d')
    /\ antennaOK 1 400 (driver0 field_on_no_tag) = Some (true, d')
    /\ sent_since (driver0 field_on_no_tag) d'
       = [frame_ProtocolSelectA; frame_WUPA; frame_REQA; frame_REQA].
Proof.
  edestruct (measureFieldLevel_levels 1 400 0 (driver0 field_on_no_tag) true 50)
    as [Ha Hcases].
  - split; reflexivity.
  - vm_compute; reflexivity.
  - eexists. split; [vm_compute; reflexivity|]. split; [exact Ha|].
    destruct Hcases as [(Hf & _)|[(_ & Hl & _)|(_ & _ & Hs)]];
      [discriminate Hf | discriminate Hl | exact Hs].
Defined.

Lemma iso14443aGetUID_outputs_witness :
  exists out d',
    iso14443aGetUID 1 400 uid_buf (driver0 tag7_lost) = Some ((false, out), d')
    /\ uidLen out = 0 /\ sakOut out = 0 /\ drop 3 (uid out) = replicate 7 0xEE.
Proof.
  edestruct (iso14443aGetUID_outputs 1 400 uid_buf (driver0 tag7_lost) false)
    as (_ & _ & H1 & H2 & H3).
  - simpl; lia.
  - vm_compute; reflexivity.
  - eexists _, _. split; [vm_compute; reflexivity|].
    split; [exact H1|]. split; [exact H2 | exact H3].
Defined.

Lemma iso14443aGetUID_bounded_witness :
  exists res d' more,
    iso14443aGetUID 1 400 uid_buf (driver0 tag7_desfire) = Some (res, d')
    /\ sent_since (driver0 tag7_desfire) d' = frame_WUPA :: more
    /\ (length more <= 5)%nat.
Proof.
  edestruct (iso14443aGetUID_bounded 1 400 uid_buf (driver0 tag7_desfire))
    as (more & Hs & Hn).
  - split; reflexivity.
  - simpl; lia.
  - vm_compute; reflexivity.
  - eexists _, _, more. split; [vm_compute; reflexivity|].
    split; [exact Hs | exact Hn].
Defined.

(** [steps_return_unless_overrun] on the chip whose select reply has nine
    bytes: the exchange returns, the select step has no result. *)
Lemma steps_return_unless_overrun_witness :
  exists r d',
    exchange 1 400 (CallSelectCL1 [0x12; 0x34; 0x56; 0x78; 0x08]) 8 50 (driver0 long_reply)
    = Some (r, d')
    /\ overran r = true
    /\ selectCL1 1 400 [0x12; 0x34; 0x56; 0x78; 0x08] (driver0 long_reply) = None.
Proof.
  destruct (steps_return_unless_overrun 1 400 ltac:(lia) ltac:(unfold fuel_ok; lia)
              (driver0 long_reply) 0 [0x12; 0x34; 0x56; 0x78; 0x08])
    as (_ & _ & (r & d' & He & Hiff) & _).
  exists r, d'. split; [exact He|].
  assert (Ho : overran r = true).
  { pose proof He as He'. vm_compute in He'. injection He' as Hr _.
    rewrite <- Hr. reflexivity. }
  split; [exact Ho|]. apply Hiff. exact Ho.
Defined.

(** * What earlier calls leave in the driver object does not matter *)

Section Leftovers.

Variable tpm : Z.
Variable fuel : nat.

Lemma exchange_same_line c cap t d d' :
  same_line d d' ->
  agree same_line (exchange tpm fuel c cap t d) (exchange tpm fuel c cap t d').
Proof.
  intros (Hp & Hf & Hf'). rewrite !exchange_unfold.
  destruct (wire_build c _ Hf) as [[Hw _] Hb].
  destruct (wire_build c _ Hf') as [[Hw' _] Hb'].
  unfold sendFrame. rewrite Hb, Hb', Hp.
  destruct (readResponse _ _ _ _ _ _ _) as [[r p1]|]; simpl; [|done].
  by split.
Qed.

Lemma set_atqa_same_line a1 a2 d d' :
  same_line d d' -> same_line (set_atqa a1 a2 d) (set_atqa a1 a2 d').
Proof. by intros (? & ? & ?). Qed.

Lemma wake_same_line d d' :
  same_line d d' -> agree same_line (wake tpm fuel d) (wake tpm fuel d').
Proof.
  intros Hs. rewrite !wake_unfold.
  pose proof (exchange_same_line CallWUPA 16 20 d d' Hs) as H1.
  destruct (exchange tpm fuel CallWUPA 16 20 d) as [[r1 e1]|],
           (exchange tpm fuel CallWUPA 16 20 d') as [[r1' e1']|];
    simpl in H1; try done.
  destruct H1 as [<- Hs1]. destruct (overran r1); [done|].
  destruct (valid_data 2 r1); [done|].
  pose proof (exchange_same_line CallREQA 16 20 e1 e1' Hs1) as H2.
  destruct (exchange tpm fuel CallREQA 16 20 e1) as [[r2 e2]|],
           (exchange tpm fuel CallREQA 16 20 e1') as [[r2' e2']|];
    simpl in H2; try done.
  destruct H2 as [<- Hs2]. by destruct (overran r2).
Qed.

Lemma resolve_uid_same_line uid0 a1 a2 d d' :
  same_line d d' ->
  agree same_line (resolve_uid tpm fuel uid0 a1 a2 d) (resolve_uid tpm fuel uid0 a1 a2 d').
Proof.
  intros Hs. rewrite !resolve_uid_unfold.
  rewrite !anticollCL1_exchange.
  pose proof (exchange_same_line CallAnticollCL1 16 50 _ _ (set_atqa_same_line a1 a2 _ _ Hs))
    as H1.
  destruct (exchange tpm fuel CallAnticollCL1 16 50 (set_atqa a1 a2 d)) as [[r1 e1]|],
           (exchange tpm fuel CallAnticollCL1 16 50 (set_atqa a1 a2 d')) as [[r1' e1']|];
    simpl in H1; try done.
  destruct H1 as [<- Hs1]. destruct (overran r1); [done|].
  destruct (valid_data 5 r1); [|done].
  set (cl1 := take 5 (cells (rr_buf r1))).
  rewrite !selectCL1_exchange.
  pose proof (exchange_same_line (CallSelectCL1 cl1) 8 50 e1 e1' Hs1) as H2.
  destruct (exchange tpm fuel (CallSelectCL1 cl1) 8 50 e1) as [[r2 e2]|],
           (exchange tpm fuel (CallSelectCL1 cl1) 8 50 e1') as [[r2' e2']|];
    simpl in H2; try done.
  destruct H2 as [<- Hs2]. destruct (overran r2); [done|].
  destruct (valid_data 1 r2); [|done].
  destruct (negb (cell cl1 0 =? ISO14443A_CT)); [done|]. cbv zeta.
  rewrite !anticollCL2_exchange.
  pose proof (exchange_same_line CallAnticollCL2 16 50 e2 e2' Hs2) as H3.
  destruct (exchange tpm fuel CallAnticollCL2 16 50 e2) as [[r3 e3]|],
           (exchange tpm fuel CallAnticollCL2 16 50 e2') as [[r3' e3']|];
    simpl in H3; try done.
  destruct H3 as [<- Hs3]. destruct (overran r3); [done|].
  destruct (valid_data 5 r3); [|done].
  set (cl2 := take 5 (cells (rr_buf r3))).
  rewrite !selectCL2_exchange.
  pose proof (exchange_same_line (CallSelectCL2 cl2) 8 50 e3 e3' Hs3) as H4.
  destruct (exchange tpm fuel (CallSelectCL2 cl2) 8 50 e3) as [[r4 e4]|],
           (exchange tpm fuel (CallSelectCL2 cl2) 8 50 e3') as [[r4' e4']|];
    simpl in H4; try done.
  destruct H4 as [<- Hs4]. destruct (overran r4); [done|].
  by destruct (valid_data 1 r4).
Qed.

Lemma iso14443aGetUID_same_line uid0 d d' :
  same_line d d' ->
  agree same_line (iso14443aGetUID tpm fuel uid0 d) (iso14443aGetUID tpm fuel uid0 d').
Proof.
  intros Hs. rewrite !iso14443aGetUID_unfold.
  pose proof (wake_same_line d d' Hs) as H1.
  destruct (wake tpm fuel d) as [[g e1]|], (wake tpm fuel d') as [[g' e1']|];
    simpl in H1; try done.
  destruct H1 as [<- Hs1]. destruct g as [[a1 a2]|]; [|done].
  by apply resolve_uid_same_line.
Qed.

(** X18. The outcome of a discovery depends on the line and the chip only:
    of two driver objects on the same port, whatever earlier calls left
    in their frame buffers and in [lastATQA], when the call on one
    returns (the caller's buffer having room for an identifier), the
    call on the other returns the same result and identifier and leaves
    the port in the same state. *)
Theorem iso14443aGetUID_ignores_leftovers uid0 d d' res e :
  same_line d d' ->
  (7 <= length uid0)%nat ->
  iso14443aGetUID tpm fuel uid0 d = Some (res, e) ->
  exists e',
    iso14443aGetUID tpm fuel uid0 d' = Some (res, e') /\ _port e = _port e'.
Proof.
  intros Hs _ He. pose proof (iso14443aGetUID_same_line uid0 d d' Hs) as H.
  rewrite He in H.
  destruct (iso14443aGetUID tpm fuel uid0 d') as [[res' e']|]; [|done].
  destruct H as [<- (Hp & _)]. by exists e'.
Qed.

End Leftovers.

Lemma iso14443aGetUID_ignores_leftovers_witness :
  exists out e e',
    iso14443aGetUID 1 400 uid_buf (driver0 tag7) = Some ((true, out), e)
    /\ iso14443aGetUID 1 400 uid_buf
         (mkDriver tag7 (build (CallSendRecv (replicate 30 0xAA) 30 0x28) frame0)
                   [0x44; 0x03])
       = Some ((true, out), e')
    /\ _port e = _port e'.
Proof.
  edestruct (iso14443aGetUID_ignores_leftovers 1 400 uid_buf (driver0 tag7)
               (mkDriver tag7 (build (CallSendRecv (replicate 30 0xAA) 30 0x28) frame0)
                         [0x44; 0x03]))
    as (e' & He' & Hp).
  - split; [reflexivity | split; reflexivity].
  - simpl; lia.
  - vm_compute; reflexivity.
  - eexists _, _, e'. split; [vm_compute; reflexivity|]. split; [exact He' | exact Hp].
Defined.

(** * Card names *)

(** X19. [getCardType] names exactly the eleven SAK values of its table, each
    by a name of its own; every other value is "Unknown". *)
Theorem getCardType_table :
  (forall sak, getCardType sak <> "Unknown"%string <-> In sak known_saks)
  /\ (forall s1 s2, In s1 known_saks -> In s2 known_saks ->
                    getCardType s1 = getCardType s2 -> s1 = s2).
Proof.
  split.
  - intros sak. unfold getCardType, known_saks.
    unfold SAK_MIFARE_UL, SAK_MIFARE_1K, SAK_MIFARE_MINI, SAK_MIFARE_4K,
      SAK_MIFARE_PLUS_2K, SAK_MIFARE_PLUS_4K, SAK_MIFARE_PLUS, SAK_JCOP,
      SAK_MIFARE_4K_EMU, SAK_MIFARE_1K_INF, SAK_MIFARE_PRO.
    simpl In.
    repeat (match goal with
            | |- context [?x =? ?y] => destruct (Z.eqb_spec x y)
            end);
      (split; [intros Hn; try (exfalso; by apply Hn); lia | intros _; discriminate])
      || (split; [intros Hn; by exfalso | lia]).
  - intros s1 s2 H1 H2.
    unfold known_saks in H1, H2. simpl in H1, H2.
    repeat (destruct H1 as [<-|H1]; [|]); try contradiction;
      repeat (destruct H2 as [<-|H2]; [|]); try contradiction;
      vm_compute; intros He; (reflexivity || discriminate He).
Qed.

Lemma getCardType_table_witness :
  getCardType 0x08 <> "Unknown"%string /\ getCardType 0x42 = "Unknown"%string.
Proof.
  split.
  - apply (proj1 getCardType_table 0x08). simpl. tauto.
  - destruct (String.string_dec (getCardType 0x42) "Unknown"%string) as [H|H]; [exact H|].
    apply (proj1 getCardType_table 0x42) in H. simpl in H.
    unfold SAK_MIFARE_UL, SAK_MIFARE_1K, SAK_MIFARE_MINI, SAK_MIFARE_4K,
      SAK_MIFARE_PLUS_2K, SAK_MIFARE_PLUS_4K, SAK_MIFARE_PLUS, SAK_JCOP,
      SAK_MIFARE_4K_EMU, SAK_MIFARE_1K_INF, SAK_MIFARE_PRO in H. lia.
Defined.
